(** * data_processor.py: the balance-log pipeline, embedded and verified

    The program reads a CSV export (columns 時間 and 残高), converts the
    balance column to floats and the time column to timestamps, removes
    duplicate and missing timestamps, sorts, builds the 15-minute grid
    between the first and the last timestamp, adds a row for every grid
    instant that was not observed, forward-fills the balances and writes
    the table next to the input file.

    Conventions of the embedding:
    - a pandas [Timestamp] is its int64 count of nanoseconds since the
      epoch, a [Z]; [NaT] is [None];
    - a float64 is the exact rational it denotes, or an infinity, or NaN
      (the program only moves balances around and tests them for NaN);
    - a Python exception is a value of [exn]; code that may raise returns
      a [result], and [try ... except Exception] is a match on it;
    - the file system is a map from paths to tables;
    - [float], [pd.to_datetime] and [to_csv] are library code: they are
      given a model ([float_of_chars], [to_datetime], [to_csv]) that
      [process_csv] runs on, and they are the fields of a [library], for
      the statements that hold whatever these three do. *)

From Stdlib Require Import ZArith List String Ascii Bool Lia QArith.
From Stdlib Require Import Sorted Permutation.
Import ListNotations.

Local Open Scope Z_scope.

(** ** Exceptions *)

Inductive exn : Type :=
| FileNotFoundError
| KeyError (column : string)
| ValueError
| OutOfBoundsDatetime
| OSError.

Inductive result (A : Type) : Type :=
| Ok (a : A)
| Raise (e : exn).

Arguments Ok {A} a.
Arguments Raise {A} e.

Definition bind {A B : Type} (r : result A) (k : A -> result B) : result B :=
  match r with
  | Ok a => k a
  | Raise e => Raise e
  end.

Notation "x <- r ;; k" := (bind r (fun x => k))
  (at level 61, r at next level, right associativity).

(** An operation on a whole column raises as soon as one element does. *)
Fixpoint mapM {A B : Type} (f : A -> result B) (l : list A) : result (list B) :=
  match l with
  | [] => Ok []
  | x :: l' => y <- f x ;; ys <- mapM f l' ;; Ok (y :: ys)
  end.

(** ** Floats *)

Inductive float64 : Type :=
| Real (q : Q)
| Inf (negative : bool)
| NaN.

Definition float_of_Z (z : Z) : float64 := Real (inject_Z z).

Definition is_nan (x : float64) : bool :=
  match x with
  | NaN => true
  | _ => false
  end.

(** ** Text *)

Definition chars := list ascii.

Fixpoint chars_of (s : string) : chars :=
  match s with
  | EmptyString => []
  | String c s' => c :: chars_of s'
  end.

Fixpoint string_of (l : chars) : string :=
  match l with
  | [] => EmptyString
  | c :: l' => String c (string_of l')
  end.

Definition code (c : ascii) : Z := Z.of_N (N_of_ascii c).

Definition digit_of (c : ascii) : option Z :=
  let n := code c in
  if (48 <=? n) && (n <=? 57) then Some (n - 48) else None.

(** The blanks [float] ignores at both ends of an ASCII text: tab, LF, VT,
    FF, CR and the space (the separators U+001C to U+001F are none). *)
Definition isspace (c : ascii) : bool :=
  let n := code c in
  ((9 <=? n) && (n <=? 13)) || (n =? 32).

Definition lower (c : ascii) : ascii :=
  let n := code c in
  if (65 <=? n) && (n <=? 90) then ascii_of_N (Z.to_N (n + 32)) else c.

Fixpoint lstrip (s : chars) : chars :=
  match s with
  | c :: s' => if isspace c then lstrip s' else s
  | [] => []
  end.

Definition strip (s : chars) : chars := rev (lstrip (rev (lstrip s))).

Definition chars_eqb (a b : chars) : bool :=
  String.eqb (string_of a) (string_of b).

(** [s.replace(' ', '')]: every U+0020 is removed, nothing else. *)
Definition replace_spaces (s : chars) : chars :=
  filter (fun c => negb (Ascii.eqb c " "%char)) s.

Fixpoint starts_with (p s : chars) : bool :=
  match p, s with
  | [], _ => true
  | a :: p', b :: s' => Ascii.eqb a b && starts_with p' s'
  | _ :: _, [] => false
  end.

(** [p in s] *)
Fixpoint contains (p s : chars) : bool :=
  starts_with p s ||
  match s with
  | [] => false
  | _ :: s' => contains p s'
  end.

(** ** [float(str)]

    The grammar of Python's [float] on an ASCII text: blanks at both ends
    are ignored, then an optional sign and either [inf], [infinity] or
    [nan] in any case, or a decimal number with an optional exponent; the
    digits of a digit part may be separated by single underscores.

    The number is the exact value of the decimal text: the rounding to
    binary64, the overflow to an infinity and the digits and blanks
    outside ASCII that [float] also reads are not represented. What is
    proved of a balance that fails to convert is proved for any [float]
    ([py_float] of a [library]). *)

(** The rest of a digit part, after its first digit: [acc] is the number
    read so far and [n] the number of digits read. *)
Fixpoint digits_tail (acc n : Z) (s : chars) {struct s} : Z * Z * chars :=
  match s with
  | [] => (acc, n, [])
  | c :: s' =>
      match digit_of c with
      | Some d => digits_tail (10 * acc + d) (n + 1) s'
      | None =>
          if Ascii.eqb c "_"%char then
            match s' with
            | c2 :: s'' =>
                match digit_of c2 with
                | Some d => digits_tail (10 * acc + d) (n + 1) s''
                | None => (acc, n, s)
                end
            | [] => (acc, n, s)
            end
          else (acc, n, s)
      end
  end.

(** A digit part continuing the number [acc]: the number, how many digits
    were read, and the rest of the text. *)
Definition digitpart (acc : Z) (s : chars) : option (Z * Z * chars) :=
  match s with
  | c :: s' =>
      match digit_of c with
      | Some d => Some (digits_tail (10 * acc + d) 1 s')
      | None => None
      end
  | [] => None
  end.

Definition sign_of (s : chars) : bool * chars :=
  match s with
  | c :: s' =>
      if Ascii.eqb c "-"%char then (true, s')
      else if Ascii.eqb c "+"%char then (false, s')
      else (false, s)
  | [] => (false, [])
  end.

(** [digits . digits], [digits .], [digits] or [. digits]: the digits read
    as one integer, and the number of digits after the point. *)
Definition number (s : chars) : option (Z * Z * chars) :=
  match digitpart 0 s with
  | Some (ip, _, r) =>
      match r with
      | c :: r' =>
          if Ascii.eqb c "."%char then
            match digitpart ip r' with
            | Some (m, k, r'') => Some (m, k, r'')
            | None => Some (ip, 0, r')
            end
          else Some (ip, 0, r)
      | [] => Some (ip, 0, [])
      end
  | None =>
      match s with
      | c :: r' =>
          if Ascii.eqb c "."%char then digitpart 0 r' else None
      | [] => None
      end
  end.

Definition exponent (s : chars) : option (Z * chars) :=
  match s with
  | c :: r =>
      if Ascii.eqb (lower c) "e"%char then
        let '(neg, r') := sign_of r in
        match digitpart 0 r' with
        | Some (e, _, r'') => Some (if neg then - e else e, r'')
        | None => None
        end
      else Some (0, s)
  | [] => Some (0, [])
  end.

(** mantissa * 10 ^ e, in lowest terms *)
Definition scale10 (m e : Z) : Q :=
  if 0 <=? e then inject_Z (m * 10 ^ e)
  else Qred (Qmake m (Z.to_pos (10 ^ (- e)))).

Definition float_of_chars (s : chars) : option float64 :=
  let '(neg, body) := sign_of (strip s) in
  let word := map lower body in
  if chars_eqb word (chars_of "inf") || chars_eqb word (chars_of "infinity")
  then Some (Inf neg)
  else if chars_eqb word (chars_of "nan") then Some NaN
  else
    match number body with
    | Some (m, k, r) =>
        match exponent r with
        | Some (e, []) => Some (Real (scale10 (if neg then - m else m) (e - k)))
        | _ => None
        end
    | None => None
    end.

Definition float_of_string (s : string) : option float64 :=
  float_of_chars (chars_of s).

(** ** Timestamps

    [datetime64[ns]]: nanoseconds since 1970-01-01 00:00:00, within int64
    ([NaT] takes the least int64). *)

Abbreviation Timestamp := Z (only parsing).

Definition ns_per_second : Z := 1000000000.
Definition ns_per_day : Z := 86400 * ns_per_second.

Definition Timestamp_min : Z := - (2 ^ 63 - 1).
Definition Timestamp_max : Z := 2 ^ 63 - 1.

(** The 15-minute frequency ['15T'], in nanoseconds. *)
Definition freq_15T : Z := 15 * 60 * ns_per_second.

Definition is_leap (y : Z) : bool :=
  ((y mod 4 =? 0) && negb (y mod 100 =? 0)) || (y mod 400 =? 0).

Definition days_in_month (y m : Z) : Z :=
  if m =? 2 then (if is_leap y then 29 else 28)
  else if (m =? 4) || (m =? 6) || (m =? 9) || (m =? 11) then 30
  else 31.

(** Days from 1970-01-01 to the civil date y-m-d (proleptic Gregorian). *)
Definition days_from_civil (y m d : Z) : Z :=
  let y' := if m <=? 2 then y - 1 else y in
  let era := y' / 400 in
  let yoe := y' - era * 400 in
  let doy := (153 * (if 2 <? m then m - 3 else m + 9) + 2) / 5 + d - 1 in
  let doe := yoe * 365 + yoe / 4 - yoe / 100 + doy in
  era * 146097 + doe - 719468.

(** The civil date of a day number. *)
Definition civil_from_days (z : Z) : Z * Z * Z :=
  let z' := z + 719468 in
  let era := z' / 146097 in
  let doe := z' - era * 146097 in
  let yoe := (doe - doe / 1460 + doe / 36524 - doe / 146096) / 365 in
  let doy := doe - (365 * yoe + yoe / 4 - yoe / 100) in
  let mp := (5 * doy + 2) / 153 in
  let d := doy - (153 * mp + 2) / 5 + 1 in
  let m := if mp <? 10 then mp + 3 else mp - 9 in
  ((if m <=? 2 then yoe + era * 400 + 1 else yoe + era * 400), m, d).

Record fields : Type := mkFields {
  f_year : Z; f_month : Z; f_day : Z;
  f_hour : Z; f_minute : Z; f_second : Z
}.

(** Exactly [n] digits. *)
Fixpoint fixed_digits (n : nat) (acc : Z) (s : chars) : option (Z * chars) :=
  match n with
  | O => Some (acc, s)
  | S n' =>
      match s with
      | c :: s' =>
          match digit_of c with
          | Some d => fixed_digits n' (10 * acc + d) s'
          | None => None
          end
      | [] => None
      end
  end.

(** One or two digits, two when there are two. *)
Definition two_digits (s : chars) : option (Z * chars) :=
  match s with
  | c :: s' =>
      match digit_of c with
      | Some d =>
          match s' with
          | c2 :: s'' =>
              match digit_of c2 with
              | Some d2 => Some (10 * d + d2, s'')
              | None => Some (d, s')
              end
          | [] => Some (d, [])
          end
      | None => None
      end
  | [] => None
  end.

Definition expect (c : ascii) (s : chars) : option chars :=
  match s with
  | c' :: s' => if Ascii.eqb c c' then Some s' else None
  | [] => None
  end.

Definition obind {A B : Type} (o : option A) (k : A -> option B) : option B :=
  match o with
  | Some a => k a
  | None => None
  end.

(** The text against the format ['%Y.%m.%d %H:%M:%S'], all of it. *)
Definition strptime (s : chars) : option fields :=
  obind (fixed_digits 4 0 s) (fun '(y, s) =>
  obind (expect "."%char s) (fun s =>
  obind (two_digits s) (fun '(m, s) =>
  obind (expect "."%char s) (fun s =>
  obind (two_digits s) (fun '(d, s) =>
  obind (expect " "%char s) (fun s =>
  obind (two_digits s) (fun '(h, s) =>
  obind (expect ":"%char s) (fun s =>
  obind (two_digits s) (fun '(mi, s) =>
  obind (expect ":"%char s) (fun s =>
  obind (two_digits s) (fun '(sec, s) =>
  match s with
  | [] => Some (mkFields y m d h mi sec)
  | _ :: _ => None
  end))))))))))).

Definition valid_fields (f : fields) : bool :=
  (1 <=? f_month f) && (f_month f <=? 12) &&
  (1 <=? f_day f) && (f_day f <=? days_in_month (f_year f) (f_month f)) &&
  (f_hour f <=? 23) && (f_minute f <=? 59) && (f_second f <=? 59).

Definition ns_of_fields (f : fields) : Z :=
  (days_from_civil (f_year f) (f_month f) (f_day f) * 86400
   + f_hour f * 3600 + f_minute f * 60 + f_second f) * ns_per_second.

Definition in_bounds (t : Z) : bool :=
  (Timestamp_min <=? t) && (t <=? Timestamp_max).

Definition fields_of_ns (t : Z) : fields :=
  let days := t / ns_per_day in
  let secs := (t mod ns_per_day) / ns_per_second in
  let '(y, m, d) := civil_from_days days in
  mkFields y m d (secs / 3600) (secs mod 3600 / 60) (secs mod 60).

Definition digit_char (d : Z) : ascii := ascii_of_N (Z.to_N (48 + d mod 10)).

Definition pad2 (n : Z) : chars := [digit_char (n / 10); digit_char n].

Definition pad4 (n : Z) : chars :=
  [digit_char (n / 1000); digit_char (n / 100); digit_char (n / 10);
   digit_char n].

(** The fields in the layout [YYYY.MM.DD HH:MM:SS]. *)
Definition format_fields (f : fields) : chars :=
  pad4 (f_year f) ++ "."%char :: pad2 (f_month f) ++ "."%char ::
  pad2 (f_day f) ++ " "%char :: pad2 (f_hour f) ++ ":"%char ::
  pad2 (f_minute f) ++ ":"%char :: pad2 (f_second f).

(** [strftime('%Y.%m.%d %H:%M:%S')] *)
Definition strftime (t : Timestamp) : string :=
  string_of (format_fields (fields_of_ns t)).

(** ** Tables

    A table as [pandas.read_csv] hands it over: the header and the rows.
    A cell is missing (NaN), a text, or, in a column read as numeric, a
    number. *)

Inductive cell : Type :=
| NA
| Str (s : string)
| Num (x : float64).

Record DataFrame : Type := mkDataFrame {
  columns : list string;
  rows : list (list cell)
}.

Definition filesystem := string -> option DataFrame.

Definition read_csv (fs : filesystem) (file_path : string) : result DataFrame :=
  match fs file_path with
  | Some df => Ok df
  | None => Raise FileNotFoundError
  end.

(** [to_csv] when the write succeeds: the file holds the table. A write
    that fails is [df_to_csv] of a [library]. *)
Definition to_csv (fs : filesystem) (path : string) (df : DataFrame)
  : filesystem :=
  fun p => if String.eqb p path then Some df else fs p.

(** The two column names of the input: 時間 (time) and 残高 (balance). *)
Definition col_time : string := "時間"%string.
Definition col_balance : string := "残高"%string.

Fixpoint index_of (name : string) (cols : list string) : option nat :=
  match cols with
  | [] => None
  | c :: cols' =>
      if String.eqb c name then Some O
      else option_map S (index_of name cols')
  end.

(** [df[[a, b]]], row by row; [KeyError] when a column is absent. *)
Definition getitem2 (df : DataFrame) (a b : string)
  : result (list (cell * cell)) :=
  match index_of a (columns df), index_of b (columns df) with
  | Some i, Some j => Ok (map (fun r => (nth i r NA, nth j r NA)) (rows df))
  | None, _ => Raise (KeyError a)
  | _, None => Raise (KeyError b)
  end.

Definition isna_cell (c : cell) : bool :=
  match c with
  | NA => true
  | Num NaN => true
  | _ => false
  end.

(** ** The helpers of the module *)

(** [str(row['時間'])] as far as the search for a marker needs it: the
    text of a number holds no letter but those of [nan], [inf] and [e]. *)
Definition str_cell (c : cell) : chars :=
  match c with
  | Str s => chars_of s
  | _ => chars_of "nan"
  end.

Definition is_summary_row (row : cell * cell) : bool :=
  isna_cell (fst row) || contains (chars_of "end of test") (str_cell (fst row)).

(** Lines 19 to 23: the summary rows are left out, the two columns are
    selected and renamed. On a frame without rows [df.apply(_, axis=1)]
    gives a frame instead of a column of booleans, the selection by it
    keeps no column, and line 22 raises [KeyError]. *)
Definition extract_time_balance (df : DataFrame) : result DataFrame :=
  match rows df with
  | [] => Raise (KeyError col_time)
  | _ :: _ =>
      df <- getitem2 df col_time col_balance ;;
      let df := filter (fun row => negb (is_summary_row row)) df in
      Ok (mkDataFrame ["DateTime"; "Balance"]%string
            (map (fun row => [fst row; snd row]) df))
  end.

(** [astype(str).str.replace(' ', '').astype(float)] on one cell. The text
    of a missing cell is [nan]; the text of a number is its [repr], which
    holds no space and which [float] reads back to the same number. *)
Definition clean_balance (c : cell) : result float64 :=
  match c with
  | Num x => Ok x
  | NA =>
      match float_of_chars (replace_spaces (chars_of "nan")) with
      | Some x => Ok x
      | None => Raise ValueError
      end
  | Str s =>
      match float_of_chars (replace_spaces (chars_of s)) with
      | Some x => Ok x
      | None => Raise ValueError
      end
  end.

(** [clean_balance_data]: the coercion on the balance column of a table. *)
Definition clean_balance_data (df : list (cell * cell))
  : result (list (cell * float64)) :=
  Balance <- mapM clean_balance (map snd df) ;;
  Ok (combine (map fst df) Balance).

Definition nat_strings : list string := 
  ["NaT"; "nat"; "NAT"; "nan"; "NaN"; "NAN"]%string.

(** [pd.to_datetime(_, format='%Y.%m.%d %H:%M:%S')] on one cell, with the
    default [errors='raise']: a missing cell gives [NaT], a text that does
    not match the format raises.

    The texts accepted here are those of the format in ASCII digits, with
    one space and a second below 60: all that [strftime] writes. pandas
    reads some more (a second of 60 or 61, several blanks between date and
    time, digits outside ASCII); what is proved of a timestamp that fails
    to convert is proved for any [pd.to_datetime] ([pd_to_datetime] of a
    [library]). *)
Definition to_datetime (c : cell) : result (option Timestamp) :=
  match c with
  | NA => Ok None
  | Num NaN => Ok None
  | Num _ => Raise ValueError
  | Str s =>
      if (String.length s =? 0)%nat || existsb (String.eqb s) nat_strings
      then Ok None
      else
        match strptime (chars_of s) with
        | Some f =>
            if valid_fields f then
              if in_bounds (ns_of_fields f) then Ok (Some (ns_of_fields f))
              else Raise OutOfBoundsDatetime
            else Raise ValueError
        | None => Raise ValueError
        end
  end.

Definition option_eqb (a b : option Z) : bool :=
  match a, b with
  | Some x, Some y => x =? y
  | None, None => true
  | _, _ => false
  end.

Section Rows.

Context {A K : Type} (eqb : K -> K -> bool) (key : A -> K).

(** [drop_duplicates(subset=[key], keep='first')]: a row stays when no
    earlier row has its key; [seen] holds the keys met so far. *)
Fixpoint drop_duplicates_from (seen : list K) (l : list A) : list A :=
  match l with
  | [] => []
  | x :: l' =>
      if existsb (eqb (key x)) seen then drop_duplicates_from seen l'
      else x :: drop_duplicates_from (key x :: seen) l'
  end.

Definition drop_duplicates (l : list A) : list A :=
  drop_duplicates_from [] l.

End Rows.

Section Sorting.

Context {A : Type} (key : A -> Z).

Fixpoint insert (x : A) (l : list A) : list A :=
  match l with
  | [] => [x]
  | y :: l' => if key x <=? key y then x :: l else y :: insert x l'
  end.

(** [sort_values(key)], ascending. pandas sorts with quicksort, which is
    not stable; at both calls of [process_csv] the keys are pairwise
    distinct, and then the sorted table is the same whatever the algorithm
    ([sort_values_unique] below). *)
Fixpoint sort_values (l : list A) : list A :=
  match l with
  | [] => []
  | x :: l' => insert x (sort_values l')
  end.

End Sorting.

(** [dropna(subset=['DateTime'])] *)
Fixpoint dropna {B : Type} (l : list (option Timestamp * B))
  : list (Timestamp * B) :=
  match l with
  | [] => []
  | (Some t, b) :: l' => (t, b) :: dropna l'
  | (None, _) :: l' => dropna l'
  end.

(** [Series.min()] and [Series.max()]: [NaT] on an empty column. *)
Definition series_min (l : list Timestamp) : option Timestamp :=
  match l with
  | [] => None
  | t :: l' => Some (fold_left Z.min l' t)
  end.

Definition series_max (l : list Timestamp) : option Timestamp :=
  match l with
  | [] => None
  | t :: l' => Some (fold_left Z.max l' t)
  end.

(** [numpy.arange(b, e, stride)] for a positive stride. *)
Definition arange (b e stride : Z) : list Z :=
  map (fun i => b + Z.of_nat i * stride)
      (seq 0 (Z.to_nat ((e - b + stride - 1) / stride))).

(** pandas' [generate_regular_range] with both ends given. *)
Definition generate_regular_range (start stop stride : Z) : list Z :=
  let b := start in
  let e := b + (stop - b) / stride * stride + stride / 2 + 1 in
  arange b e stride.

(** [pd.date_range(start, end, freq='15T')]; [NaT] at an end raises. *)
Definition date_range (start stop : option Timestamp) : result (list Timestamp) :=
  match start, stop with
  | Some b, Some e => Ok (generate_regular_range b e freq_15T)
  | _, _ => Raise ValueError
  end.

(** [index.difference(column)] for an index that is increasing. *)
Definition difference (index column : list Timestamp) : list Timestamp :=
  filter (fun t => negb (existsb (Z.eqb t) column)) index.

(** A balance of the joined table: a float, or the [None] of a placeholder. *)
Definition isna (v : option float64) : bool :=
  match v with
  | None => true
  | Some x => is_nan x
  end.

(** pandas' [pad_inplace]: [val] is the last value that was not missing
    (at the start, the first value of the column, missing or not). *)
Fixpoint pad (val : option float64) (col : list (option float64))
  : list (option float64) :=
  match col with
  | [] => []
  | v :: col' => if isna v then val :: pad val col' else v :: pad v col'
  end.

(** The conversion of an object column to float64: [None] becomes NaN. *)
Definition float_of_object (v : option float64) : float64 :=
  match v with
  | Some x => x
  | None => NaN
  end.

(** [fillna(method='ffill')] on the object column; the filled column
    comes back as float64. *)
Definition ffill (col : list (option float64)) : list float64 :=
  map float_of_object
      (match col with
       | [] => []
       | v :: _ => pad v col
       end).

(** The parsed table: lines 89 and 92, the balance column first. *)
Definition convert (df : list (cell * cell))
  : result (list (option Timestamp * float64)) :=
  Balance <- mapM clean_balance (map snd df) ;;
  DateTime <- mapM to_datetime (map fst df) ;;
  Ok (combine DateTime Balance).

(** Lines 95 to 100: the cleaned Series. *)
Definition clean (df : list (option Timestamp * float64))
  : list (Timestamp * float64) :=
  let df := drop_duplicates option_eqb fst df in
  let df := dropna df in
  sort_values fst df.

(** Lines 110 to 120: the observed rows followed by a placeholder for each
    grid instant that was not observed. *)
Definition with_placeholders (df : list (Timestamp * float64))
  (full_date_range : list Timestamp) : list (Timestamp * option float64) :=
  let missing_dates := difference full_date_range (map fst df) in
  let missing_data := map (fun t => (t, @None float64)) missing_dates in
  map (fun r => (fst r, Some (snd r))) df ++ missing_data.

(** Lines 123 and 124. *)
Definition sort_and_fill (result_df : list (Timestamp * option float64))
  : list (Timestamp * float64) :=
  let result_df := sort_values fst result_df in
  combine (map fst result_df) (ffill (map snd result_df)).

(** Lines 103 to 130. *)
Definition fill_gaps (df : list (Timestamp * float64))
  : result (list (Timestamp * float64)) :=
  full_date_range <- date_range (series_min (map fst df))
                                (series_max (map fst df)) ;;
  let result_df := sort_and_fill (with_placeholders df full_date_range) in
  Ok (drop_duplicates Z.eqb fst result_df).

Definition cell_of_float (x : float64) : cell :=
  if is_nan x then NA else Num x.

(** Line 133 and the table that is written and returned. *)
Definition render (result_df : list (Timestamp * float64)) : DataFrame :=
  mkDataFrame ["DateTime"; "Balance"]%string
    (map (fun r => [Str (strftime (fst r)); cell_of_float (snd r)]) result_df).

(** ** [get_output_path]: [_BD] before the suffix of the file name.
    The path is taken in pathlib's normal form. *)

(** The text after the last [c] (all of it when there is none), and the
    text before it with that [c]. *)
Fixpoint split_last (c : ascii) (s : chars) : chars * chars :=
  match s with
  | [] => ([], [])
  | x :: s' =>
      let '(before, after) := split_last c s' in
      if Ascii.eqb x c && negb (existsb (Ascii.eqb c) s') then ([x], s')
      else if existsb (Ascii.eqb c) s' then (x :: before, after)
      else ([], s)
  end.

Definition get_output_path (input_path : string) : string :=
  let '(parent, name) := split_last "/"%char (chars_of input_path) in
  let '(stem_dot, ext) := split_last "."%char name in
  let stem := removelast stem_dot in
  match stem, ext with
  | _ :: _, _ :: _ =>
      string_of (parent ++ stem ++ chars_of "_BD" ++ "."%char :: ext)
  | _, _ => string_of (parent ++ name ++ chars_of "_BD")
  end.

(** ** [process_csv] *)

Definition process_body (fs : filesystem) (file_path : string)
  : result (filesystem * DataFrame) :=
  df <- read_csv fs file_path ;;
  df <- getitem2 df col_time col_balance ;;
  df <- convert df ;;
  let df := clean df in
  result_df <- fill_gaps df ;;
  let result_df := render result_df in
  let output_path := get_output_path file_path in
  Ok (to_csv fs output_path result_df, result_df).

(** The [try] with its [except Exception]: [None] on every error, and the
    file system as it was. *)
Definition process_csv (fs : filesystem) (file_path : string)
  : filesystem * option DataFrame :=
  match process_body fs file_path with
  | Ok (fs', result_df) => (fs', Some result_df)
  | Raise _ => (fs, None)
  end.

(** ** [process_csv] over any library

    The three library calls of [process_csv] as parameters:
    - [py_float]: [float] on a text, [None] when it raises;
    - [pd_to_datetime]: [pd.to_datetime] with the format, on one cell;
    - [df_to_csv]: [to_csv] at a path, giving the file system it leaves
      behind and the exception it raised, if any. *)
Record library : Type := mkLibrary {
  py_float : chars -> option float64;
  pd_to_datetime : cell -> result (option Timestamp);
  df_to_csv : filesystem -> string -> DataFrame -> filesystem * option exn
}.

(** The library as it is modelled above, the write succeeding. *)
Definition model : library :=
  mkLibrary float_of_chars to_datetime
            (fun fs path df => (to_csv fs path df, None)).

(** The same with a disk that refuses every write. *)
Definition read_only_disk : library :=
  mkLibrary float_of_chars to_datetime (fun fs _ _ => (fs, Some OSError)).

(** Line 89 on one cell. *)
Definition clean_balance_with (L : library) (c : cell) : result float64 :=
  match c with
  | Num x => Ok x
  | NA =>
      match py_float L (replace_spaces (chars_of "nan")) with
      | Some x => Ok x
      | None => Raise ValueError
      end
  | Str s =>
      match py_float L (replace_spaces (chars_of s)) with
      | Some x => Ok x
      | None => Raise ValueError
      end
  end.

(** Lines 89 and 92. *)
Definition convert_with (L : library) (df : list (cell * cell))
  : result (list (option Timestamp * float64)) :=
  Balance <- mapM (clean_balance_with L) (map snd df) ;;
  DateTime <- mapM (pd_to_datetime L) (map fst df) ;;
  Ok (combine DateTime Balance).

(** Lines 79 to 133: the table that is about to be written. *)
Definition process_body_with (L : library) (fs : filesystem)
  (file_path : string) : result DataFrame :=
  df <- read_csv fs file_path ;;
  df <- getitem2 df col_time col_balance ;;
  df <- convert_with L df ;;
  let df := clean df in
  result_df <- fill_gaps df ;;
  Ok (render result_df).

(** Lines 76 to 145: the write is inside the [try], so that an exception
    of [to_csv] gives [None] as well, with whatever the write left on the
    disk. *)
Definition process_csv_with (L : library) (fs : filesystem)
  (file_path : string) : filesystem * option DataFrame :=
  match process_body_with L fs file_path with
  | Ok result_df =>
      let output_path := get_output_path file_path in
      match df_to_csv L fs output_path result_df with
      | (fs', None) => (fs', Some result_df)
      | (fs', Some _) => (fs', None)
      end
  | Raise _ => (fs, None)
  end.

(** A row has a timestamp when its time cell is not missing. *)
Definition has_timestamp_with (L : library) (row : cell * cell) : bool :=
  match pd_to_datetime L (fst row) with
  | Ok None => false
  | _ => true
  end.

(** ** Vocabulary of the statements *)

(** Strictly increasing timestamps. *)
Definition increasing (l : list Z) : Prop := StronglySorted Z.lt l.

Definition nondecreasing (l : list Z) : Prop := StronglySorted Z.le l.

(** The stages of [process_csv], for the statements: the parsed rows
    (lines 79 to 92), the cleaned Series (to line 100) and the filled
    table (to line 130). *)
Definition load (fs : filesystem) (file_path : string)
  : result (list (option Timestamp * float64)) :=
  df <- read_csv fs file_path ;;
  df <- getitem2 df col_time col_balance ;;
  convert df.

Definition cleaned (fs : filesystem) (file_path : string)
  : result (list (Timestamp * float64)) :=
  df <- load fs file_path ;; Ok (clean df).

Definition gap_filled (fs : filesystem) (file_path : string)
  : result (list (Timestamp * float64)) :=
  df <- cleaned fs file_path ;; fill_gaps df.

(** The grid of a cleaned Series. *)
Definition grid_of (df : list (Timestamp * float64)) : result (list Timestamp) :=
  date_range (series_min (map fst df)) (series_max (map fst df)).

(** [process_csv] with line 130 left out. *)
Definition fill_gaps_without_final_check (df : list (Timestamp * float64))
  : result (list (Timestamp * float64)) :=
  full_date_range <- date_range (series_min (map fst df))
                                (series_max (map fst df)) ;;
  Ok (sort_and_fill (with_placeholders df full_date_range)).

Definition process_csv_without_final_check (fs : filesystem)
  (file_path : string) : filesystem * option DataFrame :=
  match
    (df <- read_csv fs file_path ;;
     df <- getitem2 df col_time col_balance ;;
     df <- convert df ;;
     let df := clean df in
     result_df <- fill_gaps_without_final_check df ;;
     let result_df := render result_df in
     let output_path := get_output_path file_path in
     Ok (to_csv fs output_path result_df, result_df))
  with
  | Ok (fs', result_df) => (fs', Some result_df)
  | Raise _ => (fs, None)
  end.

(** A file system with the one file [in.csv]. *)
Definition one_file (df : DataFrame) : filesystem :=
  fun p => if String.eqb p "in.csv" then Some df else None.

Definition input_table (body : list (list cell)) : DataFrame :=
  mkDataFrame [col_time; col_balance] body.

(** 2024-01-01 00:00:00, and a number of minutes, in nanoseconds. *)
Definition t_2024 : Timestamp := 1704067200000000000.
Definition minutes (n : Z) : Z := n * 60 * ns_per_second.

(** *** The Series the specification describes

    One record for each grid instant and no other, every balance known. *)
Definition one_record_per_grid_instant (df res : list (Timestamp * float64))
  : Prop :=
  exists grid,
    grid_of df = Ok grid /\ Permutation (map fst res) grid /\
    Forall (fun r => is_nan (snd r) = false) res.

(** An input whose second row is off the grid of the first, and whose
    first balance is missing. *)
Definition off_grid_input : DataFrame :=
  input_table
    [[Str "2024.01.01 00:00:00"; NA];
     [Str "2024.01.01 00:20:00"; Str "2000"]].

(** Scenario 2 of the specification: a gap of 45 minutes. *)
Definition gap_input : DataFrame :=
  input_table
    [[Str "2024.01.01 00:00:00"; Str "1000"];
     [Str "2024.01.01 00:45:00"; Str "2000"]].

Definition gap_output : DataFrame :=
  mkDataFrame ["DateTime"; "Balance"]%string
    [[Str "2024.01.01 00:00:00"; Num (float_of_Z 1000)];
     [Str "2024.01.01 00:15:00"; Num (float_of_Z 1000)];
     [Str "2024.01.01 00:30:00"; Num (float_of_Z 1000)];
     [Str "2024.01.01 00:45:00"; Num (float_of_Z 2000)]].

(** *** Forward fill as the specification reads

    Every instant of the output that was not observed shows the balance
    of the latest earlier observed row that has a balance. *)
Definition filled_from_last_observed_value (df res : list (Timestamp * float64))
  : Prop :=
  forall t v, In (t, v) res -> ~ In t (map fst df) ->
    exists t0 v0,
      In (t0, v0) df /\ is_nan v0 = false /\ t0 < t /\
      (forall t1 v1, In (t1, v1) df -> t0 < t1 -> t1 < t -> is_nan v1 = true) /\
      v = v0.

(** The same with the latest earlier observed row, balance or none. *)
Definition filled_from_last_observed_row (df res : list (Timestamp * float64))
  : Prop :=
  forall t v, In (t, v) res -> ~ In t (map fst df) ->
    exists t0 v0,
      In (t0, v0) df /\ t0 < t /\
      (forall t1, In t1 (map fst df) -> t1 < t -> t1 <= t0) /\
      v = v0.

(** A row without a balance between two rows with one, 45 minutes apart. *)
Definition blank_balance_input : DataFrame :=
  input_table
    [[Str "2024.01.01 00:00:00"; Str "1000"];
     [Str "2024.01.01 00:15:00"; NA];
     [Str "2024.01.01 00:45:00"; Str "2000"]].

(** The balance of the first row of the input with timestamp [t]. *)
Definition first_seen (raw : list (option Timestamp * float64)) (t : Timestamp)
  : option float64 :=
  option_map snd (find (fun r => option_eqb (fst r) (Some t)) raw).

(** The specification's reading of deduplication: the output shows, at a
    timestamp, the balance first seen with it. *)
Definition first_seen_balance_in_output
  (raw : list (option Timestamp * float64)) (res : list (Timestamp * float64))
  : Prop :=
  forall t b, first_seen raw t = Some b ->
              forall b', In (t, b') res -> b' = b.

(** Two rows for 00:15, the first of them without a balance. *)
Definition duplicate_input : DataFrame :=
  input_table
    [[Str "2024.01.01 00:00:00"; Str "1000"];
     [Str "2024.01.01 00:15:00"; NA];
     [Str "2024.01.01 00:15:00"; Str "2000"]].

(** *** Inputs with rows that cannot be parsed *)

Definition bad_balance_input : DataFrame :=
  input_table
    [[Str "2024.01.01 00:00:00"; Str "1000"];
     [Str "2024.01.01 00:15:00"; Str "abc"]].

Definition bad_timestamp_input : DataFrame :=
  input_table
    [[Str "2024.01.01 00:00:00"; Str "1000"];
     [Str "not a date"; Str "1050"]].

(** The rows that are left when the bad row of either is dropped. *)
Definition good_rows_input : DataFrame :=
  input_table [[Str "2024.01.01 00:00:00"; Str "1000"]].

(** A report whose last row is the end-of-data marker. *)
Definition summary_input : DataFrame :=
  input_table
    [[Str "2024.01.01 00:00:00"; Str "1000"];
     [Str "end of test"; NA]].

(** The same on a parsed row. *)
Definition has_time (r : option Timestamp * float64) : bool :=
  match fst r with
  | Some _ => true
  | None => false
  end.

(** The table with the given rows under the input's two headers. *)
Definition table_of (df : list (cell * cell)) : DataFrame :=
  input_table (map (fun row => [fst row; snd row]) df).

(** *** The balance coercion of the specification: all whitespace goes *)

Definition remove_whitespace (s : chars) : chars :=
  filter (fun c => negb (isspace c)) s.

Definition coerce_balance_as_specified (s : string) : result float64 :=
  match float_of_chars (remove_whitespace (chars_of s)) with
  | Some x => Ok x
  | None => Raise ValueError
  end.

(** [1], a tab, [050]. *)
Definition one_tab_050 : string :=
  String "1" (String (ascii_of_nat 9) "050").

(** Binary search of a range: [f] on [lo], ..., [lo + 2 ^ depth - 1]. *)
Fixpoint forall_range (depth : nat) (lo : Z) (f : Z -> bool) : bool :=
  match depth with
  | O => f lo
  | S d => forall_range d lo f && forall_range d (lo + 2 ^ Z.of_nat d) f
  end.

(** A day number whose civil date leads back to it and fits the format. *)
Definition day_round_trips (z : Z) : bool :=
  let '(y, m, d) := civil_from_days z in
  (days_from_civil y m d =? z) && (1000 <=? y) && (y <=? 9999) &&
  (1 <=? m) && (m <=? 12) && (1 <=? d) && (d <=? days_in_month y m).

(** A timestamp of the input: whole seconds, within int64. *)
Definition whole_second (t : Timestamp) : Prop :=
  t mod ns_per_second = 0 /\ in_bounds t = true.

(** The output table under the headers of the input. *)
Definition renamed_back (out : DataFrame) : DataFrame :=
  mkDataFrame [col_time; col_balance] (rows out).

(** The cells of an output table, and its rows read back. *)
Definition cells_of (res : list (Timestamp * float64)) : list (cell * cell) :=
  map (fun r => (Str (strftime (fst r)), cell_of_float (snd r))) res.

Definition observed_again (res : list (Timestamp * float64))
  : list (option Timestamp * float64) :=
  map (fun r => (Some (fst r), snd r)) res.

(** ** [format_datetime]: lines 45 to 56, on a table whose balance column
    is carried along as it is. *)
Definition format_datetime {B : Type} (df : list (cell * B))
  : result (list (string * B)) :=
  DateTime <- mapM to_datetime (map fst df) ;;
  let df := combine DateTime (map snd df) in
  let df := drop_duplicates option_eqb fst df in
  let df := dropna df in
  let df := sort_values fst df in
  Ok (map (fun r => (strftime (fst r), snd r)) df).

(** The characters a text of the format is made of. *)
Definition format_char (c : ascii) : bool :=
  match digit_of c with
  | Some _ => true
  | None => Ascii.eqb c "."%char || Ascii.eqb c " "%char || Ascii.eqb c ":"%char
  end.

(** The end-of-data marker of [is_summary_row]. *)
Definition marker : chars := chars_of "end of test".

(** The components of a path, and pathlib's normal form: an optional
    leading slash, then components that are neither empty nor [.]
    (pathlib removes those, and a trailing slash, when it reads a path). *)
Fixpoint split_on (c : ascii) (s : chars) : list chars :=
  match s with
  | [] => [[]]
  | x :: s' =>
      if Ascii.eqb x c then [] :: split_on c s'
      else
        match split_on c s' with
        | cur :: rest => (x :: cur) :: rest
        | [] => [[x]]
        end
  end.

Definition pathlib_normal (p : chars) : bool :=
  let rel :=
    match p with
    | x :: p' => if Ascii.eqb x "/"%char then p' else p
    | [] => []
    end in
  forallb (fun comp => negb (chars_eqb comp []) && negb (chars_eqb comp ["."%char]))
          (split_on "/"%char rel).

(** * Facts *)

(** ** The result monad *)

Lemma bind_Ok {A B : Type} (r : result A) (k : A -> result B) (b : B) :
  bind r k = Ok b -> exists a, r = Ok a /\ k a = Ok b.
Proof.
  destruct r as [a|e]; simpl; intros H; [eauto | discriminate].
Qed.

Lemma mapM_Ok {A B : Type} (f : A -> result B) (l : list A) (l' : list B) :
  mapM f l = Ok l' -> Forall2 (fun x y => f x = Ok y) l l'.
Proof.
  revert l'. induction l as [|x l IH]; simpl; intros l' H.
  - injection H as <-. constructor.
  - apply bind_Ok in H as (y & Hy & H).
    apply bind_Ok in H as (ys & Hys & H).
    injection H as <-. constructor; auto.
Qed.

Lemma mapM_Raise {A B : Type} (f : A -> result B) (l : list A) (x : A) (e : exn) :
  In x l -> f x = Raise e -> exists e', mapM f l = Raise e'.
Proof.
  induction l as [|y l IH]; simpl; [tauto|].
  intros [->|Hin] Hx.
  - rewrite Hx. simpl. eauto.
  - destruct (f y) as [b|e0]; simpl; [|eauto].
    destruct (IH Hin Hx) as (e' & ->). simpl. eauto.
Qed.


(** ** Sorting *)

Section SortingFacts.

Context {A : Type} (key : A -> Z).

Lemma insert_perm (x : A) (l : list A) :
  Permutation (insert key x l) (x :: l).
Proof.
  induction l as [|y l IH]; simpl; [reflexivity|].
  destruct (key x <=? key y); [reflexivity|].
  rewrite IH. apply perm_swap.
Qed.

Lemma sort_values_perm (l : list A) : Permutation (sort_values key l) l.
Proof.
  induction l as [|x l IH]; simpl; [constructor|].
  rewrite insert_perm. now constructor.
Qed.

Lemma sort_values_In (l : list A) (x : A) :
  In x (sort_values key l) <-> In x l.
Proof.
  split; apply Permutation_in;
    [apply sort_values_perm | symmetry; apply sort_values_perm].
Qed.

Lemma map_insert (x : A) (l : list A) :
  map key (insert key x l) = insert (fun z => z) (key x) (map key l).
Proof.
  induction l as [|y l IH]; simpl; [reflexivity|].
  destruct (key x <=? key y); simpl; [reflexivity|]. now rewrite IH.
Qed.

Lemma map_sort_values (l : list A) :
  map key (sort_values key l) = sort_values (fun z => z) (map key l).
Proof.
  induction l as [|x l IH]; simpl; [reflexivity|].
  now rewrite map_insert, IH.
Qed.

(** A list whose keys do not decrease is left as it is. *)
Lemma insert_head (x : A) (l : list A) :
  Forall (fun y => key x <= key y) l -> insert key x l = x :: l.
Proof.
  destruct l as [|y l]; simpl; [reflexivity|].
  intros H. inversion_clear H as [|? ? Hy _].
  apply Z.leb_le in Hy. now rewrite Hy.
Qed.

Lemma sort_values_sorted_id (l : list A) :
  nondecreasing (map key l) -> sort_values key l = l.
Proof.
  induction l as [|x l IH]; simpl; [reflexivity|].
  intros H. inversion_clear H as [|? ? Hs Hx].
  rewrite IH by assumption. apply insert_head.
  rewrite Forall_map in Hx. exact Hx.
Qed.

End SortingFacts.

Lemma insert_nondecreasing (x : Z) (l : list Z) :
  nondecreasing l -> nondecreasing (insert (fun z => z) x l).
Proof.
  unfold nondecreasing.
  induction l as [|y l IH]; simpl; intros H.
  - repeat constructor.
  - destruct (Z.leb_spec x y) as [Hle|Hlt].
    + constructor; [assumption|].
      inversion_clear H as [|? ? _ Hy].
      constructor; [assumption|].
      eapply Forall_impl; [|exact Hy]. simpl. intros; lia.
    + inversion_clear H as [|? ? Hs Hy].
      constructor; [auto|].
      eapply Permutation_Forall;
        [symmetry; apply (insert_perm (fun z => z))|].
      constructor; [lia | assumption].
Qed.

Lemma sort_values_nondecreasing (l : list Z) :
  nondecreasing (sort_values (fun z => z) l).
Proof.
  induction l as [|x l IH]; simpl; [constructor|].
  now apply insert_nondecreasing.
Qed.

Lemma nondecreasing_NoDup_increasing (l : list Z) :
  nondecreasing l -> NoDup l -> increasing l.
Proof.
  unfold nondecreasing, increasing.
  induction l as [|x l IH]; intros Hs Hn; [constructor|].
  inversion_clear Hs as [|? ? Hs' Hx].
  inversion_clear Hn as [|? ? Hnx Hn'].
  constructor; [auto|].
  rewrite Forall_forall in *. intros y Hy.
  specialize (Hx y Hy).
  assert (x <> y) by (intros ->; contradiction). lia.
Qed.

Lemma increasing_nondecreasing (l : list Z) : increasing l -> nondecreasing l.
Proof.
  unfold nondecreasing, increasing.
  induction 1 as [|x l _ IH Hx]; constructor; [assumption|].
  eapply Forall_impl; [|exact Hx]. simpl. intros; lia.
Qed.

Lemma increasing_NoDup (l : list Z) : increasing l -> NoDup l.
Proof.
  induction 1 as [|x l _ IH Hx]; constructor; [|assumption].
  intros Hin. rewrite Forall_forall in Hx. specialize (Hx x Hin). lia.
Qed.

(** Sorting rows with pairwise distinct keys yields increasing keys. *)
Lemma sort_values_increasing {A : Type} (key : A -> Z) (l : list A) :
  NoDup (map key l) -> increasing (map key (sort_values key l)).
Proof.
  intros H. rewrite map_sort_values.
  apply nondecreasing_NoDup_increasing.
  - apply sort_values_nondecreasing.
  - eapply Permutation_NoDup; [|exact H].
    symmetry. apply sort_values_perm.
Qed.


(** ** Removing duplicates *)

Section DropDuplicates.

Context {A K : Type} (eqb : K -> K -> bool) (key : A -> K).
Hypothesis eqb_eq : forall a b, eqb a b = true <-> a = b.

Lemma existsb_eqb (k : K) (seen : list K) :
  existsb (eqb k) seen = true <-> In k seen.
Proof.
  rewrite existsb_exists. split.
  - intros (x & Hin & Hx). apply eqb_eq in Hx. now subst.
  - intros Hin. exists k. split; [assumption | now apply eqb_eq].
Qed.

Lemma existsb_eqb_false (k : K) (seen : list K) :
  existsb (eqb k) seen = false <-> ~ In k seen.
Proof.
  rewrite <- existsb_eqb. destruct (existsb (eqb k) seen); split; intros H;
    try discriminate; try reflexivity; try (intros H'; discriminate).
  now elim H.
Qed.


Lemma drop_duplicates_from_keys (seen : list K) (l : list A) (k : K) :
  In k (map key (drop_duplicates_from eqb key seen l)) <->
  In k (map key l) /\ ~ In k seen.
Proof.
  revert seen. induction l as [|y l IH]; simpl; intros seen; [tauto|].
  destruct (existsb (eqb (key y)) seen) eqn:E.
  - rewrite IH. apply existsb_eqb in E. split; [tauto|].
    intros [[Hk|H] Hn]; [subst k; contradiction | tauto].
  - apply existsb_eqb_false in E. simpl. rewrite IH. simpl.
    split.
    + intros [Hk|[H1 H2]]; [subst k; tauto|]. tauto.
    + intros [[Hk|H1] H2]; [now left|].
      destruct (existsb (eqb k) [key y]) eqn:E'.
      * apply existsb_eqb in E' as [Hk|[]]. now left.
      * apply existsb_eqb_false in E'. simpl in E'. right. tauto.
Qed.

Lemma drop_duplicates_from_NoDup (seen : list K) (l : list A) :
  NoDup (map key (drop_duplicates_from eqb key seen l)).
Proof.
  revert seen. induction l as [|y l IH]; simpl; intros seen; [constructor|].
  destruct (existsb (eqb (key y)) seen) eqn:E; [apply IH|].
  simpl. constructor; [|apply IH].
  rewrite drop_duplicates_from_keys. intros [_ H]. apply H. now left.
Qed.

(** Nothing is removed from rows whose keys are distinct and new. *)
Lemma drop_duplicates_from_id (seen : list K) (l : list A) :
  NoDup (map key l) -> (forall x, In x l -> ~ In (key x) seen) ->
  drop_duplicates_from eqb key seen l = l.
Proof.
  revert seen. induction l as [|y l IH]; simpl; intros seen Hn Hs;
    [reflexivity|].
  inversion_clear Hn as [|? ? Hy Hn'].
  destruct (existsb (eqb (key y)) seen) eqn:E.
  - apply existsb_eqb in E. elim (Hs y); auto.
  - f_equal. apply IH; [assumption|].
    intros x Hx [Hk|Hk].
    + apply Hy. rewrite Hk. now apply in_map.
    + apply (Hs x); auto.
Qed.

Lemma drop_duplicates_NoDup (l : list A) :
  NoDup (map key (drop_duplicates eqb key l)).
Proof. apply drop_duplicates_from_NoDup. Qed.

Lemma drop_duplicates_id (l : list A) :
  NoDup (map key l) -> drop_duplicates eqb key l = l.
Proof. intros H. apply drop_duplicates_from_id; auto. Qed.

Lemma drop_duplicates_keys (l : list A) (k : K) :
  In k (map key (drop_duplicates eqb key l)) <-> In k (map key l).
Proof.
  unfold drop_duplicates. rewrite drop_duplicates_from_keys. simpl. tauto.
Qed.

(** The row that stays for a key is the first row of the input with it. *)
Lemma drop_duplicates_from_first (seen : list K) (l : list A) (x : A) :
  In x (drop_duplicates_from eqb key seen l) <->
  ~ In (key x) seen /\
  exists l1 l2, l = l1 ++ x :: l2 /\ ~ In (key x) (map key l1).
Proof.
  revert seen. induction l as [|y l IH]; simpl; intros seen.
  - split; [tauto|]. intros (_ & l1 & l2 & H & _). now destruct l1.
  - destruct (existsb (eqb (key y)) seen) eqn:E.
    + apply existsb_eqb in E. rewrite IH. split.
      * intros (Hs & l1 & l2 & -> & Hl). split; [assumption|].
        exists (y :: l1), l2. split; [reflexivity|].
        simpl. intros [Hk|Hk]; [|contradiction]. apply Hs. now rewrite <- Hk.
      * intros (Hs & l1 & l2 & Hl & Hn). split; [assumption|].
        destruct l1 as [|z l1]; simpl in Hl; injection Hl as -> ->.
        -- contradiction.
        -- exists l1, l2. split; [reflexivity|]. simpl in Hn. tauto.
    + apply existsb_eqb_false in E. simpl. rewrite IH. split.
      * intros [->|(Hs & l1 & l2 & -> & Hl)].
        -- split; [assumption|]. exists [], l. now split.
        -- split; [simpl in Hs; tauto|].
           exists (y :: l1), l2. split; [reflexivity|].
           simpl in *. tauto.
      * intros (Hs & l1 & l2 & Hl & Hn).
        destruct l1 as [|z l1]; simpl in Hl; injection Hl as -> ->.
        -- now left.
        -- right. simpl in Hn. split.
           ++ simpl. intros [Hk|Hk]; [apply Hn; now left | contradiction].
           ++ exists l1, l2. split; [reflexivity | tauto].
Qed.

End DropDuplicates.

Lemma option_eqb_eq (a b : option Z) : option_eqb a b = true <-> a = b.
Proof.
  destruct a as [x|], b as [y|]; simpl; try (split; congruence).
  rewrite Z.eqb_eq. split; congruence.
Qed.

(** ** Minimum, maximum and the grid *)

Lemma fold_min_spec (l : list Z) (a : Z) :
  (fold_left Z.min l a = a \/ In (fold_left Z.min l a) l) /\
  fold_left Z.min l a <= a /\
  Forall (fun x => fold_left Z.min l a <= x) l.
Proof.
  revert a. induction l as [|x l IH]; simpl; intros a.
  - repeat split; [now left | lia | constructor].
  - destruct (IH (Z.min a x)) as (H1 & H2 & H3).
    repeat split.
    + destruct H1 as [H1|H1]; [|now right; right].
      rewrite H1. destruct (Z.min_spec a x) as [[_ ->]|[_ ->]]; auto.
    + lia.
    + constructor; [lia | assumption].
Qed.

Lemma fold_max_spec (l : list Z) (a : Z) :
  (fold_left Z.max l a = a \/ In (fold_left Z.max l a) l) /\
  a <= fold_left Z.max l a /\
  Forall (fun x => x <= fold_left Z.max l a) l.
Proof.
  revert a. induction l as [|x l IH]; simpl; intros a.
  - repeat split; [now left | lia | constructor].
  - destruct (IH (Z.max a x)) as (H1 & H2 & H3).
    repeat split.
    + destruct H1 as [H1|H1]; [|now right; right].
      rewrite H1. destruct (Z.max_spec a x) as [[_ ->]|[_ ->]]; auto.
    + lia.
    + constructor; [lia | assumption].
Qed.

Lemma series_min_spec (l : list Z) (m : Z) :
  series_min l = Some m <-> In m l /\ (forall x, In x l -> m <= x).
Proof.
  destruct l as [|a l]; simpl.
  - split; [discriminate | tauto].
  - destruct (fold_min_spec l a) as (H1 & H2 & H3).
    rewrite Forall_forall in H3. split.
    + intros [= <-]. split.
      * destruct H1 as [->|H1]; auto.
      * intros x [<-|Hx]; auto.
    + intros (Hin & Hle). f_equal.
      assert (fold_left Z.min l a <= m) by (destruct Hin as [<-|Hin]; auto).
      assert (m <= fold_left Z.min l a).
      { apply Hle. destruct H1 as [->|H1]; auto. }
      lia.
Qed.

Lemma series_max_spec (l : list Z) (m : Z) :
  series_max l = Some m <-> In m l /\ (forall x, In x l -> x <= m).
Proof.
  destruct l as [|a l]; simpl.
  - split; [discriminate | tauto].
  - destruct (fold_max_spec l a) as (H1 & H2 & H3).
    rewrite Forall_forall in H3. split.
    + intros [= <-]. split.
      * destruct H1 as [->|H1]; auto.
      * intros x [<-|Hx]; auto.
    + intros (Hin & Hle). f_equal.
      assert (m <= fold_left Z.max l a) by (destruct Hin as [<-|Hin]; auto).
      assert (fold_left Z.max l a <= m).
      { apply Hle. destruct H1 as [->|H1]; auto. }
      lia.
Qed.

Lemma series_min_nonempty (l : list Z) :
  l <> [] -> exists m, series_min l = Some m.
Proof. destruct l; [congruence | simpl; eauto]. Qed.

Lemma series_max_nonempty (l : list Z) :
  l <> [] -> exists m, series_max l = Some m.
Proof. destruct l; [congruence | simpl; eauto]. Qed.


(** The number of steps of the range: pandas' upper bound for [arange]
    gives one element for each multiple of the stride up to [stop]. *)
Lemma generate_regular_range_eq (start stop stride : Z) :
  0 < stride -> start <= stop ->
  generate_regular_range start stop stride =
  map (fun k => start + Z.of_nat k * stride)
      (seq 0 (Z.to_nat ((stop - start) / stride + 1))).
Proof.
  intros Hs Hle. unfold generate_regular_range, arange.
  do 2 f_equal.
  set (q := (stop - start) / stride).
  replace (start + q * stride + stride / 2 + 1 - start + stride - 1)
    with (stride / 2 + (q + 1) * stride) by ring.
  rewrite Z.div_add by lia.
  rewrite (Z.div_small (stride / 2) stride); [reflexivity|].
  split; [apply Z.div_pos; lia | apply Z.div_lt; lia].
Qed.

Lemma generate_regular_range_empty (start stop stride : Z) :
  0 < stride -> stop < start ->
  generate_regular_range start stop stride = [].
Proof.
  intros Hs Hlt. unfold generate_regular_range, arange.
  set (q := (stop - start) / stride).
  assert (q <= -1).
  { unfold q. assert ((stop - start) / stride < 0); [|lia].
    apply Z.div_lt_upper_bound; lia. }
  assert (stride / 2 < stride) by (apply Z.div_lt; lia).
  assert (0 <= stride / 2) by (apply Z.div_pos; lia).
  set (x := (start + q * stride + stride / 2 + 1 - start + stride - 1) / stride).
  assert (x < 1) by (apply Z.div_lt_upper_bound; nia).
  replace (Z.to_nat x) with O by lia. reflexivity.
Qed.

Lemma In_arith_seq (start stride : Z) (n : nat) (t : Z) :
  In t (map (fun k => start + Z.of_nat k * stride) (seq 0 n)) <->
  exists k, 0 <= k < Z.of_nat n /\ t = start + k * stride.
Proof.
  rewrite in_map_iff. split.
  - intros (k & <- & Hk). apply in_seq in Hk.
    exists (Z.of_nat k). split; [lia | reflexivity].
  - intros (k & Hk & ->). exists (Z.to_nat k). split.
    + now rewrite Z2Nat.id by lia.
    + apply in_seq. lia.
Qed.

(** The grid: the instants [start + k * stride], [k = 0, 1, ...], up to
    [stop]. *)
Lemma In_generate_regular_range (start stop stride t : Z) :
  0 < stride ->
  In t (generate_regular_range start stop stride) <->
  exists k, 0 <= k /\ t = start + k * stride /\ t <= stop.
Proof.
  intros Hs. destruct (Z_le_gt_dec start stop) as [Hle|Hgt].
  - rewrite generate_regular_range_eq by assumption.
    rewrite In_arith_seq.
    assert (Hq : 0 <= (stop - start) / stride) by (apply Z.div_pos; lia).
    rewrite Z2Nat.id by lia.
    split.
    + intros (k & Hk & ->). exists k. repeat split; [lia|].
      assert (k * stride <= stop - start); [|lia].
      assert (k <= (stop - start) / stride) by lia.
      pose proof (Z.mul_div_le (stop - start) stride Hs). nia.
    + intros (k & Hk & -> & Hle'). exists k. split; [|reflexivity].
      split; [assumption|].
      assert (k <= (stop - start) / stride); [|lia].
      apply Z.div_le_lower_bound; lia.
  - rewrite generate_regular_range_empty by lia. simpl.
    split; [tauto|]. intros (k & Hk & -> & Hle). nia.
Qed.

Lemma arith_seq_increasing (start stride : Z) (n m : nat) :
  0 < stride ->
  increasing (map (fun k => start + Z.of_nat k * stride) (seq m n)).
Proof.
  intros Hs. revert m. induction n as [|n IH]; intros m; simpl.
  - constructor.
  - constructor; [apply IH|].
    rewrite Forall_map, Forall_forall. intros k Hk.
    apply in_seq in Hk. nia.
Qed.

Lemma generate_regular_range_increasing (start stop stride : Z) :
  0 < stride -> increasing (generate_regular_range start stop stride).
Proof. intros Hs. now apply arith_seq_increasing. Qed.

Lemma freq_15T_pos : 0 < freq_15T.
Proof. reflexivity. Qed.

(** ** The cleaned Series *)

Lemma In_dropna {B : Type} (l : list (option Timestamp * B)) (t : Timestamp) (b : B) :
  In (t, b) (dropna l) <-> In (Some t, b) l.
Proof.
  induction l as [|[[t'|] b'] l IH]; simpl.
  - tauto.
  - rewrite IH. split; intros [H|H]; auto; left; congruence.
  - rewrite IH. split; [auto|]. intros [H|H]; [discriminate | assumption].
Qed.

Lemma In_fst_dropna {B : Type} (l : list (option Timestamp * B)) (t : Timestamp) :
  In t (map fst (dropna l)) <-> In (Some t) (map fst l).
Proof.
  rewrite !in_map_iff. split.
  - intros ([t' b] & <- & H). apply In_dropna in H.
    exists (Some t', b). now split.
  - intros ([o b] & Ho & H). simpl in Ho. subst o.
    exists (t, b). split; [reflexivity | now apply In_dropna].
Qed.

Lemma dropna_NoDup {B : Type} (l : list (option Timestamp * B)) :
  NoDup (map fst l) -> NoDup (map fst (dropna l)).
Proof.
  induction l as [|[[t|] b] l IH]; simpl; intros H.
  - constructor.
  - inversion_clear H as [|? ? Hn H']. constructor; [|auto].
    now rewrite In_fst_dropna.
  - inversion_clear H. auto.
Qed.

Lemma dropna_id {B : Type} (l : list (Timestamp * B)) :
  dropna (map (fun r => (Some (fst r), snd r)) l) = l.
Proof.
  induction l as [|[t b] l IH]; simpl; [reflexivity | now rewrite IH].
Qed.

Lemma clean_NoDup (raw : list (option Timestamp * float64)) :
  NoDup (map fst (clean raw)).
Proof.
  unfold clean.
  eapply Permutation_NoDup.
  - apply Permutation_map. symmetry. apply sort_values_perm.
  - apply dropna_NoDup. apply drop_duplicates_NoDup. exact option_eqb_eq.
Qed.

Lemma clean_increasing (raw : list (option Timestamp * float64)) :
  increasing (map fst (clean raw)).
Proof.
  unfold clean. apply sort_values_increasing.
  apply dropna_NoDup. apply drop_duplicates_NoDup. exact option_eqb_eq.
Qed.

(** A row of the cleaned Series is the first row of the input with its
    timestamp. *)
Lemma In_clean (raw : list (option Timestamp * float64)) (t : Timestamp)
  (b : float64) :
  In (t, b) (clean raw) <->
  exists l1 l2, raw = l1 ++ (Some t, b) :: l2 /\ ~ In (Some t) (map fst l1).
Proof.
  unfold clean. rewrite sort_values_In, In_dropna.
  unfold drop_duplicates.
  rewrite (drop_duplicates_from_first option_eqb fst option_eqb_eq).
  simpl. tauto.
Qed.

Lemma In_fst_clean (raw : list (option Timestamp * float64)) (t : Timestamp) :
  In t (map fst (clean raw)) <-> In (Some t) (map fst raw).
Proof.
  unfold clean.
  rewrite map_sort_values, sort_values_In, In_fst_dropna.
  apply drop_duplicates_keys. exact option_eqb_eq.
Qed.

(** ** Placeholders *)

Lemma In_difference (index column : list Timestamp) (t : Timestamp) :
  In t (difference index column) <-> In t index /\ ~ In t column.
Proof.
  unfold difference. rewrite filter_In, negb_true_iff.
  rewrite (existsb_eqb_false Z.eqb Z.eqb_eq). tauto.
Qed.

Lemma difference_NoDup (index column : list Timestamp) :
  NoDup index -> NoDup (difference index column).
Proof. apply NoDup_filter. Qed.

Lemma difference_nil (index column : list Timestamp) :
  (forall t, In t index -> In t column) -> difference index column = [].
Proof.
  intros H. destruct (difference index column) as [|t l] eqn:E; [reflexivity|].
  assert (Hin : In t (difference index column)) by (rewrite E; now left).
  apply In_difference in Hin as [H1 H2]. elim H2. auto.
Qed.

Lemma map_fst_with_placeholders (df : list (Timestamp * float64))
  (grid : list Timestamp) :
  map fst (with_placeholders df grid) =
  map fst df ++ difference grid (map fst df).
Proof.
  unfold with_placeholders. rewrite map_app, !map_map. simpl.
  f_equal. apply map_id.
Qed.

Lemma with_placeholders_NoDup (df : list (Timestamp * float64))
  (grid : list Timestamp) :
  NoDup (map fst df) -> NoDup grid ->
  NoDup (map fst (with_placeholders df grid)).
Proof.
  intros Hd Hg. rewrite map_fst_with_placeholders.
  apply NoDup_app; [assumption | now apply difference_NoDup |].
  intros t Ht Hm. apply In_difference in Hm. tauto.
Qed.

Lemma In_with_placeholders (df : list (Timestamp * float64))
  (grid : list Timestamp) (t : Timestamp) (v : option float64) :
  In (t, v) (with_placeholders df grid) <->
  (exists b, v = Some b /\ In (t, b) df) \/
  (v = None /\ In t grid /\ ~ In t (map fst df)).
Proof.
  unfold with_placeholders. rewrite in_app_iff. split.
  - intros [H|H]; apply in_map_iff in H.
    + destruct H as ([t' b] & H & Hin). injection H as <- <-.
      left. eauto.
    + destruct H as (t' & H & Hin). injection H as <- <-.
      right. apply In_difference in Hin. split; [reflexivity | tauto].
  - intros [(b & -> & Hin)|(-> & Hg & Hn)].
    + left. apply in_map_iff. exists (t, b). auto.
    + right. apply in_map_iff. exists t. split; [reflexivity|].
      now apply In_difference.
Qed.

(** ** Splitting a sorted table at two of its rows *)

Lemma increasing_app (l1 l2 : list Z) :
  increasing (l1 ++ l2) <->
  increasing l1 /\ increasing l2 /\
  (forall x y, In x l1 -> In y l2 -> x < y).
Proof.
  unfold increasing. induction l1 as [|a l1 IH]; simpl.
  - split.
    + intros H. repeat split; [constructor | assumption | tauto].
    + tauto.
  - split.
    + intros H. inversion_clear H as [|? ? Hs Ha].
      apply IH in Hs as (H1 & H2 & H3).
      rewrite Forall_app in Ha. destruct Ha as [Ha1 Ha2].
      repeat split; [now constructor | assumption |].
      intros x y [<-|Hx] Hy; [|auto].
      rewrite Forall_forall in Ha2. auto.
    + intros (H1 & H2 & H3). inversion_clear H1 as [|? ? Hs Ha].
      constructor.
      * apply IH. repeat split; auto.
      * rewrite Forall_app. split; [assumption|].
        rewrite Forall_forall. intros y Hy. apply H3; auto.
Qed.

Lemma split_sorted {A : Type} (key : A -> Z) (L : list A) (a : A) :
  increasing (map key L) -> In a L ->
  exists L1 L2, L = L1 ++ a :: L2 /\
    Forall (fun x => key x < key a) L1 /\
    Forall (fun x => key a < key x) L2.
Proof.
  intros Hs Hin. apply in_split in Hin as (L1 & L2 & ->).
  exists L1, L2. split; [reflexivity|].
  rewrite map_app in Hs. simpl in Hs.
  apply increasing_app in Hs as (_ & H2 & H3).
  inversion_clear H2 as [|? ? _ Ha].
  split.
  - rewrite Forall_forall. intros x Hx. apply H3; [now apply in_map | now left].
  - now rewrite Forall_map in Ha.
Qed.

Lemma split_sorted2 {A : Type} (key : A -> Z) (L : list A) (a b : A) :
  increasing (map key L) -> In a L -> In b L -> key a < key b ->
  exists L1 L2 L3, L = L1 ++ a :: L2 ++ b :: L3 /\
    Forall (fun x => key a < key x < key b) L2.
Proof.
  intros Hs Ha Hb Hlt.
  destruct (split_sorted key L a Hs Ha) as (L1 & R & -> & H1 & H2).
  rewrite Forall_forall in H1, H2.
  apply in_app_or in Hb as [Hb|[Hb|Hb]].
  - specialize (H1 _ Hb). lia.
  - subst b. lia.
  - rewrite map_app in Hs. apply increasing_app in Hs as (_ & Hs & _).
    simpl in Hs. inversion_clear Hs as [|? ? Hs' _].
    destruct (split_sorted key R b Hs' Hb) as (L2 & L3 & -> & H3 & _).
    exists L1, L2, L3. split; [reflexivity|].
    rewrite Forall_forall in *. intros x Hx. split.
    + apply H2. apply in_or_app. now left.
    + now apply H3.
Qed.

(** Rows are told apart by their keys. *)
Lemma NoDup_keys_inj {A K : Type} (key : A -> K) (l : list A) (x y : A) :
  NoDup (map key l) -> In x l -> In y l -> key x = key y -> x = y.
Proof.
  induction l as [|z l IH]; simpl; [tauto|].
  intros Hn Hx Hy Hk. inversion_clear Hn as [|? ? Hz Hn'].
  destruct Hx as [->|Hx], Hy as [->|Hy]; auto.
  - elim Hz. rewrite Hk. now apply in_map.
  - elim Hz. rewrite <- Hk. now apply in_map.
Qed.

(** Two tables with the same rows and increasing keys are equal: the
    order of the rows is fixed by the keys. *)
Lemma sorted_rows_unique {A : Type} (key : A -> Z) (l1 l2 : list A) :
  increasing (map key l1) -> increasing (map key l2) ->
  (forall x, In x l1 <-> In x l2) -> l1 = l2.
Proof.
  revert l2. induction l1 as [|x l1 IH]; intros l2 H1 H2 Hiff.
  - destruct l2 as [|y l2]; [reflexivity|].
    exfalso. apply (Hiff y). now left.
  - destruct l2 as [|y l2].
    + exfalso. apply (Hiff x). now left.
    + simpl in H1, H2.
      inversion_clear H1 as [|? ? Hs1 Hx]. inversion_clear H2 as [|? ? Hs2 Hy].
      rewrite Forall_map, Forall_forall in Hx, Hy.
      assert (x = y) as <-.
      { destruct (proj1 (Hiff x) (or_introl eq_refl)) as [E|Hin]; [auto|].
        destruct (proj2 (Hiff y) (or_introl eq_refl)) as [E|Hin']; [auto|].
        specialize (Hx _ Hin'). specialize (Hy _ Hin). lia. }
      f_equal. apply IH; try assumption.
      intros z. split; intros Hz.
      * destruct (proj1 (Hiff z) (or_intror Hz)) as [E|]; [|assumption].
        subst z. specialize (Hx _ Hz). lia.
      * destruct (proj2 (Hiff z) (or_intror Hz)) as [E|]; [|assumption].
        subst z. specialize (Hy _ Hz). lia.
Qed.

(** Whatever sorts rows with distinct keys returns what [sort_values]
    returns. *)
Lemma sort_values_unique {A : Type} (key : A -> Z) (l l' : list A) :
  NoDup (map key l) -> Permutation l l' -> increasing (map key l') ->
  l' = sort_values key l.
Proof.
  intros Hn Hp Hs. apply (sorted_rows_unique key); [assumption| |].
  - now apply sort_values_increasing.
  - intros x. rewrite sort_values_In. split; apply Permutation_in;
      [now symmetry | assumption].
Qed.

(** ** Forward fill *)

Lemma pad_length (val : option float64) (col : list (option float64)) :
  List.length (pad val col) = List.length col.
Proof.
  revert val. induction col as [|v col IH]; simpl; intros val; [reflexivity|].
  destruct (isna v); simpl; now rewrite IH.
Qed.

Lemma ffill_length (col : list (option float64)) :
  List.length (ffill col) = List.length col.
Proof.
  unfold ffill. rewrite length_map. destruct col; [reflexivity|].
  apply pad_length.
Qed.

(** From a known value on, the values before it do not matter. *)
Lemma pad_split (val : option float64) (c1 rest : list (option float64))
  (v0 : float64) :
  is_nan v0 = false ->
  pad val (c1 ++ Some v0 :: rest) =
  pad val c1 ++ Some v0 :: pad (Some v0) rest.
Proof.
  intros Hv. revert val. induction c1 as [|v c1 IH]; simpl; intros val.
  - now rewrite Hv.
  - destruct (isna v); now rewrite IH.
Qed.

Lemma pad_known (val : option float64) (col : list (option float64)) :
  isna val = false -> Forall (fun v => isna v = false) (pad val col).
Proof.
  revert val. induction col as [|v col IH]; simpl; intros val Hval;
    [constructor|].
  destruct (isna v) eqn:E; constructor; auto.
Qed.

Lemma pad_missing_run (val : option float64) (c rest : list (option float64)) :
  Forall (fun v => isna v = true) c ->
  pad val (c ++ rest) = map (fun _ => val) c ++ pad val rest.
Proof.
  induction 1 as [|v c Hv _ IH]; simpl; [reflexivity|].
  now rewrite Hv, IH.
Qed.

Lemma isna_float_of_object (v : option float64) :
  is_nan (float_of_object v) = isna v.
Proof. now destruct v. Qed.

Lemma ffill_split (c1 rest : list (option float64)) (v0 : float64) :
  is_nan v0 = false ->
  exists r1, List.length r1 = List.length c1 /\
    ffill (c1 ++ Some v0 :: rest) =
    r1 ++ v0 :: map float_of_object (pad (Some v0) rest).
Proof.
  intros Hv. unfold ffill.
  destruct c1 as [|v c1].
  - exists []. split; [reflexivity|]. simpl. now rewrite Hv.
  - change ((v :: c1) ++ Some v0 :: rest) with (v :: (c1 ++ Some v0 :: rest)).
    cbv iota.
    change (v :: (c1 ++ Some v0 :: rest)) with ((v :: c1) ++ Some v0 :: rest).
    rewrite pad_split by assumption.
    rewrite map_app. simpl map at 2.
    exists (map float_of_object (pad v (v :: c1))). split; [|reflexivity].
    now rewrite length_map, pad_length.
Qed.

Lemma combine_split {A B : Type} (l1 l2 : list A) (r1 r2 : list B) (x : A) (y : B) :
  List.length l1 = List.length r1 ->
  combine (l1 ++ x :: l2) (r1 ++ y :: r2) =
  combine l1 r1 ++ (x, y) :: combine l2 r2.
Proof.
  revert r1. induction l1 as [|a l1 IH]; intros [|b r1]; simpl;
    try discriminate; [reflexivity|].
  intros [= H]. now rewrite IH.
Qed.

Lemma map_fst_combine {A B : Type} (l : list A) (r : list B) :
  List.length l = List.length r -> map fst (combine l r) = l.
Proof.
  revert r. induction l as [|a l IH]; intros [|b r]; simpl;
    try discriminate; [reflexivity|].
  intros [= H]. now rewrite IH.
Qed.

Lemma map_snd_combine {A B : Type} (l : list A) (r : list B) :
  List.length l = List.length r -> map snd (combine l r) = r.
Proof.
  revert r. induction l as [|a l IH]; intros [|b r]; simpl;
    try discriminate; [reflexivity|].
  intros [= H]. now rewrite IH.
Qed.

(** The filled table has the timestamps of the sorted one. *)
Lemma map_fst_sort_and_fill (W : list (Timestamp * option float64)) :
  map fst (sort_and_fill W) = map fst (sort_values fst W).
Proof.
  unfold sort_and_fill. apply map_fst_combine.
  now rewrite ffill_length, !length_map.
Qed.

Lemma sort_and_fill_increasing (W : list (Timestamp * option float64)) :
  NoDup (map fst W) -> increasing (map fst (sort_and_fill W)).
Proof.
  intros H. rewrite map_fst_sort_and_fill. now apply sort_values_increasing.
Qed.

Lemma In_fst_sort_and_fill (W : list (Timestamp * option float64)) (t : Timestamp) :
  In t (map fst (sort_and_fill W)) <-> In t (map fst W).
Proof.
  rewrite map_fst_sort_and_fill, map_sort_values. apply sort_values_In.
Qed.

(** A known balance stays where it is. *)
Lemma sort_and_fill_known (W : list (Timestamp * option float64))
  (t : Timestamp) (b : float64) :
  In (t, Some b) W -> is_nan b = false -> In (t, b) (sort_and_fill W).
Proof.
  intros Hin Hb. unfold sort_and_fill.
  apply (sort_values_In fst) in Hin.
  apply in_split in Hin as (L1 & L2 & ->).
  rewrite !map_app. simpl map.
  destruct (ffill_split (map snd L1) (map snd L2) b Hb) as (r1 & Hlen & ->).
  rewrite combine_split by (now rewrite Hlen, !length_map).
  apply in_or_app. right. now left.
Qed.

(** After a known balance every balance is known. *)
Lemma sort_and_fill_after_known (W : list (Timestamp * option float64))
  (t0 t : Timestamp) (b0 b : float64) :
  NoDup (map fst W) ->
  In (t0, Some b0) W -> is_nan b0 = false ->
  In (t, b) (sort_and_fill W) -> t0 <= t -> is_nan b = false.
Proof.
  intros Hn Hin0 Hb0 Hin Hle.
  pose proof (sort_values_increasing fst W Hn) as Hs.
  unfold sort_and_fill in Hin.
  apply (sort_values_In fst) in Hin0.
  destruct (split_sorted fst _ _ Hs Hin0) as (L1 & L2 & E & H1 & H2).
  rewrite E in Hin. rewrite !map_app in Hin. simpl map in Hin.
  destruct (ffill_split (map snd L1) (map snd L2) b0 Hb0) as (r1 & Hlen & E').
  rewrite E' in Hin.
  rewrite combine_split in Hin by (now rewrite Hlen, !length_map).
  apply in_app_or in Hin as [Hin|[Hin|Hin]].
  - apply in_combine_l in Hin. apply in_map_iff in Hin as (x & Hx & Hin).
    rewrite Forall_forall in H1. specialize (H1 _ Hin). simpl in *. lia.
  - now injection Hin as <- <-.
  - apply in_combine_r in Hin. apply in_map_iff in Hin as (v & <- & Hin).
    rewrite isna_float_of_object.
    pose proof (pad_known (Some b0) (map snd L2) Hb0) as Hk.
    rewrite Forall_forall in Hk. now apply Hk.
Qed.

(** A missing balance after a known one, with only missing balances in
    between, takes the known one. *)
Lemma sort_and_fill_fills (W : list (Timestamp * option float64))
  (t0 t : Timestamp) (v0 : float64) (v : option float64) :
  NoDup (map fst W) ->
  In (t0, Some v0) W -> is_nan v0 = false ->
  In (t, v) W -> isna v = true -> t0 < t ->
  (forall t1 v1, In (t1, v1) W -> t0 < t1 < t -> isna v1 = true) ->
  In (t, v0) (sort_and_fill W).
Proof.
  intros Hn Hin0 Hv0 Hin Hv Hlt Hbetween.
  pose proof (sort_values_increasing fst W Hn) as Hs.
  apply (sort_values_In fst) in Hin0, Hin.
  destruct (split_sorted2 fst _ _ _ Hs Hin0 Hin Hlt)
    as (L1 & L2 & L3 & E & H2).
  unfold sort_and_fill. rewrite E.
  rewrite !map_app. simpl map. rewrite !map_app. simpl map.
  destruct (ffill_split (map snd L1) (map snd L2 ++ v :: map snd L3) v0 Hv0)
    as (r1 & Hlen & ->).
  rewrite combine_split by (now rewrite Hlen, !length_map).
  apply in_or_app. right. right.
  rewrite pad_missing_run.
  - rewrite map_app. simpl pad. rewrite Hv. simpl map.
    rewrite combine_split by (now rewrite !length_map).
    apply in_or_app. right. now left.
  - rewrite Forall_map, Forall_forall. intros [t1 v1] Hx.
    rewrite Forall_forall in H2. specialize (H2 _ Hx). simpl in *.
    apply (Hbetween t1); [|assumption].
    apply (sort_values_In fst). rewrite E.
    apply in_or_app. right. right. apply in_or_app. now left.
Qed.

(** ** [process_csv] through its stages *)

Lemma fill_gaps_Ok (df res : list (Timestamp * float64)) :
  fill_gaps df = Ok res ->
  exists mn mx,
    series_min (map fst df) = Some mn /\ series_max (map fst df) = Some mx /\
    res = drop_duplicates Z.eqb fst
            (sort_and_fill
               (with_placeholders df (generate_regular_range mn mx freq_15T))).
Proof.
  unfold fill_gaps, date_range.
  destruct (series_min (map fst df)) as [mn|]; [|discriminate].
  destruct (series_max (map fst df)) as [mx|]; [|discriminate].
  simpl. intros [= <-]. eauto.
Qed.


(** The final [drop_duplicates] finds the timestamps already distinct. *)
Lemma final_check_id (df : list (Timestamp * float64)) (grid : list Timestamp) :
  NoDup (map fst df) -> NoDup grid ->
  drop_duplicates Z.eqb fst (sort_and_fill (with_placeholders df grid)) =
  sort_and_fill (with_placeholders df grid).
Proof.
  intros Hd Hg. apply (drop_duplicates_id Z.eqb fst Z.eqb_eq).
  apply increasing_NoDup, sort_and_fill_increasing.
  now apply with_placeholders_NoDup.
Qed.

Lemma fill_gaps_without_final_check_eq (df : list (Timestamp * float64)) :
  NoDup (map fst df) -> fill_gaps df = fill_gaps_without_final_check df.
Proof.
  intros Hd. unfold fill_gaps, fill_gaps_without_final_check, date_range.
  destruct (series_min (map fst df)) as [mn|]; [|reflexivity].
  destruct (series_max (map fst df)) as [mx|]; [|reflexivity].
  simpl. f_equal. apply final_check_id; [assumption|].
  apply increasing_NoDup, generate_regular_range_increasing, freq_15T_pos.
Qed.

Lemma process_csv_stages (fs : filesystem) (file_path : string) :
  process_csv fs file_path =
  match gap_filled fs file_path with
  | Ok res =>
      (to_csv fs (get_output_path file_path) (render res), Some (render res))
  | Raise _ => (fs, None)
  end.
Proof.
  unfold process_csv, process_body, gap_filled, cleaned, load.
  destruct (read_csv fs file_path) as [df|e]; simpl; [|reflexivity].
  destruct (getitem2 df col_time col_balance) as [cells|e]; simpl;
    [|reflexivity].
  destruct (convert cells) as [raw|e]; simpl; [|reflexivity].
  destruct (fill_gaps (clean raw)) as [res|e]; reflexivity.
Qed.

Lemma process_csv_Some (fs fs' : filesystem) (file_path : string)
  (out : DataFrame) :
  process_csv fs file_path = (fs', Some out) ->
  exists raw res,
    load fs file_path = Ok raw /\ cleaned fs file_path = Ok (clean raw) /\
    fill_gaps (clean raw) = Ok res /\ gap_filled fs file_path = Ok res /\
    out = render res /\
    fs' = to_csv fs (get_output_path file_path) out.
Proof.
  rewrite process_csv_stages. unfold gap_filled, cleaned.
  destruct (load fs file_path) as [raw|e]; simpl; [|discriminate].
  destruct (fill_gaps (clean raw)) as [res|e] eqn:E; [|discriminate].
  intros [= <- <-]. exists raw, res. auto 10.
Qed.

Lemma process_csv_None (fs : filesystem) (file_path : string) (e : exn) :
  gap_filled fs file_path = Raise e -> process_csv fs file_path = (fs, None).
Proof. intros H. now rewrite process_csv_stages, H. Qed.

(** What the filled table holds, for a cleaned Series [df]. *)
Lemma fill_gaps_spec (df res : list (Timestamp * float64)) :
  NoDup (map fst df) -> fill_gaps df = Ok res ->
  exists mn mx,
    series_min (map fst df) = Some mn /\ series_max (map fst df) = Some mx /\
    res = sort_and_fill
            (with_placeholders df (generate_regular_range mn mx freq_15T)) /\
    NoDup (map fst
             (with_placeholders df (generate_regular_range mn mx freq_15T))).
Proof.
  intros Hd H. apply fill_gaps_Ok in H as (mn & mx & Hmn & Hmx & ->).
  exists mn, mx. repeat split; try assumption.
  - apply final_check_id; [assumption|].
    apply increasing_NoDup, generate_regular_range_increasing, freq_15T_pos.
  - apply with_placeholders_NoDup; [assumption|].
    apply increasing_NoDup, generate_regular_range_increasing, freq_15T_pos.
Qed.

(** * The claims *)

(** C6. For a non-empty cleaned Series with least timestamp [mn] and
    greatest [mx], the grid that lines 103 to 107 generate, and from which
    [process_csv] fills the Series, is [mn + 15min * k] for [k = 0, 1, ...]
    as long as that is at most [mx]: it has [floor ((mx - mn) / 15min) + 1]
    instants, [mx] is one of them exactly when it lies a multiple of 15
    minutes after [mn], and every instant of it has a record in the
    output. *)
Theorem grid_anchored_at_min (raw : list (option Timestamp * float64)) :
  clean raw <> [] ->
  exists mn mx grid res,
    series_min (map fst (clean raw)) = Some mn /\
    series_max (map fst (clean raw)) = Some mx /\
    (forall t, In t (map fst (clean raw)) -> mn <= t <= mx) /\
    date_range (Some mn) (Some mx) = Ok grid /\
    fill_gaps (clean raw) = Ok res /\
    res = drop_duplicates Z.eqb fst
            (sort_and_fill (with_placeholders (clean raw) grid)) /\
    (forall t, In t (map fst res) <->
               In t grid \/ In t (map fst (clean raw))) /\
    (forall fs file_path, load fs file_path = Ok raw ->
       snd (process_csv fs file_path) = Some (render res)) /\
    grid = map (fun k => mn + freq_15T * Z.of_nat k)
               (seq 0 (List.length grid)) /\
    Z.of_nat (List.length grid) = (mx - mn) / freq_15T + 1 /\
    (forall t, In t grid <->
               exists k, 0 <= k /\ t = mn + freq_15T * k /\ t <= mx) /\
    (In mx grid <-> (mx - mn) mod freq_15T = 0).
Proof.
  intros Hne.
  assert (Hne' : map fst (clean raw) <> []).
  { destruct (clean raw); [congruence | discriminate]. }
  destruct (series_min_nonempty _ Hne') as (mn & Hmn).
  destruct (series_max_nonempty _ Hne') as (mx & Hmx).
  pose proof (proj1 (series_min_spec _ _) Hmn) as [Hmn1 Hmn2].
  pose proof (proj1 (series_max_spec _ _) Hmx) as [Hmx1 Hmx2].
  assert (Hle : mn <= mx) by auto.
  assert (Hq : 0 <= (mx - mn) / freq_15T)
    by (apply Z.div_pos; [lia | apply freq_15T_pos]).
  set (grid := generate_regular_range mn mx freq_15T).
  assert (Hfill : fill_gaps (clean raw) =
            Ok (drop_duplicates Z.eqb fst
                  (sort_and_fill (with_placeholders (clean raw) grid)))).
  { unfold fill_gaps. now rewrite Hmn, Hmx. }
  exists mn, mx, grid,
    (drop_duplicates Z.eqb fst
       (sort_and_fill (with_placeholders (clean raw) grid))).
  split; [assumption|]. split; [assumption|].
  split; [intros t Ht; split; auto|].
  split; [reflexivity|]. split; [exact Hfill|]. split; [reflexivity|].
  assert (Hg : NoDup grid).
  { apply increasing_NoDup, generate_regular_range_increasing, freq_15T_pos. }
  split.
  { intros t. rewrite (final_check_id _ _ (clean_NoDup raw) Hg).
    rewrite In_fst_sort_and_fill, map_fst_with_placeholders.
    rewrite in_app_iff, In_difference.
    destruct (in_dec Z.eq_dec t (map fst (clean raw))); tauto. }
  split.
  { intros fs file_path Hl. rewrite process_csv_stages.
    unfold gap_filled, cleaned. rewrite Hl. cbn [bind]. now rewrite Hfill. }
  assert (Hlen : List.length grid = Z.to_nat ((mx - mn) / freq_15T + 1)).
  { unfold grid.
    rewrite generate_regular_range_eq by (auto using freq_15T_pos).
    now rewrite length_map, length_seq. }
  split; [|split; [|split]].
  - rewrite Hlen. unfold grid.
    rewrite generate_regular_range_eq by (auto using freq_15T_pos).
    apply map_ext. intros k. ring.
  - rewrite Hlen. lia.
  - intros t. unfold grid.
    rewrite In_generate_regular_range by apply freq_15T_pos.
    split; intros (k & Hk & -> & Ht); exists k; repeat split; auto; lia.
  - unfold grid. rewrite In_generate_regular_range by apply freq_15T_pos.
    split.
    + intros (k & Hk & Heq & _).
      replace (mx - mn) with (k * freq_15T) by lia.
      apply Z.mod_mul. discriminate.
    + intros Hmod. exists ((mx - mn) / freq_15T).
      split; [assumption|]. split; [|lia].
      pose proof (Z.div_mod (mx - mn) freq_15T) as Hdm.
      rewrite Hmod in Hdm. specialize (Hdm ltac:(discriminate)). lia.
Qed.

Lemma grid_anchored_at_min_witness :
  clean [(Some t_2024, float_of_Z 1000);
         (Some (t_2024 + minutes 20), float_of_Z 2000)] <> [] /\
  exists mn mx grid res,
    series_min (map fst (clean [(Some t_2024, float_of_Z 1000);
         (Some (t_2024 + minutes 20), float_of_Z 2000)])) = Some mn /\
    series_max (map fst (clean [(Some t_2024, float_of_Z 1000);
         (Some (t_2024 + minutes 20), float_of_Z 2000)])) = Some mx /\
    (forall t, In t (map fst (clean [(Some t_2024, float_of_Z 1000);
         (Some (t_2024 + minutes 20), float_of_Z 2000)])) -> mn <= t <= mx) /\
    date_range (Some mn) (Some mx) = Ok grid /\
    fill_gaps (clean [(Some t_2024, float_of_Z 1000);
         (Some (t_2024 + minutes 20), float_of_Z 2000)]) = Ok res /\
    res = drop_duplicates Z.eqb fst
            (sort_and_fill
               (with_placeholders
                  (clean [(Some t_2024, float_of_Z 1000);
                          (Some (t_2024 + minutes 20), float_of_Z 2000)])
                  grid)) /\
    (forall t, In t (map fst res) <->
               In t grid \/
               In t (map fst (clean [(Some t_2024, float_of_Z 1000);
                        (Some (t_2024 + minutes 20), float_of_Z 2000)]))) /\
    (forall fs file_path,
       load fs file_path = Ok [(Some t_2024, float_of_Z 1000);
                               (Some (t_2024 + minutes 20), float_of_Z 2000)] ->
       snd (process_csv fs file_path) = Some (render res)) /\
    grid = map (fun k => mn + freq_15T * Z.of_nat k)
               (seq 0 (List.length grid)) /\
    Z.of_nat (List.length grid) = (mx - mn) / freq_15T + 1 /\
    (forall t, In t grid <->
               exists k, 0 <= k /\ t = mn + freq_15T * k /\ t <= mx) /\
    (In mx grid <-> (mx - mn) mod freq_15T = 0).
Proof.
  split.
  - vm_compute. discriminate.
  - apply (grid_anchored_at_min
             [(Some t_2024, float_of_Z 1000);
              (Some (t_2024 + minutes 20), float_of_Z 2000)]).
    vm_compute. discriminate.
Defined.

(** C10. The placeholders are built from the grid minus the observed
    timestamps, so the observed rows followed by the placeholders hold no
    timestamp twice; the table stays so when sorted and filled, the
    [drop_duplicates] of line 130 removes no row, and [process_csv] is
    the same function without that line. *)
Theorem final_check_removes_nothing :
  (forall raw start stop,
      NoDup (map fst (with_placeholders (clean raw)
                        (generate_regular_range start stop freq_15T))) /\
      drop_duplicates Z.eqb fst
        (sort_and_fill (with_placeholders (clean raw)
                          (generate_regular_range start stop freq_15T))) =
      sort_and_fill (with_placeholders (clean raw)
                       (generate_regular_range start stop freq_15T))) /\
  (forall raw, fill_gaps (clean raw) = fill_gaps_without_final_check (clean raw)) /\
  (forall fs file_path,
      process_csv fs file_path = process_csv_without_final_check fs file_path).
Proof.
  assert (Hg : forall start stop,
             NoDup (generate_regular_range start stop freq_15T)).
  { intros. apply increasing_NoDup, generate_regular_range_increasing,
      freq_15T_pos. }
  split; [|split].
  - intros raw start stop. split.
    + apply with_placeholders_NoDup; [apply clean_NoDup | apply Hg].
    + apply final_check_id; [apply clean_NoDup | apply Hg].
  - intros raw. apply fill_gaps_without_final_check_eq, clean_NoDup.
  - intros fs file_path.
    unfold process_csv, process_body, process_csv_without_final_check.
    destruct (read_csv fs file_path) as [df|e]; simpl; [|reflexivity].
    destruct (getitem2 df col_time col_balance) as [cells|e]; simpl;
      [|reflexivity].
    destruct (convert cells) as [raw|e]; simpl; [|reflexivity].
    now rewrite fill_gaps_without_final_check_eq by apply clean_NoDup.
Qed.

(** C1, as the specification states it, fails: an observed row stays in the
    output when its timestamp is off the grid (00:20 below, with the grid
    00:00, 00:15), and a balance that is missing before the first known
    one stays missing. *)
Lemma off_grid_rows_stay :
  cleaned (one_file off_grid_input) "in.csv" =
    Ok [(t_2024, NaN); (t_2024 + minutes 20, float_of_Z 2000)] /\
  grid_of [(t_2024, NaN); (t_2024 + minutes 20, float_of_Z 2000)] =
    Ok [t_2024; t_2024 + minutes 15] /\
  gap_filled (one_file off_grid_input) "in.csv" =
    Ok [(t_2024, NaN); (t_2024 + minutes 15, NaN);
        (t_2024 + minutes 20, float_of_Z 2000)] /\
  snd (process_csv (one_file off_grid_input) "in.csv") =
    Some (mkDataFrame ["DateTime"; "Balance"]%string
            [[Str "2024.01.01 00:00:00"; NA];
             [Str "2024.01.01 00:15:00"; NA];
             [Str "2024.01.01 00:20:00"; Num (float_of_Z 2000)]]) /\
  ~ one_record_per_grid_instant
      [(t_2024, NaN); (t_2024 + minutes 20, float_of_Z 2000)]
      [(t_2024, NaN); (t_2024 + minutes 15, NaN);
       (t_2024 + minutes 20, float_of_Z 2000)].
Proof.
  split; [vm_compute; reflexivity|].
  split; [vm_compute; reflexivity|].
  split; [vm_compute; reflexivity|].
  split; [vm_compute; reflexivity|].
  intros (grid & Hg & Hp & _).
  vm_compute in Hg. injection Hg as <-.
  apply Permutation_length in Hp. discriminate.
Qed.

(** C1, amended. The output of a successful run holds one record for each
    grid instant and one for each observed timestamp, on the grid or not,
    and no other; its timestamps increase strictly, so none occurs twice;
    and a balance is missing only where no observed balance at or before
    that instant is known. *)
Theorem output_is_grid_and_observed (fs fs' : filesystem) (file_path : string)
  (out : DataFrame) :
  process_csv fs file_path = (fs', Some out) ->
  exists df grid res,
    cleaned fs file_path = Ok df /\ grid_of df = Ok grid /\
    gap_filled fs file_path = Ok res /\ out = render res /\
    increasing (map fst res) /\
    (forall t, In t (map fst res) <-> In t grid \/ In t (map fst df)) /\
    (forall t b, In (t, b) res -> is_nan b = true ->
       forall t0 b0, In (t0, b0) df -> t0 <= t -> is_nan b0 = true).
Proof.
  intros H.
  apply process_csv_Some in H as (raw & res & _ & Hc & Hf & Hg & -> & _).
  pose proof (clean_NoDup raw) as Hn.
  destruct (fill_gaps_spec _ _ Hn Hf) as (mn & mx & Hmn & Hmx & -> & HnW).
  exists (clean raw), (generate_regular_range mn mx freq_15T).
  eexists. split; [exact Hc|].
  split; [unfold grid_of; now rewrite Hmn, Hmx|].
  split; [exact Hg|]. split; [reflexivity|].
  split; [now apply sort_and_fill_increasing|]. split.
  - intros t. rewrite In_fst_sort_and_fill, map_fst_with_placeholders.
    rewrite in_app_iff, In_difference.
    destruct (in_dec Z.eq_dec t (map fst (clean raw))); tauto.
  - intros t b Hin Hb t0 b0 Hin0 Hle.
    destruct (is_nan b0) eqn:E; [reflexivity|].
    rewrite <- Hb. symmetry.
    apply (sort_and_fill_after_known _ t0 t b0 b HnW); auto.
    apply In_with_placeholders. left. eauto.
Qed.

Lemma output_is_grid_and_observed_witness :
  process_csv (one_file off_grid_input) "in.csv" =
    (to_csv (one_file off_grid_input) "in_BD.csv"
       (render [(t_2024, NaN); (t_2024 + minutes 15, NaN);
                (t_2024 + minutes 20, float_of_Z 2000)]),
     Some (render [(t_2024, NaN); (t_2024 + minutes 15, NaN);
                   (t_2024 + minutes 20, float_of_Z 2000)])) /\
  exists df grid res,
    cleaned (one_file off_grid_input) "in.csv" = Ok df /\
    grid_of df = Ok grid /\
    gap_filled (one_file off_grid_input) "in.csv" = Ok res /\
    render [(t_2024, NaN); (t_2024 + minutes 15, NaN);
            (t_2024 + minutes 20, float_of_Z 2000)] = render res /\
    increasing (map fst res) /\
    (forall t, In t (map fst res) <-> In t grid \/ In t (map fst df)) /\
    (forall t b, In (t, b) res -> is_nan b = true ->
       forall t0 b0, In (t0, b0) df -> t0 <= t -> is_nan b0 = true).
Proof.
  assert (H : process_csv (one_file off_grid_input) "in.csv" =
    (to_csv (one_file off_grid_input) "in_BD.csv"
       (render [(t_2024, NaN); (t_2024 + minutes 15, NaN);
                (t_2024 + minutes 20, float_of_Z 2000)]),
     Some (render [(t_2024, NaN); (t_2024 + minutes 15, NaN);
                   (t_2024 + minutes 20, float_of_Z 2000)]))).
  { rewrite process_csv_stages. reflexivity. }
  split; [exact H|].
  exact (output_is_grid_and_observed _ _ _ _ H).
Defined.


(** ** First occurrences *)

Lemma first_seen_spec (raw : list (option Timestamp * float64)) (t : Timestamp)
  (b : float64) :
  first_seen raw t = Some b <->
  exists l1 l2, raw = l1 ++ (Some t, b) :: l2 /\ ~ In (Some t) (map fst l1).
Proof.
  unfold first_seen. induction raw as [|[o b'] raw IH]; simpl.
  - split; [discriminate|]. intros (l1 & l2 & H & _). now destruct l1.
  - destruct (option_eqb o (Some t)) eqn:E.
    + apply option_eqb_eq in E. subst o. simpl. split.
      * intros [= ->]. exists [], raw. simpl. tauto.
      * intros (l1 & l2 & H & Hn). destruct l1 as [|x l1]; simpl in *.
        -- now injection H as -> _.
        -- injection H as <- _. simpl in Hn. tauto.
    + rewrite IH. split.
      * intros (l1 & l2 & -> & Hn). exists ((o, b') :: l1), l2.
        split; [reflexivity|]. simpl. intros [->|H]; [|contradiction].
        rewrite (proj2 (option_eqb_eq _ _) eq_refl) in E. discriminate.
      * intros (l1 & l2 & H & Hn). destruct l1 as [|x l1]; simpl in *.
        -- injection H as -> _.
           rewrite (proj2 (option_eqb_eq _ _) eq_refl) in E. discriminate.
        -- injection H as _ ->. exists l1, l2. tauto.
Qed.

(** C8, as the specification states it, fails: the first row for 00:15
    has no balance, and the output shows at 00:15 the balance of 00:00,
    filled forward. *)
Lemma missing_first_balance_is_filled :
  load (one_file duplicate_input) "in.csv" =
    Ok [(Some t_2024, float_of_Z 1000); (Some (t_2024 + minutes 15), NaN);
        (Some (t_2024 + minutes 15), float_of_Z 2000)] /\
  gap_filled (one_file duplicate_input) "in.csv" =
    Ok [(t_2024, float_of_Z 1000); (t_2024 + minutes 15, float_of_Z 1000)] /\
  ~ first_seen_balance_in_output
      [(Some t_2024, float_of_Z 1000); (Some (t_2024 + minutes 15), NaN);
       (Some (t_2024 + minutes 15), float_of_Z 2000)]
      [(t_2024, float_of_Z 1000); (t_2024 + minutes 15, float_of_Z 1000)].
Proof.
  split; [vm_compute; reflexivity|].
  split; [vm_compute; reflexivity|].
  intros H.
  specialize (H (t_2024 + minutes 15) NaN eq_refl (float_of_Z 1000)).
  discriminate H. right. now left.
Qed.

(** C8, amended. Of the rows that share a parsed timestamp the cleaned
    Series keeps exactly one, the first in the order of the input; the
    output shows its balance at that timestamp whenever that balance is a
    number (a missing one is filled forward like any other). *)
Theorem first_occurrence_is_kept (fs fs' : filesystem) (file_path : string)
  (out : DataFrame) :
  process_csv fs file_path = (fs', Some out) ->
  exists raw res,
    load fs file_path = Ok raw /\ cleaned fs file_path = Ok (clean raw) /\
    gap_filled fs file_path = Ok res /\ out = render res /\
    NoDup (map fst (clean raw)) /\ NoDup (map fst res) /\
    forall t b, first_seen raw t = Some b ->
      In (t, b) (clean raw) /\
      (forall b', In (t, b') (clean raw) -> b' = b) /\
      (is_nan b = false ->
       In (t, b) res /\ forall b', In (t, b') res -> b' = b).
Proof.
  intros H.
  apply process_csv_Some in H as (raw & res & Hl & Hc & Hf & Hg & -> & _).
  pose proof (clean_NoDup raw) as Hn.
  destruct (fill_gaps_spec _ _ Hn Hf) as (mn & mx & Hmn & Hmx & -> & HnW).
  set (W := with_placeholders (clean raw)
              (generate_regular_range mn mx freq_15T)) in *.
  pose proof (increasing_NoDup _ (sort_and_fill_increasing W HnW)) as Hres.
  exists raw. eexists. do 4 (split; [eassumption || reflexivity|]).
  split; [assumption|]. split; [assumption|].
  intros t b Hfirst. apply first_seen_spec in Hfirst.
  assert (Hin : In (t, b) (clean raw)) by now apply In_clean.
  split; [assumption|]. split.
  - intros b' Hin'.
    pose proof (NoDup_keys_inj fst _ _ _ Hn Hin' Hin eq_refl) as E.
    now injection E.
  - intros Hb.
    assert (Hres' : In (t, b) (sort_and_fill W)).
    { apply sort_and_fill_known; [|assumption].
      apply In_with_placeholders. left. eauto. }
    split; [assumption|]. intros b' Hin'.
    pose proof (NoDup_keys_inj fst _ _ _ Hres Hin' Hres' eq_refl) as E.
    now injection E.
Qed.

Lemma first_occurrence_is_kept_witness :
  exists raw res,
    load (one_file duplicate_input) "in.csv" = Ok raw /\
    cleaned (one_file duplicate_input) "in.csv" = Ok (clean raw) /\
    gap_filled (one_file duplicate_input) "in.csv" = Ok res /\
    render [(t_2024, float_of_Z 1000); (t_2024 + minutes 15, float_of_Z 1000)]
      = render res /\
    NoDup (map fst (clean raw)) /\ NoDup (map fst res) /\
    forall t b, first_seen raw t = Some b ->
      In (t, b) (clean raw) /\
      (forall b', In (t, b') (clean raw) -> b' = b) /\
      (is_nan b = false ->
       In (t, b) res /\ forall b', In (t, b') res -> b' = b).
Proof.
  apply (first_occurrence_is_kept (one_file duplicate_input)
           (to_csv (one_file duplicate_input) "in_BD.csv"
              (render [(t_2024, float_of_Z 1000);
                       (t_2024 + minutes 15, float_of_Z 1000)]))
           "in.csv"%string).
  rewrite process_csv_stages. reflexivity.
Defined.

(** ** Failures *)

Lemma gap_filled_empty (fs : filesystem) (file_path : string) :
  cleaned fs file_path = Ok [] -> gap_filled fs file_path = Raise ValueError.
Proof. unfold gap_filled. now intros ->. Qed.


(** C3 on the code: a row whose time cell holds the end-of-data marker is
    not excluded by [process_csv], which never calls [is_summary_row]; the
    marker reaches [to_datetime], which raises, and the run returns
    [None]. [extract_time_balance], the helper of the same module, does
    exclude the row, and the rows it keeps are processed when they stand
    under the headers of the input. *)
Theorem summary_row_aborts_process_csv :
  is_summary_row (Str "end of test", NA) = true /\
  snd (process_csv (one_file summary_input) "in.csv") = None /\
  extract_time_balance summary_input =
    Ok (mkDataFrame ["DateTime"; "Balance"]%string
          [[Str "2024.01.01 00:00:00"; Str "1000"]]) /\
  snd (process_csv
         (one_file (table_of [(Str "2024.01.01 00:00:00", Str "1000")]))
         "in.csv") =
    Some (mkDataFrame ["DateTime"; "Balance"]%string
            [[Str "2024.01.01 00:00:00"; Num (float_of_Z 1000)]]).
Proof. repeat split; vm_compute; reflexivity. Qed.

(** ** The balance coercion *)

Lemma lstrip_lstrip (s : chars) : lstrip (lstrip s) = lstrip s.
Proof.
  induction s as [|c s IH]; simpl; [reflexivity|].
  destruct (isspace c) eqn:E; [assumption|]. simpl. now rewrite E.
Qed.

Lemma strip_strip (s : chars) : strip (strip s) = strip s.
Proof.
  unfold strip.
  assert (H : forall l, lstrip (rev (lstrip (rev (lstrip l)))) =
                        rev (lstrip (rev (lstrip l)))).
  { intros l. set (m := lstrip l).
    assert (Hm : lstrip m = m) by apply lstrip_lstrip.
    clearbody m. clear l.
    (* dropping blanks at the end keeps a first character that is none *)
    destruct m as [|c m]; [reflexivity|].
    simpl in Hm. destruct (isspace c) eqn:E.
    - exfalso.
      assert (Hlen : (List.length (lstrip m) <= List.length m)%nat).
      { clear. induction m as [|a m IH]; simpl; [auto|].
        destruct (isspace a); simpl; lia. }
      rewrite Hm in Hlen. simpl in Hlen. lia.
    - assert (Hr : forall l, exists l', rev (lstrip (rev (c :: l))) = c :: l').
      { intros l. simpl rev.
        assert (Hs : forall a, exists l', rev (lstrip (a ++ [c])) = c :: l').
        { induction a as [|x a IHa]; simpl.
          - rewrite E. simpl. eauto.
          - destruct (isspace x); [assumption|].
            simpl. rewrite rev_app_distr. simpl. eauto. }
        apply Hs. }
      destruct (Hr m) as (l' & ->). simpl. now rewrite E. }
  rewrite H, rev_involutive. apply H.
Qed.

Lemma In_replace_spaces (s : chars) (c : ascii) :
  In c (replace_spaces s) <-> In c s /\ c <> " "%char.
Proof.
  unfold replace_spaces. rewrite filter_In, negb_true_iff.
  rewrite Ascii.eqb_neq. tauto.
Qed.

Lemma replace_spaces_id (s : chars) :
  ~ In " "%char s -> replace_spaces s = s.
Proof.
  unfold replace_spaces. induction s as [|c s IH]; simpl; [reflexivity|].
  intros H. destruct (Ascii.eqb_spec c " "%char) as [->|Hc]; simpl.
  - elim H. now left.
  - f_equal. apply IH. tauto.
Qed.

Lemma float_of_chars_strip (s : chars) :
  float_of_chars (strip s) = float_of_chars s.
Proof. unfold float_of_chars. now rewrite strip_strip. Qed.

Lemma clean_balance_data_spec (df : list (cell * cell))
  (out : list (cell * float64)) :
  clean_balance_data df = Ok out ->
  Forall2 (fun row r => clean_balance (snd row) = Ok (snd r)) df out.
Proof.
  unfold clean_balance_data. intros H.
  apply bind_Ok in H as (Balance & HB & [= <-]).
  apply mapM_Ok in HB. clear -HB.
  revert Balance HB. induction df as [|row df IH]; intros Balance HB.
  - inversion HB. constructor.
  - simpl in HB. inversion HB as [|? b ? Bs Hb HBs]; subst.
    simpl. constructor; [exact Hb | now apply IH].
Qed.

(** C9, as the specification states it, fails: a tab inside the balance is
    not removed, and the text is then no number. *)
Lemma tab_is_not_removed :
  coerce_balance_as_specified one_tab_050 = Ok (float_of_Z 1050) /\
  clean_balance (Str one_tab_050) = Raise ValueError /\
  snd (process_csv
         (one_file (input_table [[Str "2024.01.01 00:00:00"; Str one_tab_050]]))
         "in.csv") = None.
Proof. repeat split; vm_compute; reflexivity. Qed.


(** ** Conversion of the two columns *)

(** The pipeline on the modelled library is [process_csv]. *)
Lemma convert_model (cells : list (cell * cell)) :
  convert_with model cells = convert cells.
Proof. reflexivity. Qed.

Lemma process_body_model (fs : filesystem) (file_path : string) :
  process_body fs file_path =
  (out <- process_body_with model fs file_path ;;
   Ok (to_csv fs (get_output_path file_path) out, out)).
Proof.
  unfold process_body, process_body_with.
  destruct (read_csv fs file_path) as [df|e]; cbn [bind]; [|reflexivity].
  destruct (getitem2 df col_time col_balance) as [cells|e]; cbn [bind];
    [|reflexivity].
  change (convert_with model cells) with (convert cells).
  destruct (convert cells) as [raw|e]; cbn [bind]; [|reflexivity].
  destruct (fill_gaps (clean raw)) as [res|e]; reflexivity.
Qed.

Lemma process_csv_model (fs : filesystem) (file_path : string) :
  process_csv_with model fs file_path = process_csv fs file_path.
Proof.
  unfold process_csv, process_csv_with. rewrite process_body_model.
  destruct (process_body_with model fs file_path) as [out|e]; reflexivity.
Qed.

Lemma mapM_Raise_inv {A B : Type} (f : A -> result B) (l : list A) (e : exn) :
  mapM f l = Raise e -> exists x, In x l /\ f x = Raise e.
Proof.
  induction l as [|y l IH]; simpl; [discriminate|].
  destruct (f y) as [b|e0] eqn:Ey; simpl.
  - destruct (mapM f l) as [bs|e1]; simpl; [discriminate|].
    intros [= <-]. destruct (IH eq_refl) as (x & Hx & Hfx). eauto.
  - intros [= <-]. eauto.
Qed.

Lemma convert_with_cons (L : library) (c : cell * cell)
  (cells : list (cell * cell)) (raw : list (option Timestamp * float64)) :
  convert_with L (c :: cells) = Ok raw <->
  exists d b raw',
    pd_to_datetime L (fst c) = Ok d /\ clean_balance_with L (snd c) = Ok b /\
    convert_with L cells = Ok raw' /\ raw = (d, b) :: raw'.
Proof.
  unfold convert_with. simpl.
  destruct (clean_balance_with L (snd c)) as [b|e]; simpl.
  2: { split; [discriminate|]. intros (d & b & raw' & _ & H & _). discriminate. }
  destruct (mapM (clean_balance_with L) (map snd cells)) as [bs|e]; simpl.
  2: { split; [discriminate|]. intros (d & b' & raw' & _ & _ & H & _).
       discriminate. }
  destruct (pd_to_datetime L (fst c)) as [d|e]; simpl.
  2: { split; [discriminate|]. intros (d & b' & raw' & H & _). discriminate. }
  destruct (mapM (pd_to_datetime L) (map fst cells)) as [ds|e]; simpl.
  2: { split; [discriminate|]. intros (d' & b' & raw' & _ & _ & H & _).
       discriminate. }
  split.
  - intros [= <-]. exists d, b, (combine ds bs). auto.
  - intros (d' & b' & raw' & [= <-] & [= <-] & [= <-] & ->). reflexivity.
Qed.

Lemma convert_cons (c : cell * cell) (cells : list (cell * cell))
  (raw : list (option Timestamp * float64)) :
  convert (c :: cells) = Ok raw <->
  exists d b raw',
    to_datetime (fst c) = Ok d /\ clean_balance (snd c) = Ok b /\
    convert cells = Ok raw' /\ raw = (d, b) :: raw'.
Proof. exact (convert_with_cons model c cells raw). Qed.

Lemma convert_with_Raise_balance (L : library) (cells : list (cell * cell))
  (row : cell * cell) (e : exn) :
  In row cells -> clean_balance_with L (snd row) = Raise e ->
  exists e', convert_with L cells = Raise e'.
Proof.
  intros Hin He. unfold convert_with.
  destruct (mapM_Raise (clean_balance_with L) (map snd cells) (snd row) e)
    as (e' & ->); [now apply in_map | assumption |].
  simpl. eauto.
Qed.

Lemma convert_with_Raise_time (L : library) (cells : list (cell * cell))
  (row : cell * cell) (e : exn) :
  In row cells -> pd_to_datetime L (fst row) = Raise e ->
  exists e', convert_with L cells = Raise e'.
Proof.
  intros Hin He. unfold convert_with.
  destruct (mapM (clean_balance_with L) (map snd cells)) as [bs|e0]; simpl;
    [|eauto].
  destruct (mapM_Raise (pd_to_datetime L) (map fst cells) (fst row) e)
    as (e' & ->); [now apply in_map | assumption |].
  simpl. eauto.
Qed.

Lemma convert_Raise_time (cells : list (cell * cell)) (row : cell * cell)
  (e : exn) :
  In row cells -> to_datetime (fst row) = Raise e ->
  exists e', convert cells = Raise e'.
Proof. exact (convert_with_Raise_time model cells row e). Qed.

(** A conversion that raises does so at a cell. *)
Lemma convert_with_Raise_inv (L : library) (cells : list (cell * cell))
  (e : exn) :
  convert_with L cells = Raise e ->
  exists row, In row cells /\
    (clean_balance_with L (snd row) = Raise e \/
     pd_to_datetime L (fst row) = Raise e).
Proof.
  unfold convert_with.
  destruct (mapM (clean_balance_with L) (map snd cells)) as [bs|e0] eqn:Eb;
    simpl.
  - destruct (mapM (pd_to_datetime L) (map fst cells)) as [ds|e1] eqn:Ed;
      simpl; [discriminate|].
    intros [= <-]. apply mapM_Raise_inv in Ed as (x & Hx & Hfx).
    apply in_map_iff in Hx as (row & <- & Hrow). eauto.
  - intros [= <-]. apply mapM_Raise_inv in Eb as (x & Hx & Hfx).
    apply in_map_iff in Hx as (row & <- & Hrow). eauto.
Qed.

Lemma load_Some (fs : filesystem) (file_path : string) (file : DataFrame)
  (cells : list (cell * cell)) :
  fs file_path = Some file ->
  getitem2 file col_time col_balance = Ok cells ->
  load fs file_path = convert cells.
Proof.
  intros Hf Hg. unfold load, read_csv. rewrite Hf. simpl. now rewrite Hg.
Qed.

Lemma getitem2_table_of (cells : list (cell * cell)) :
  getitem2 (table_of cells) col_time col_balance = Ok cells.
Proof.
  unfold getitem2, table_of, input_table. simpl. f_equal.
  rewrite map_map. simpl.
  induction cells as [|[a b] cells IH]; simpl; [reflexivity|].
  now rewrite IH.
Qed.

Lemma process_body_with_Some (L : library) (fs : filesystem)
  (file_path : string) (file : DataFrame) (cells : list (cell * cell)) :
  fs file_path = Some file ->
  getitem2 file col_time col_balance = Ok cells ->
  process_body_with L fs file_path =
  (raw <- convert_with L cells ;;
   res <- fill_gaps (clean raw) ;; Ok (render res)).
Proof.
  intros Hf Hg. unfold process_body_with, read_csv. rewrite Hf. simpl.
  now rewrite Hg.
Qed.

(** Rows without a timestamp can be dropped before or after the
    conversion. *)
Lemma convert_with_filter (L : library) (cells : list (cell * cell))
  (raw : list (option Timestamp * float64)) :
  convert_with L cells = Ok raw ->
  convert_with L (filter (has_timestamp_with L) cells) =
    Ok (filter has_time raw).
Proof.
  revert raw. induction cells as [|c cells IH]; intros raw H.
  - injection H as <-. reflexivity.
  - apply convert_with_cons in H as (d & b & raw' & Hd & Hb & Hc & ->).
    specialize (IH _ Hc). simpl. unfold has_timestamp_with at 1. rewrite Hd.
    destruct d as [t|]; unfold has_time at 1; simpl; [|assumption].
    apply convert_with_cons. exists (Some t), b, (filter has_time raw'). auto.
Qed.

Lemma dropna_drop_duplicates_filter (seen1 seen2 : list (option Timestamp))
  (raw : list (option Timestamp * float64)) :
  (forall t, In (Some t) seen1 <-> In (Some t) seen2) ->
  dropna (drop_duplicates_from option_eqb fst seen1 raw) =
  dropna (drop_duplicates_from option_eqb fst seen2 (filter has_time raw)).
Proof.
  revert seen1 seen2. induction raw as [|[[t|] b] raw IH];
    intros seen1 seen2 Hs; simpl; [reflexivity| |].
  - unfold has_time at 1. simpl.
    destruct (existsb (option_eqb (Some t)) seen1) eqn:E1.
    + apply (existsb_eqb option_eqb option_eqb_eq) in E1.
      apply Hs in E1. apply (existsb_eqb option_eqb option_eqb_eq) in E1.
      rewrite E1. now apply IH.
    + apply (existsb_eqb_false option_eqb option_eqb_eq) in E1.
      rewrite Hs in E1.
      apply (existsb_eqb_false option_eqb option_eqb_eq) in E1.
      rewrite E1. simpl. f_equal. apply IH.
      intros t'. simpl. rewrite Hs. tauto.
  - unfold has_time at 1. simpl.
    destruct (existsb (option_eqb None) seen1); simpl.
    + now apply IH.
    + apply IH. intros t'. simpl. rewrite Hs. split; [|tauto].
      intros [H|H]; [discriminate | assumption].
Qed.

Lemma clean_filter (raw : list (option Timestamp * float64)) :
  clean (filter has_time raw) = clean raw.
Proof.
  unfold clean, drop_duplicates. f_equal. symmetry.
  apply dropna_drop_duplicates_filter. tauto.
Qed.

(** C2, as the specification states it, fails: one balance or one
    timestamp that cannot be parsed makes the whole run return [None],
    though the remaining row alone is processed well. *)
Lemma unparseable_row_is_fatal :
  snd (process_csv (one_file bad_balance_input) "in.csv") = None /\
  snd (process_csv (one_file bad_timestamp_input) "in.csv") = None /\
  snd (process_csv (one_file good_rows_input) "in.csv") =
    Some (mkDataFrame ["DateTime"; "Balance"]%string
            [[Str "2024.01.01 00:00:00"; Num (float_of_Z 1000)]]).
Proof. repeat split; vm_compute; reflexivity. Qed.

(** C2, amended. A row whose balance [float] rejects once the spaces are
    removed, or whose timestamp [pd.to_datetime] rejects, is fatal to the
    run, whatever the two accept: [process_csv] returns [None] and writes
    nothing. Only rows whose timestamp is missing are dropped one by one:
    when all cells convert, the table of the run is the table of the rows
    that have a timestamp, and is what the run computes on the input
    without the other rows. *)
Theorem unparseable_cell_fails_the_run (L : library) (fs : filesystem)
  (file_path : string) (file : DataFrame) (cells : list (cell * cell)) :
  fs file_path = Some file ->
  getitem2 file col_time col_balance = Ok cells ->
  (forall row e, In row cells -> clean_balance_with L (snd row) = Raise e ->
                 process_csv_with L fs file_path = (fs, None)) /\
  (forall row e, In row cells -> pd_to_datetime L (fst row) = Raise e ->
                 process_csv_with L fs file_path = (fs, None)) /\
  (forall raw, convert_with L cells = Ok raw ->
     process_body_with L fs file_path =
       (res <- fill_gaps (clean (filter has_time raw)) ;; Ok (render res)) /\
     forall fs2 file_path2,
       fs2 file_path2 =
         Some (table_of (filter (has_timestamp_with L) cells)) ->
       process_body_with L fs2 file_path2 = process_body_with L fs file_path).
Proof.
  intros Hf Hg. pose proof (process_body_with_Some L _ _ _ _ Hf Hg) as Hb.
  split; [|split].
  - intros row e Hin He.
    destruct (convert_with_Raise_balance L _ _ _ Hin He) as (e' & Hc).
    unfold process_csv_with. now rewrite Hb, Hc.
  - intros row e Hin He.
    destruct (convert_with_Raise_time L _ _ _ Hin He) as (e' & Hc).
    unfold process_csv_with. now rewrite Hb, Hc.
  - intros raw Hc. split.
    + rewrite Hb, Hc. cbn [bind]. now rewrite clean_filter.
    + intros fs2 file_path2 Hf2.
      rewrite (process_body_with_Some L _ _ _ _ Hf2 (getitem2_table_of _)).
      rewrite (convert_with_filter L _ _ Hc), Hb, Hc. cbn [bind].
      now rewrite clean_filter.
Qed.

Lemma unparseable_cell_fails_the_run_witness :
  one_file bad_balance_input "in.csv"%string = Some bad_balance_input /\
  getitem2 bad_balance_input col_time col_balance =
    Ok [(Str "2024.01.01 00:00:00", Str "1000");
        (Str "2024.01.01 00:15:00", Str "abc")] /\
  clean_balance_with model (Str "abc") = Raise ValueError /\
  process_csv_with model (one_file bad_balance_input) "in.csv" =
    (one_file bad_balance_input, None).
Proof.
  split; [reflexivity|]. split; [reflexivity|]. split; [reflexivity|].
  apply (proj1 (unparseable_cell_fails_the_run model
                  (one_file bad_balance_input) "in.csv" bad_balance_input
                  [(Str "2024.01.01 00:00:00", Str "1000");
                   (Str "2024.01.01 00:15:00", Str "abc")]
                  eq_refl eq_refl)
           (Str "2024.01.01 00:15:00", Str "abc") ValueError).
  - right. now left.
  - reflexivity.
Defined.

(** ** Text and timestamps: [strftime] then [to_datetime] *)

Lemma chars_of_string_of (l : chars) : chars_of (string_of l) = l.
Proof. induction l as [|c l IH]; simpl; [reflexivity | now rewrite IH]. Qed.

Lemma length_string_of (l : chars) :
  String.length (string_of l) = List.length l.
Proof. induction l as [|c l IH]; simpl; [reflexivity | now rewrite IH]. Qed.

Lemma forall_range_spec (depth : nat) (lo : Z) (f : Z -> bool) :
  forall_range depth lo f = true ->
  forall z, lo <= z < lo + 2 ^ Z.of_nat depth -> f z = true.
Proof.
  revert lo. induction depth as [|d IH]; intros lo H z Hz.
  - simpl in *. replace z with lo by lia. assumption.
  - simpl forall_range in H. apply andb_prop in H as [H1 H2].
    rewrite Nat2Z.inj_succ, Z.pow_succ_r in Hz by lia.
    destruct (Z_lt_ge_dec z (lo + 2 ^ Z.of_nat d)).
    + apply (IH lo); [assumption | lia].
    + apply (IH (lo + 2 ^ Z.of_nat d)); [assumption | lia].
Qed.

(** Every day from 1611 to 2328 round-trips; the days of int64
    nanoseconds lie within. *)
Lemma days_round_trip :
  forall_range 18 (-131072) day_round_trips = true.
Proof. vm_compute. reflexivity. Qed.

Lemma day_round_trips_in_bounds (z : Z) :
  -106752 <= z <= 106751 -> day_round_trips z = true.
Proof.
  intros H. apply (forall_range_spec 18 (-131072) _ days_round_trip).
  simpl. lia.
Qed.

Lemma digit_of_digit_char (d : Z) : digit_of (digit_char d) = Some (d mod 10).
Proof.
  unfold digit_char.
  assert (H : 0 <= d mod 10 < 10) by (apply Z.mod_pos_bound; lia).
  set (x := d mod 10) in *. clearbody x.
  assert (x = 0 \/ x = 1 \/ x = 2 \/ x = 3 \/ x = 4 \/ x = 5 \/ x = 6 \/
          x = 7 \/ x = 8 \/ x = 9) as Hx by lia.
  repeat (destruct Hx as [->|Hx]; [reflexivity|]). now subst x.
Qed.

Lemma two_digits_pad2 (n : Z) (rest : chars) :
  0 <= n <= 99 -> two_digits (pad2 n ++ rest) = Some (n, rest).
Proof.
  intros H. unfold pad2, two_digits. cbn [app].
  rewrite !digit_of_digit_char.
  do 2 f_equal.
  rewrite (Z.mod_small (n / 10)) by (split; [apply Z.div_pos | apply Z.div_lt_upper_bound]; lia).
  pose proof (Z.div_mod n 10 ltac:(lia)). lia.
Qed.

Lemma fixed_digits_pad4 (n : Z) (rest : chars) :
  0 <= n <= 9999 -> fixed_digits 4 0 (pad4 n ++ rest) = Some (n, rest).
Proof.
  intros H. unfold pad4. cbn [app fixed_digits].
  rewrite !digit_of_digit_char.
  do 2 f_equal.
  pose proof (Z.div_mod n 10 ltac:(lia)).
  pose proof (Z.div_mod (n / 10) 10 ltac:(lia)).
  pose proof (Z.div_mod (n / 100) 10 ltac:(lia)).
  pose proof (Z.mod_pos_bound n 10 ltac:(lia)).
  pose proof (Z.mod_pos_bound (n / 10) 10 ltac:(lia)).
  pose proof (Z.mod_pos_bound (n / 100) 10 ltac:(lia)).
  rewrite (Z.mod_small (n / 1000))
    by (split; [apply Z.div_pos | apply Z.div_lt_upper_bound]; lia).
  replace (n / 100) with (n / 10 / 10) in *
    by (rewrite Z.div_div by lia; reflexivity).
  replace (n / 1000) with (n / 10 / 10 / 10)
    by (rewrite !Z.div_div by lia; reflexivity).
  pose proof (Z.div_mod (n / 10 / 10) 10 ltac:(lia)).
  lia.
Qed.

(** Parsing the formatted fields gives the fields back. *)
Lemma strptime_format_fields (f : fields) :
  0 <= f_year f <= 9999 -> 0 <= f_month f <= 99 -> 0 <= f_day f <= 99 ->
  0 <= f_hour f <= 99 -> 0 <= f_minute f <= 99 -> 0 <= f_second f <= 99 ->
  strptime (format_fields f) = Some f.
Proof.
  intros Hy Hm Hd Hh Hmi Hs. destruct f as [y m d h mi s]. simpl in *.
  unfold strptime, format_fields. simpl f_year. simpl f_month. simpl f_day.
  simpl f_hour. simpl f_minute. simpl f_second.
  rewrite fixed_digits_pad4 by assumption. cbn [obind expect].
  rewrite Ascii.eqb_refl. cbn [obind].
  rewrite two_digits_pad2 by assumption. cbn [obind expect].
  rewrite Ascii.eqb_refl. cbn [obind].
  rewrite two_digits_pad2 by assumption. cbn [obind expect].
  rewrite Ascii.eqb_refl. cbn [obind].
  rewrite two_digits_pad2 by assumption. cbn [obind expect].
  rewrite Ascii.eqb_refl. cbn [obind].
  rewrite two_digits_pad2 by assumption. cbn [obind expect].
  rewrite Ascii.eqb_refl. cbn [obind].
  rewrite <- (app_nil_r (pad2 s)).
  rewrite two_digits_pad2 by assumption. reflexivity.
Qed.

Lemma fields_of_ns_spec (t : Z) :
  whole_second t ->
  valid_fields (fields_of_ns t) = true /\
  ns_of_fields (fields_of_ns t) = t /\
  1000 <= f_year (fields_of_ns t) <= 9999.
Proof.
  intros [Hmod Hb]. unfold in_bounds in Hb.
  apply andb_prop in Hb as [Hlo Hhi].
  apply Z.leb_le in Hlo, Hhi.
  unfold Timestamp_min, Timestamp_max in *.
  set (q := t / ns_per_second).
  assert (Ht : t = ns_per_second * q).
  { pose proof (Z.div_mod t ns_per_second ltac:(discriminate)). lia. }
  assert (Hq : -9223372036 <= q <= 9223372036).
  { unfold ns_per_second in *. simpl in Hlo, Hhi. lia. }
  clearbody q. subst t. clear Hmod Hlo Hhi.
  unfold fields_of_ns, ns_per_day.
  replace (86400 * ns_per_second) with (ns_per_second * 86400) by ring.
  rewrite Z.div_mul_cancel_l by discriminate.
  rewrite Z.mul_mod_distr_l by discriminate.
  rewrite (Z.mul_comm ns_per_second (q mod 86400)).
  rewrite Z.div_mul by discriminate.
  pose proof (Z.div_mod q 86400 ltac:(discriminate)) as Hdm.
  pose proof (Z.mod_pos_bound q 86400 ltac:(reflexivity)) as Hsec.
  set (days := q / 86400) in *. set (secs := q mod 86400) in *.
  assert (Hdays : -106752 <= days <= 106751) by lia.
  pose proof (day_round_trips_in_bounds days Hdays) as Hrt.
  unfold day_round_trips in Hrt.
  destruct (civil_from_days days) as [[y m] d].
  repeat (apply andb_prop in Hrt as [Hrt ?]).
  apply Z.eqb_eq in Hrt.
  repeat match goal with H : (_ <=? _) = true |- _ => apply Z.leb_le in H end.
  pose proof (Z.div_mod secs 3600 ltac:(discriminate)) as Hh.
  pose proof (Z.mod_pos_bound secs 3600 ltac:(reflexivity)) as Hh'.
  pose proof (Z.div_mod (secs mod 3600) 60 ltac:(discriminate)) as Hm.
  pose proof (Z.mod_pos_bound (secs mod 3600) 60 ltac:(reflexivity)) as Hm'.
  assert (Hs60 : secs mod 60 = (secs mod 3600) mod 60).
  { rewrite Hh at 1.
    replace (3600 * (secs / 3600) + secs mod 3600)
      with (secs mod 3600 + (secs / 3600 * 60) * 60) by ring.
    apply Z.mod_add. discriminate. }
  unfold valid_fields, ns_of_fields.
  cbn [f_year f_month f_day f_hour f_minute f_second].
  rewrite Hrt, Hs60.
  set (h := secs / 3600) in *. set (r := secs mod 3600) in *.
  set (mi := r / 60) in *. set (s := r mod 60) in *.
  split; [|split; [|lia]].
  - repeat (apply andb_true_intro; split); apply Z.leb_le; lia.
  - lia.
Qed.

Lemma format_fields_length (f : fields) : List.length (format_fields f) = 19%nat.
Proof. reflexivity. Qed.

Lemma not_nat_string (s : string) :
  String.length s = 19%nat -> existsb (String.eqb s) nat_strings = false.
Proof.
  intros H. destruct (existsb (String.eqb s) nat_strings) eqn:E;
    [|reflexivity].
  apply existsb_exists in E as (x & Hx & Heq).
  apply String.eqb_eq in Heq. subst x. exfalso.
  simpl in Hx.
  repeat (destruct Hx as [Hx|Hx]; [rewrite <- Hx in H; discriminate|]).
  assumption.
Qed.

(** A timestamp is read back from its text. *)
Lemma to_datetime_strftime (t : Z) :
  whole_second t -> to_datetime (Str (strftime t)) = Ok (Some t).
Proof.
  intros Hw. pose proof Hw as [_ Hb].
  destruct (fields_of_ns_spec t Hw) as (Hv & Hns & Hy).
  assert (Hlen : String.length (strftime t) = 19%nat).
  { unfold strftime. now rewrite length_string_of, format_fields_length. }
  unfold to_datetime. rewrite Hlen, (not_nat_string _ Hlen). cbn [Nat.eqb orb].
  unfold strftime. rewrite chars_of_string_of.
  pose proof Hv as Hv'. unfold valid_fields in Hv'.
  repeat (apply andb_prop in Hv' as [Hv' ?]).
  repeat match goal with H : (_ <=? _) = true |- _ => apply Z.leb_le in H end.
  assert (Hdim : days_in_month (f_year (fields_of_ns t))
                   (f_month (fields_of_ns t)) <= 31).
  { unfold days_in_month.
    repeat match goal with |- context [if ?c then _ else _] => destruct c end;
      lia. }
  assert (Hnn : 0 <= f_hour (fields_of_ns t) /\ 0 <= f_minute (fields_of_ns t)
                /\ 0 <= f_second (fields_of_ns t)).
  { unfold fields_of_ns.
    destruct (civil_from_days (t / ns_per_day)) as [[y m] d].
    cbn [f_hour f_minute f_second].
    pose proof (Z.mod_pos_bound t ns_per_day ltac:(reflexivity)).
    assert (0 <= t mod ns_per_day / ns_per_second)
      by (apply Z.div_pos; [lia | reflexivity]).
    repeat split.
    - apply Z.div_pos; [assumption | reflexivity].
    - apply Z.div_pos; [|reflexivity].
      apply Z.mod_pos_bound. reflexivity.
    - apply Z.mod_pos_bound. reflexivity. }
  rewrite strptime_format_fields by lia.
  now rewrite Hv, Hns, Hb.
Qed.

(** ** Running the pipeline on its own output *)

Lemma pad_all_known (val : option float64) (col : list (option float64)) :
  Forall (fun v => isna v = false) col -> pad val col = col.
Proof.
  intros H. revert val. induction H as [|v col Hv _ IH]; intros val; simpl;
    [reflexivity|].
  now rewrite Hv, IH.
Qed.

Lemma float_of_object_missing (val : option float64) :
  isna val = true -> float_of_object val = NaN.
Proof. destruct val as [[]|]; simpl; congruence. Qed.

(** A filled column is a run of NaN followed by known balances. *)
Lemma pad_shape (val : option float64) (col : list (option float64)) :
  isna val = true ->
  exists k B, map float_of_object (pad val col) = repeat NaN k ++ B /\
              Forall (fun x => is_nan x = false) B.
Proof.
  intros Hval. induction col as [|v col (k & B & E & HB)]; simpl.
  - exists O, []. split; [reflexivity | constructor].
  - destruct (isna v) eqn:Ev.
    + exists (S k), B. simpl. rewrite E.
      now rewrite (float_of_object_missing _ Hval).
    + exists O, (float_of_object v :: map float_of_object (pad v col)).
      split; [reflexivity|].
      constructor; [now rewrite isna_float_of_object|].
      rewrite Forall_map.
      eapply Forall_impl; [|apply pad_known; exact Ev].
      intros x Hx. now rewrite isna_float_of_object.
Qed.

Lemma ffill_shape (col : list (option float64)) :
  exists k B, ffill col = repeat NaN k ++ B /\
              Forall (fun x => is_nan x = false) B.
Proof.
  unfold ffill. destruct col as [|v col].
  - exists O, []. split; [reflexivity | constructor].
  - destruct (isna v) eqn:Ev; [now apply pad_shape|].
    exists O, (map float_of_object (pad v (v :: col))).
    split; [reflexivity|].
    rewrite Forall_map.
    eapply Forall_impl; [|apply pad_known; exact Ev].
    intros x Hx. now rewrite isna_float_of_object.
Qed.

Lemma map_float_of_object_Some (B : list float64) :
  map float_of_object (map Some B) = B.
Proof. rewrite map_map. apply map_id. Qed.

Lemma pad_run_then_known (val : option float64) (k : nat) (B : list float64) :
  float_of_object val = NaN -> isna val = true ->
  Forall (fun x => is_nan x = false) B ->
  map float_of_object (pad val (map Some (repeat NaN k ++ B))) =
  repeat NaN k ++ B.
Proof.
  intros Hval Hna HB. induction k as [|k IH]; simpl.
  - rewrite pad_all_known; [apply map_float_of_object_Some|].
    rewrite Forall_map. exact HB.
  - now rewrite Hval, IH.
Qed.

(** Filling a filled column changes nothing. *)
Lemma ffill_idempotent (col : list (option float64)) :
  ffill (map Some (ffill col)) = ffill col.
Proof.
  destruct (ffill_shape col) as (k & B & -> & HB).
  unfold ffill. destruct k as [|k].
  - simpl. destruct B as [|x B]; [reflexivity|].
    cbn [map]. rewrite pad_all_known; [apply (map_float_of_object_Some (x :: B))|].
    change (Some x :: map Some B) with (map Some (x :: B)).
    rewrite Forall_map. exact HB.
  - change (map Some (repeat NaN (S k) ++ B))
      with (Some NaN :: map Some (repeat NaN k ++ B)).
    cbv iota.
    change (Some NaN :: map Some (repeat NaN k ++ B))
      with (map Some (repeat NaN (S k) ++ B)).
    now apply pad_run_then_known.
Qed.

Lemma combine_fst_snd_id {A B : Type} (l : list (A * B)) :
  combine (map fst l) (map snd l) = l.
Proof.
  induction l as [|[a b] l IH]; simpl; [reflexivity | now rewrite IH].
Qed.

Lemma map_snd_sort_and_fill (W : list (Timestamp * option float64)) :
  map snd (sort_and_fill W) = ffill (map snd (sort_values fst W)).
Proof.
  unfold sort_and_fill. apply map_snd_combine.
  now rewrite ffill_length, !length_map.
Qed.

Lemma NoDup_map_Some {A : Type} (l : list A) : NoDup l -> NoDup (map Some l).
Proof.
  induction 1 as [|x l Hx _ IH]; simpl; constructor; [|assumption].
  rewrite in_map_iff. intros (y & [= ->] & Hy). contradiction.
Qed.

(** The cleaned rows of an output table are the table. *)
Lemma clean_observed_again (res : list (Timestamp * float64)) :
  increasing (map fst res) -> clean (observed_again res) = res.
Proof.
  intros Hinc. unfold clean, observed_again.
  rewrite (drop_duplicates_id option_eqb fst option_eqb_eq).
  - rewrite dropna_id. apply sort_values_sorted_id.
    now apply increasing_nondecreasing.
  - rewrite map_map. simpl.
    rewrite <- (map_map fst Some).
    apply NoDup_map_Some. now apply increasing_NoDup.
Qed.

(** The filled table of a filled table is the same table. *)
Lemma fill_gaps_fixed (df res : list (Timestamp * float64)) :
  NoDup (map fst df) -> fill_gaps df = Ok res -> fill_gaps res = Ok res.
Proof.
  intros Hn Hf.
  destruct (fill_gaps_spec _ _ Hn Hf) as (mn & mx & Hmn & Hmx & -> & HnW).
  set (grid := generate_regular_range mn mx freq_15T) in *.
  set (W := with_placeholders df grid) in *.
  pose proof (sort_and_fill_increasing W HnW) as Hinc.
  apply series_min_spec in Hmn as [Hmn1 Hmn2].
  apply series_max_spec in Hmx as [Hmx1 Hmx2].
  assert (Hkeys : forall t, In t (map fst (sort_and_fill W)) <->
                            In t grid \/ In t (map fst df)).
  { intros t. rewrite In_fst_sort_and_fill. unfold W.
    rewrite map_fst_with_placeholders, in_app_iff, In_difference.
    destruct (in_dec Z.eq_dec t (map fst df)); tauto. }
  assert (Hgrid : forall t, In t grid -> mn <= t <= mx).
  { intros t Ht. apply In_generate_regular_range in Ht as (k & Hk & -> & Hle);
      [|apply freq_15T_pos].
    pose proof freq_15T_pos. split; [nia | assumption]. }
  assert (Hmn' : series_min (map fst (sort_and_fill W)) = Some mn).
  { apply series_min_spec. split; [apply Hkeys; now right|].
    intros t Ht. apply Hkeys in Ht as [Ht|Ht]; [now apply Hgrid | auto]. }
  assert (Hmx' : series_max (map fst (sort_and_fill W)) = Some mx).
  { apply series_max_spec. split; [apply Hkeys; now right|].
    intros t Ht. apply Hkeys in Ht as [Ht|Ht]; [now apply Hgrid | auto]. }
  unfold fill_gaps, date_range. rewrite Hmn', Hmx'. simpl. f_equal.
  fold grid.
  assert (HW' : with_placeholders (sort_and_fill W) grid =
                map (fun r => (fst r, Some (snd r))) (sort_and_fill W)).
  { unfold with_placeholders.
    rewrite difference_nil by (intros t Ht; apply Hkeys; now left).
    apply app_nil_r. }
  rewrite HW'.
  assert (Hsf : sort_and_fill
                  (map (fun r => (fst r, Some (snd r))) (sort_and_fill W)) =
                sort_and_fill W).
  { unfold sort_and_fill at 1.
    rewrite sort_values_sorted_id.
    - rewrite !map_map. simpl.
      rewrite <- (map_map snd Some).
      rewrite map_snd_sort_and_fill, ffill_idempotent.
      rewrite <- map_snd_sort_and_fill.
      apply combine_fst_snd_id.
    - rewrite map_map. simpl. now apply increasing_nondecreasing. }
  rewrite Hsf.
  apply (drop_duplicates_id Z.eqb fst Z.eqb_eq).
  now apply increasing_NoDup.
Qed.

(** ** The timestamps of a run are whole seconds within int64 *)

Lemma to_datetime_whole_second (c : cell) (t : Z) :
  to_datetime c = Ok (Some t) -> whole_second t.
Proof.
  destruct c as [|s|x]; unfold to_datetime.
  - discriminate.
  - destruct ((String.length s =? 0)%nat || existsb (String.eqb s) nat_strings);
      [discriminate|].
    destruct (strptime (chars_of s)) as [f|]; [|discriminate].
    destruct (valid_fields f); [|discriminate].
    destruct (in_bounds (ns_of_fields f)) eqn:E; [|discriminate].
    intros [= <-]. split; [|assumption].
    unfold ns_of_fields. apply Z.mod_mul. discriminate.
  - destruct x; discriminate.
Qed.

Lemma convert_whole_second (cells : list (cell * cell))
  (raw : list (option Timestamp * float64)) :
  convert cells = Ok raw ->
  forall t, In (Some t) (map fst raw) -> whole_second t.
Proof.
  revert raw. induction cells as [|c cells IH]; intros raw H t Ht.
  - injection H as <-. contradiction.
  - apply convert_cons in H as (d & b & raw' & Hd & _ & Hc & ->).
    simpl in Ht. destruct Ht as [->|Ht]; [|eauto].
    eapply to_datetime_whole_second; eassumption.
Qed.

Lemma load_whole_second (fs : filesystem) (file_path : string)
  (raw : list (option Timestamp * float64)) :
  load fs file_path = Ok raw ->
  forall t, In (Some t) (map fst raw) -> whole_second t.
Proof.
  unfold load. intros H.
  apply bind_Ok in H as (df & _ & H).
  apply bind_Ok in H as (cells & _ & H).
  now apply convert_whole_second with cells.
Qed.

Lemma grid_whole_second (mn mx t : Z) :
  whole_second mn -> whole_second mx ->
  In t (generate_regular_range mn mx freq_15T) -> whole_second t.
Proof.
  intros [Hm1 Hb1] [Hm2 Hb2] Ht.
  apply In_generate_regular_range in Ht as (k & Hk & -> & Hle);
    [|apply freq_15T_pos].
  split.
  - replace (mn + k * freq_15T) with (mn + (k * 900) * ns_per_second)
      by (unfold freq_15T; ring).
    rewrite Z.mod_add by discriminate. assumption.
  - unfold in_bounds in *.
    apply andb_prop in Hb1 as [Hlo _]. apply andb_prop in Hb2 as [_ Hhi].
    apply Z.leb_le in Hlo, Hhi. pose proof freq_15T_pos.
    apply andb_true_intro. split; apply Z.leb_le; nia.
Qed.

Lemma fill_gaps_whole_second (df res : list (Timestamp * float64)) :
  NoDup (map fst df) -> fill_gaps df = Ok res ->
  (forall t, In t (map fst df) -> whole_second t) ->
  forall t, In t (map fst res) -> whole_second t.
Proof.
  intros Hn Hf Hdf t Ht.
  destruct (fill_gaps_spec _ _ Hn Hf) as (mn & mx & Hmn & Hmx & -> & _).
  apply series_min_spec in Hmn as [Hmn _].
  apply series_max_spec in Hmx as [Hmx _].
  apply In_fst_sort_and_fill in Ht.
  rewrite map_fst_with_placeholders, in_app_iff, In_difference in Ht.
  destruct Ht as [Ht|[Ht _]]; [auto|].
  apply (grid_whole_second mn mx); auto.
Qed.

(** ** The output table read back *)

Lemma clean_balance_cell_of_float (b : float64) :
  clean_balance (cell_of_float b) = Ok b.
Proof. destruct b; reflexivity. Qed.

Lemma convert_cells_of (res : list (Timestamp * float64)) :
  (forall t, In t (map fst res) -> whole_second t) ->
  convert (cells_of res) = Ok (observed_again res).
Proof.
  induction res as [|[t b] res IH]; intros H; [reflexivity|].
  unfold cells_of, observed_again. cbn [map fst snd].
  apply convert_cons. exists (Some t), b, (observed_again res).
  cbn [fst snd]. repeat split.
  - apply to_datetime_strftime. apply H. now left.
  - apply clean_balance_cell_of_float.
  - apply IH. intros t' Ht'. apply H. now right.
Qed.

Lemma getitem2_renamed_back (res : list (Timestamp * float64)) :
  getitem2 (renamed_back (render res)) col_time col_balance =
  Ok (cells_of res).
Proof.
  unfold getitem2, renamed_back, render, cells_of. simpl. f_equal.
  rewrite map_map. reflexivity.
Qed.

Lemma getitem2_render (res : list (Timestamp * float64)) :
  getitem2 (render res) col_time col_balance = Raise (KeyError col_time).
Proof. reflexivity. Qed.

(** C4, as the specification states it, fails: the file that was written
    has the headers [DateTime] and [Balance], and [process_csv] asks for
    時間 and 残高. *)
Lemma rerun_on_own_output_fails :
  snd (process_csv (one_file gap_input) "in.csv") = Some gap_output /\
  get_output_path "in.csv" = "in_BD.csv"%string /\
  fst (process_csv (one_file gap_input) "in.csv") "in_BD.csv"%string =
    Some gap_output /\
  snd (process_csv (fst (process_csv (one_file gap_input) "in.csv"))
         "in_BD.csv") = None /\
  snd (process_csv (fst (process_csv (one_file gap_input) "in.csv"))
         "in_BD.csv") <> Some gap_output.
Proof.
  split; [vm_compute; reflexivity|].
  split; [vm_compute; reflexivity|].
  split; [vm_compute; reflexivity|].
  assert (H : snd (process_csv (fst (process_csv (one_file gap_input) "in.csv"))
                     "in_BD.csv") = None) by (vm_compute; reflexivity).
  split; [exact H|]. rewrite H. discriminate.
Qed.

(** C4, amended. After a successful run the written file holds the
    returned table; [process_csv] on that file returns [None] and leaves
    the files as they are, because its headers are not those of the
    input; on the same table under the input's headers it returns a
    table identical to the first output. *)
Theorem rerun_needs_the_input_headers (fs fs' : filesystem)
  (file_path : string) (out : DataFrame) :
  process_csv fs file_path = (fs', Some out) ->
  fs' (get_output_path file_path) = Some out /\
  process_csv fs' (get_output_path file_path) = (fs', None) /\
  forall fs2 file_path2,
    fs2 file_path2 = Some (renamed_back out) ->
    snd (process_csv fs2 file_path2) = Some out.
Proof.
  intros H.
  apply process_csv_Some in H as (raw & res & Hl & Hc & Hf & Hg & -> & ->).
  assert (Hw :
    to_csv fs (get_output_path file_path) (render res)
      (get_output_path file_path) = Some (render res)).
  { unfold to_csv. now rewrite String.eqb_refl. }
  split; [exact Hw|]. split.
  - unfold process_csv, process_body, read_csv. rewrite Hw. cbn [bind].
    now rewrite getitem2_render.
  - intros fs2 file_path2 Hf2.
    pose proof (clean_NoDup raw) as Hn.
    assert (Hws : forall t, In t (map fst res) -> whole_second t).
    { apply (fill_gaps_whole_second (clean raw)); auto.
      intros t Ht. apply In_fst_clean in Ht.
      now apply (load_whole_second fs file_path raw). }
    assert (Hinc : increasing (map fst res)).
    { destruct (fill_gaps_spec _ _ Hn Hf) as (mn & mx & _ & _ & -> & HnW).
      now apply sort_and_fill_increasing. }
    rewrite process_csv_stages. unfold gap_filled, cleaned.
    rewrite (load_Some _ _ _ _ Hf2 (getitem2_renamed_back res)).
    rewrite (convert_cells_of res Hws). simpl.
    rewrite (clean_observed_again res Hinc).
    now rewrite (fill_gaps_fixed _ _ Hn Hf).
Qed.

Lemma rerun_needs_the_input_headers_witness :
  process_csv (one_file gap_input) "in.csv" =
    (to_csv (one_file gap_input) "in_BD.csv" gap_output, Some gap_output) /\
  to_csv (one_file gap_input) "in_BD.csv" gap_output
    (get_output_path "in.csv") = Some gap_output /\
  process_csv (to_csv (one_file gap_input) "in_BD.csv" gap_output)
    (get_output_path "in.csv") =
    (to_csv (one_file gap_input) "in_BD.csv" gap_output, None) /\
  forall fs2 file_path2,
    fs2 file_path2 = Some (renamed_back gap_output) ->
    snd (process_csv fs2 file_path2) = Some gap_output.
Proof.
  assert (H : process_csv (one_file gap_input) "in.csv" =
    (to_csv (one_file gap_input) "in_BD.csv" gap_output, Some gap_output)).
  { rewrite process_csv_stages. reflexivity. }
  split; [exact H|].
  exact (rerun_needs_the_input_headers _ _ _ _ H).
Defined.

(** * Further properties *)

(** X1. Line 133 and line 92 are inverse to each other on the timestamps
    of a run: the text [strftime] writes for a timestamp of whole seconds
    within int64 is read back by [to_datetime] as that timestamp. *)
Theorem strftime_then_to_datetime (t : Z) :
  whole_second t -> to_datetime (Str (strftime t)) = Ok (Some t).
Proof. apply to_datetime_strftime. Qed.

Lemma strftime_then_to_datetime_witness :
  whole_second (t_2024 + minutes 15) /\
  to_datetime (Str (strftime (t_2024 + minutes 15))) =
    Ok (Some (t_2024 + minutes 15)).
Proof.
  assert (H : whole_second (t_2024 + minutes 15)) by (split; reflexivity).
  split; [exact H|]. exact (strftime_then_to_datetime _ H).
Defined.

(** X2. Lines 95 to 130 are idempotent on records: the cleaned Series of
    a filled table is that table, and filling it again returns it. *)
Theorem gap_filling_is_idempotent (raw : list (option Timestamp * float64))
  (res : list (Timestamp * float64)) :
  fill_gaps (clean raw) = Ok res ->
  clean (observed_again res) = res /\ fill_gaps res = Ok res.
Proof.
  intros Hf. pose proof (clean_NoDup raw) as Hn. split.
  - apply clean_observed_again.
    destruct (fill_gaps_spec _ _ Hn Hf) as (mn & mx & _ & _ & -> & HnW).
    now apply sort_and_fill_increasing.
  - exact (fill_gaps_fixed _ _ Hn Hf).
Qed.

Lemma gap_filling_is_idempotent_witness :
  fill_gaps (clean [(Some t_2024, float_of_Z 1000);
                    (Some (t_2024 + minutes 45), float_of_Z 2000)]) =
    Ok [(t_2024, float_of_Z 1000); (t_2024 + minutes 15, float_of_Z 1000);
        (t_2024 + minutes 30, float_of_Z 1000);
        (t_2024 + minutes 45, float_of_Z 2000)] /\
  clean (observed_again
           [(t_2024, float_of_Z 1000); (t_2024 + minutes 15, float_of_Z 1000);
            (t_2024 + minutes 30, float_of_Z 1000);
            (t_2024 + minutes 45, float_of_Z 2000)]) =
    [(t_2024, float_of_Z 1000); (t_2024 + minutes 15, float_of_Z 1000);
     (t_2024 + minutes 30, float_of_Z 1000);
     (t_2024 + minutes 45, float_of_Z 2000)] /\
  fill_gaps [(t_2024, float_of_Z 1000); (t_2024 + minutes 15, float_of_Z 1000);
             (t_2024 + minutes 30, float_of_Z 1000);
             (t_2024 + minutes 45, float_of_Z 2000)] =
    Ok [(t_2024, float_of_Z 1000); (t_2024 + minutes 15, float_of_Z 1000);
        (t_2024 + minutes 30, float_of_Z 1000);
        (t_2024 + minutes 45, float_of_Z 2000)].
Proof.
  assert (H : fill_gaps (clean [(Some t_2024, float_of_Z 1000);
                    (Some (t_2024 + minutes 45), float_of_Z 2000)]) =
    Ok [(t_2024, float_of_Z 1000); (t_2024 + minutes 15, float_of_Z 1000);
        (t_2024 + minutes 30, float_of_Z 1000);
        (t_2024 + minutes 45, float_of_Z 2000)]) by reflexivity.
  split; [exact H|]. exact (gap_filling_is_idempotent _ _ H).
Defined.


(** ** The output path *)

Lemma split_last_app (c : ascii) (s a b : chars) :
  split_last c s = (a, b) -> a ++ b = s.
Proof.
  revert a b. induction s as [|x s IH]; simpl; intros a b.
  - now intros [= <- <-].
  - destruct (split_last c s) as [before after].
    destruct (Ascii.eqb x c && negb (existsb (Ascii.eqb c) s)).
    + now intros [= <- <-].
    + destruct (existsb (Ascii.eqb c) s).
      * intros [= <- <-]. simpl. f_equal. now apply IH.
      * now intros [= <- <-].
Qed.

Lemma existsb_ascii (c : ascii) (s : chars) :
  existsb (Ascii.eqb c) s = true <-> In c s.
Proof. apply (existsb_eqb Ascii.eqb), Ascii.eqb_eq. Qed.

Lemma existsb_ascii_false (c : ascii) (s : chars) :
  existsb (Ascii.eqb c) s = false <-> ~ In c s.
Proof. apply (existsb_eqb_false Ascii.eqb), Ascii.eqb_eq. Qed.

(** Without the separator there is nothing before it. *)
Lemma split_last_none (c : ascii) (s : chars) :
  ~ In c s -> split_last c s = ([], s).
Proof.
  destruct s as [|x s]; [reflexivity|]. intros H. simpl.
  destruct (split_last c s) as [before after].
  assert (Hs : existsb (Ascii.eqb c) s = false).
  { apply existsb_ascii_false. intros Hin. apply H. now right. }
  rewrite Hs.
  destruct (Ascii.eqb_spec x c) as [->|_]; [|reflexivity].
  elim H. now left.
Qed.

(** The split is at the last separator. *)
Lemma split_last_at (c : ascii) (a b : chars) :
  ~ In c b -> split_last c (a ++ c :: b) = (a ++ [c], b).
Proof.
  intros Hb. induction a as [|x a IH]; simpl.
  - rewrite (split_last_none c b Hb), Ascii.eqb_refl.
    apply existsb_ascii_false in Hb. now rewrite Hb.
  - rewrite IH.
    assert (Hs : existsb (Ascii.eqb c) (a ++ c :: b) = true).
    { apply existsb_ascii. apply in_or_app. right. now left. }
    rewrite Hs, andb_false_r. reflexivity.
Qed.

Lemma last_occurrence (c : ascii) (s : chars) :
  In c s -> exists a b, s = a ++ c :: b /\ ~ In c b.
Proof.
  induction s as [|x s IH]; [contradiction|].
  intros Hin. destruct (in_dec ascii_dec c s) as [Hs|Hs].
  - destruct (IH Hs) as (a & b & -> & Hb). now exists (x :: a), b.
  - destruct Hin as [->|Hin]; [|contradiction]. now exists [], s.
Qed.

(** What stands before the split ends with the separator. *)
Lemma split_last_before (c : ascii) (s a b : chars) :
  split_last c s = (a, b) -> a = [] \/ a = removelast a ++ [c].
Proof.
  intros H. destruct (in_dec ascii_dec c s) as [Hs|Hs].
  - destruct (last_occurrence c s Hs) as (a' & b' & -> & Hb).
    rewrite (split_last_at c a' b' Hb) in H. injection H as <- <-.
    right. now rewrite removelast_last.
  - rewrite (split_last_none c s Hs) in H. injection H as <- <-. now left.
Qed.

Lemma length_chars_of (s : string) :
  List.length (chars_of s) = String.length s.
Proof. induction s as [|c s IH]; simpl; [reflexivity | now rewrite IH]. Qed.

(** The output path is three characters longer than the input path. *)
Lemma get_output_path_length (input_path : string) :
  String.length (get_output_path input_path) =
  (String.length input_path + 3)%nat.
Proof.
  unfold get_output_path.
  destruct (split_last "/" (chars_of input_path)) as [parent name] eqn:E1.
  destruct (split_last "." name) as [stem_dot ext] eqn:E2.
  apply split_last_app in E1. pose proof (split_last_app _ _ _ _ E2) as E3.
  rewrite <- (length_chars_of input_path), <- E1, <- E3.
  destruct (removelast stem_dot) as [|x stem] eqn:Es.
  - rewrite length_string_of, !length_app. simpl. lia.
  - destruct ext as [|y ext].
    + rewrite length_string_of, !length_app. simpl. lia.
    + destruct (split_last_before _ _ _ _ E2) as [->|Hsd]; [discriminate|].
      rewrite Hsd, Es.
      rewrite length_string_of, !length_app. simpl.
      rewrite ?length_app. simpl. lia.
Qed.

Lemma get_output_path_differs (input_path : string) :
  get_output_path input_path <> input_path.
Proof.
  intros H. pose proof (get_output_path_length input_path) as Hl.
  rewrite H in Hl. lia.
Qed.

(** X3. For a path in pathlib's normal form, made of a directory part
    (empty, or ending with a slash) and a file name with a stem and an
    extension, the output path is the same directory and the same
    extension with [_BD] appended to the stem; a name without a dot gets
    [_BD] at its end. *)
Theorem get_output_path_inserts_BD (dir : chars) :
  (dir = [] \/ exists d, dir = d ++ ["/"%char]) ->
  (forall stem ext,
      pathlib_normal (dir ++ stem ++ "."%char :: ext) = true ->
      stem <> [] -> ext <> [] ->
      ~ In "/"%char stem -> ~ In "/"%char ext -> ~ In "."%char ext ->
      get_output_path (string_of (dir ++ stem ++ "."%char :: ext)) =
      string_of (dir ++ stem ++ chars_of "_BD" ++ "."%char :: ext)) /\
  (forall name,
      pathlib_normal (dir ++ name) = true ->
      ~ In "/"%char name -> ~ In "."%char name ->
      get_output_path (string_of (dir ++ name)) =
      string_of (dir ++ name ++ chars_of "_BD")).
Proof.
  intros Hdir.
  assert (Hsplit : forall name, ~ In "/"%char name ->
            split_last "/" (dir ++ name) = (dir, name)).
  { intros name Hn. destruct Hdir as [->|(d & ->)].
    - now apply split_last_none.
    - rewrite <- app_assoc. now apply split_last_at. }
  split.
  - intros stem ext _ Hs He Hs1 He1 He2. unfold get_output_path.
    rewrite chars_of_string_of, Hsplit.
    + rewrite (split_last_at "." stem ext He2), removelast_last.
      destruct stem; [congruence|]. destruct ext; [congruence|]. reflexivity.
    + intros Hin. apply in_app_or in Hin as [Hin|[Hin|Hin]];
        [contradiction | discriminate | contradiction].
  - intros name _ Hn1 Hn2. unfold get_output_path.
    rewrite chars_of_string_of, (Hsplit name Hn1).
    rewrite (split_last_none "." name Hn2). reflexivity.
Qed.

Lemma get_output_path_inserts_BD_witness :
  get_output_path "logs/2024/input.csv" = "logs/2024/input_BD.csv"%string.
Proof.
  refine (proj1 (get_output_path_inserts_BD (chars_of "logs/2024/") _)
            (chars_of "input") (chars_of "csv") _ _ _ _ _ _).
  - right. exists (chars_of "logs/2024"). reflexivity.
  - reflexivity.
  - discriminate.
  - discriminate.
  - simpl. intros H. repeat (destruct H as [H|H]; [discriminate|]). exact H.
  - simpl. intros H. repeat (destruct H as [H|H]; [discriminate|]). exact H.
  - simpl. intros H. repeat (destruct H as [H|H]; [discriminate|]). exact H.
Defined.

(** X4. A successful run on a path in pathlib's normal form writes one
    file, the output path, which is never the input path: the input file
    and every other file stay as they were, and the file written holds
    the table that is returned. *)
Theorem process_csv_writes_only_the_output (fs fs' : filesystem)
  (file_path : string) (out : DataFrame) :
  pathlib_normal (chars_of file_path) = true ->
  process_csv fs file_path = (fs', Some out) ->
  get_output_path file_path <> file_path /\
  fs' file_path = fs file_path /\
  fs' (get_output_path file_path) = Some out /\
  forall q, q <> get_output_path file_path -> fs' q = fs q.
Proof.
  intros _ H.
  apply process_csv_Some in H as (raw & res & _ & _ & _ & _ & -> & ->).
  assert (Hother : forall q, q <> get_output_path file_path ->
            to_csv fs (get_output_path file_path) (render res) q = fs q).
  { intros q Hq. unfold to_csv.
    destruct (String.eqb_spec q (get_output_path file_path));
      [contradiction | reflexivity]. }
  split; [apply get_output_path_differs|].
  split; [apply Hother; intros E; symmetry in E;
          now apply get_output_path_differs in E|].
  split; [|exact Hother].
  unfold to_csv. now rewrite String.eqb_refl.
Qed.

Lemma process_csv_writes_only_the_output_witness :
  pathlib_normal (chars_of "in.csv") = true /\
  process_csv (one_file gap_input) "in.csv" =
    (to_csv (one_file gap_input) "in_BD.csv" gap_output, Some gap_output) /\
  get_output_path "in.csv" <> "in.csv"%string /\
  to_csv (one_file gap_input) "in_BD.csv" gap_output "in.csv"%string =
    one_file gap_input "in.csv"%string /\
  to_csv (one_file gap_input) "in_BD.csv" gap_output
    (get_output_path "in.csv") = Some gap_output /\
  forall q, q <> get_output_path "in.csv" ->
    to_csv (one_file gap_input) "in_BD.csv" gap_output q =
    one_file gap_input q.
Proof.
  assert (H : process_csv (one_file gap_input) "in.csv" =
    (to_csv (one_file gap_input) "in_BD.csv" gap_output, Some gap_output)).
  { rewrite process_csv_stages. reflexivity. }
  split; [reflexivity|]. split; [exact H|].
  exact (process_csv_writes_only_the_output
           (one_file gap_input)
           (to_csv (one_file gap_input) "in_BD.csv" gap_output)
           "in.csv"%string gap_output eq_refl H).
Defined.

(** ** Summary rows *)

Lemma starts_with_spec (p s : chars) :
  starts_with p s = true <-> exists b, s = p ++ b.
Proof.
  revert s. induction p as [|c p IH]; intros s; simpl.
  - split; [eauto | reflexivity].
  - destruct s as [|x s].
    + split; [discriminate|]. intros (b & H). discriminate.
    + rewrite andb_true_iff, Ascii.eqb_eq, IH. split.
      * intros (-> & b & ->). eauto.
      * intros (b & [= -> ->]). eauto.
Qed.

(** [p in s]: [p] stands somewhere in [s]. *)
Lemma contains_spec (p s : chars) :
  contains p s = true <-> exists a b, s = a ++ p ++ b.
Proof.
  induction s as [|x s IH]; simpl.
  - rewrite orb_false_r, starts_with_spec. split.
    + intros (b & H). exists [], b. exact H.
    + intros (a & b & H). destruct a; [eauto|discriminate].
  - rewrite orb_true_iff, starts_with_spec, IH. split.
    + intros [(b & H)|(a & b & ->)].
      * exists [], b. exact H.
      * exists (x :: a), b. reflexivity.
    + intros (a & b & H). destruct a as [|y a].
      * left. eauto.
      * right. injection H as -> ->. eauto.
Qed.

Lemma fixed_digits_chars (n : nat) (acc v : Z) (s r : chars) :
  fixed_digits n acc s = Some (v, r) ->
  exists pre, s = pre ++ r /\ Forall (fun c => format_char c = true) pre.
Proof.
  revert acc s. induction n as [|n IH]; intros acc s; simpl.
  - intros [= _ ->]. exists []. split; [reflexivity | constructor].
  - destruct s as [|c s]; [discriminate|].
    destruct (digit_of c) as [d|] eqn:E; [|discriminate].
    intros H. apply IH in H as (pre & -> & Hpre).
    exists (c :: pre). split; [reflexivity|].
    constructor; [|assumption]. unfold format_char. now rewrite E.
Qed.

Lemma two_digits_chars (v : Z) (s r : chars) :
  two_digits s = Some (v, r) ->
  exists pre, s = pre ++ r /\ Forall (fun c => format_char c = true) pre.
Proof.
  unfold two_digits. destruct s as [|c s]; [discriminate|].
  destruct (digit_of c) as [d|] eqn:E; [|discriminate].
  assert (Hc : format_char c = true) by (unfold format_char; now rewrite E).
  destruct s as [|c2 s].
  - intros [= _ <-]. exists [c]. split; [reflexivity | now constructor].
  - destruct (digit_of c2) as [d2|] eqn:E2.
    + intros [= _ <-]. exists [c; c2]. split; [reflexivity|].
      repeat constructor; [assumption|]. unfold format_char. now rewrite E2.
    + intros [= _ <-]. exists [c]. split; [reflexivity | now constructor].
Qed.

Lemma expect_chars (c : ascii) (s r : chars) :
  expect c s = Some r -> s = c :: r.
Proof.
  unfold expect. destruct s as [|x s]; [discriminate|].
  destruct (Ascii.eqb_spec c x) as [->|]; [|discriminate].
  now intros [= ->].
Qed.

(** A text of the format holds digits, dots, a space and colons only. *)
Lemma strptime_chars (s : chars) (f : fields) :
  strptime s = Some f -> Forall (fun c => format_char c = true) s.
Proof.
  unfold strptime. intros H.
  destruct (fixed_digits 4 0 s) as [[y s1]|] eqn:E1; [|discriminate H].
  cbn [obind] in H.
  destruct (expect "." s1) as [s2|] eqn:E2; [|discriminate H].
  cbn [obind] in H.
  destruct (two_digits s2) as [[m s3]|] eqn:E3; [|discriminate H].
  cbn [obind] in H.
  destruct (expect "." s3) as [s4|] eqn:E4; [|discriminate H].
  cbn [obind] in H.
  destruct (two_digits s4) as [[d s5]|] eqn:E5; [|discriminate H].
  cbn [obind] in H.
  destruct (expect " " s5) as [s6|] eqn:E6; [|discriminate H].
  cbn [obind] in H.
  destruct (two_digits s6) as [[h s7]|] eqn:E7; [|discriminate H].
  cbn [obind] in H.
  destruct (expect ":" s7) as [s8|] eqn:E8; [|discriminate H].
  cbn [obind] in H.
  destruct (two_digits s8) as [[mi s9]|] eqn:E9; [|discriminate H].
  cbn [obind] in H.
  destruct (expect ":" s9) as [s10|] eqn:E10; [|discriminate H].
  cbn [obind] in H.
  destruct (two_digits s10) as [[sec s11]|] eqn:E11; [|discriminate H].
  cbn [obind] in H.
  destruct s11; [|discriminate H]. clear H.
  apply fixed_digits_chars in E1 as (p1 & -> & H1).
  apply expect_chars in E2 as ->.
  apply two_digits_chars in E3 as (p3 & -> & H3).
  apply expect_chars in E4 as ->.
  apply two_digits_chars in E5 as (p5 & -> & H5).
  apply expect_chars in E6 as ->.
  apply two_digits_chars in E7 as (p7 & -> & H7).
  apply expect_chars in E8 as ->.
  apply two_digits_chars in E9 as (p9 & -> & H9).
  apply expect_chars in E10 as ->.
  apply two_digits_chars in E11 as (p11 & -> & H11).
  repeat (apply Forall_app; split; [assumption|];
          constructor; [reflexivity|]).
  apply Forall_app. split; [assumption | constructor].
Qed.

Lemma marker_is_no_timestamp (s : chars) :
  contains marker s = true -> strptime s = None.
Proof.
  intros H. destruct (strptime s) as [f|] eqn:E; [|reflexivity].
  apply strptime_chars in E. apply contains_spec in H as (a & b & ->).
  rewrite Forall_app in E. destruct E as [_ E].
  inversion_clear E as [|? ? He _]. discriminate He.
Qed.

(** The time cell of a row with the marker makes [to_datetime] raise. *)
Lemma to_datetime_marker (c : cell) :
  isna_cell c = false -> contains marker (str_cell c) = true ->
  to_datetime c = Raise ValueError.
Proof.
  destruct c as [|s|x]; simpl str_cell; [discriminate| |intros _ H; discriminate H].
  intros _ H. unfold to_datetime.
  destruct ((String.length s =? 0)%nat || existsb (String.eqb s) nat_strings)
    eqn:E.
  - exfalso. apply orb_true_iff in E as [E|E].
    + destruct s; [discriminate H | discriminate E].
    + apply existsb_exists in E as (x & Hx & Heq).
      apply String.eqb_eq in Heq. subst x. simpl in Hx.
      repeat (destruct Hx as [<-|Hx]; [discriminate H|]). exact Hx.
  - now rewrite (marker_is_no_timestamp _ H).
Qed.

Lemma summary_row_has_no_timestamp (row : cell * cell) (t : Z) :
  is_summary_row row = true -> to_datetime (fst row) <> Ok (Some t).
Proof.
  unfold is_summary_row. intros H.
  destruct (isna_cell (fst row)) eqn:E.
  - destruct (fst row) as [|s|[]]; try discriminate; simpl; discriminate.
  - simpl in H. rewrite (to_datetime_marker _ E H). discriminate.
Qed.

(** X5. [is_summary_row] looks at the time cell only: it holds exactly
    when that cell is missing or its text holds the marker [end of test]
    somewhere; and [to_datetime] never reads a timestamp from the time
    cell of a summary row. *)
Theorem is_summary_row_spec (row : cell * cell) :
  (is_summary_row row = true <->
   isna_cell (fst row) = true \/
   exists s a b, fst row = Str s /\ chars_of s = a ++ marker ++ b) /\
  (is_summary_row row = true ->
   forall t, to_datetime (fst row) <> Ok (Some t)).
Proof.
  split.
  - unfold is_summary_row. rewrite orb_true_iff. split.
    + intros [H|H]; [now left|].
      destruct (fst row) as [|s|x] eqn:E; simpl in H; try discriminate H.
      right. apply contains_spec in H as (a & b & H). eauto.
    + intros [H|(s & a & b & -> & H)]; [now left|].
      right. simpl. apply contains_spec. eauto.
  - intros H t. now apply summary_row_has_no_timestamp.
Qed.

Lemma is_summary_row_spec_witness :
  is_summary_row (Str "end of test", NA) = true /\
  to_datetime (fst (Str "end of test", NA)) <> Ok (Some t_2024).
Proof.
  split; [reflexivity|].
  exact (proj2 (is_summary_row_spec (Str "end of test", NA)) eq_refl t_2024).
Defined.

(** X6. A row whose time cell holds the end-of-data marker is fatal to
    [process_csv], whatever the other rows are: [to_datetime] raises on
    it and the run returns [None] without writing. *)
Theorem marker_row_aborts_the_run (fs : filesystem) (file_path : string)
  (df : DataFrame) (cells : list (cell * cell)) (row : cell * cell) :
  fs file_path = Some df ->
  getitem2 df col_time col_balance = Ok cells ->
  In row cells ->
  isna_cell (fst row) = false -> is_summary_row row = true ->
  to_datetime (fst row) = Raise ValueError /\
  process_csv fs file_path = (fs, None).
Proof.
  intros Hf Hg Hin Hna Hs.
  unfold is_summary_row in Hs. rewrite Hna in Hs. simpl in Hs.
  pose proof (to_datetime_marker _ Hna Hs) as Ht.
  split; [exact Ht|].
  destruct (convert_Raise_time _ _ _ Hin Ht) as (e' & Hc).
  apply (process_csv_None _ _ e'). unfold gap_filled, cleaned.
  now rewrite (load_Some _ _ _ _ Hf Hg), Hc.
Qed.

Lemma marker_row_aborts_the_run_witness :
  to_datetime (fst (Str "end of test", NA)) = Raise ValueError /\
  process_csv (one_file summary_input) "in.csv" =
    (one_file summary_input, None).
Proof.
  apply (marker_row_aborts_the_run (one_file summary_input) "in.csv"
           summary_input
           [(Str "2024.01.01 00:00:00", Str "1000"); (Str "end of test", NA)]
           (Str "end of test", NA)); try reflexivity.
  right. now left.
Defined.

(** Rows that are dropped for a missing timestamp may be dropped before
    the conversion, by any filter that drops only such rows. *)
Lemma convert_filter_missing (keep : cell * cell -> bool)
  (cells : list (cell * cell)) (raw : list (option Timestamp * float64)) :
  (forall row, In row cells -> keep row = false ->
               to_datetime (fst row) = Ok None) ->
  convert cells = Ok raw ->
  exists raw', convert (filter keep cells) = Ok raw' /\
               clean raw' = clean raw.
Proof.
  intros Hk Hc.
  assert (H : exists raw', convert (filter keep cells) = Ok raw' /\
                           filter has_time raw' = filter has_time raw).
  { revert raw Hc. induction cells as [|c cells IH]; intros raw Hc.
    - injection Hc as <-. exists []. now split.
    - apply convert_cons in Hc as (d & b & raw0 & Hd & Hb & Hc & ->).
      destruct (IH (fun r Hr => Hk r (or_intror Hr)) _ Hc) as (raw0' & Hc' & E).
      simpl filter at 1. destruct (keep c) eqn:Ek.
      + exists ((d, b) :: raw0'). split.
        * apply convert_cons. exists d, b, raw0'. auto.
        * simpl. now rewrite E.
      + exists raw0'. split; [assumption|].
        rewrite (Hk c (or_introl eq_refl) Ek) in Hd. injection Hd as <-.
        exact E. }
  destruct H as (raw' & Hc' & E). exists raw'. split; [assumption|].
  now rewrite <- (clean_filter raw'), E, clean_filter.
Qed.

Lemma getitem2_output_headers (body : list (list cell)) :
  getitem2 (mkDataFrame ["DateTime"; "Balance"]%string body)
           col_time col_balance = Raise (KeyError col_time).
Proof. reflexivity. Qed.

(** X7. On an input on which [process_csv] succeeds, so does
    [extract_time_balance]: the table it returns has the headers
    [DateTime] and [Balance] and no summary row. [process_csv] on that
    table returns [None], the headers it selects being gone; on that table
    under the headers of the input it returns what it returns on the
    input. *)
Theorem extract_time_balance_keeps_the_result (fs fs' : filesystem)
  (file_path : string) (df out : DataFrame) :
  fs file_path = Some df ->
  process_csv fs file_path = (fs', Some out) ->
  exists kept,
    extract_time_balance df = Ok kept /\
    columns kept = ["DateTime"; "Balance"]%string /\
    Forall (fun row => exists a b,
              row = [a; b] /\ is_summary_row (a, b) = false) (rows kept) /\
    (forall fs2 file_path2,
       fs2 file_path2 = Some kept ->
       process_csv fs2 file_path2 = (fs2, None)) /\
    (forall fs2 file_path2,
       fs2 file_path2 = Some (renamed_back kept) ->
       snd (process_csv fs2 file_path2) = Some out).
Proof.
  intros Hf H. pose proof H as H'.
  apply process_csv_Some in H' as (raw & res & Hl & _ & Hfill & _ & -> & _).
  unfold load, read_csv in Hl. rewrite Hf in Hl. cbn [bind] in Hl.
  destruct (getitem2 df col_time col_balance) as [cells|e] eqn:Hg;
    [cbn [bind] in Hl | discriminate Hl].
  assert (Hrows : rows df <> []).
  { intros E. unfold getitem2 in Hg. rewrite E in Hg.
    destruct (index_of col_time (columns df)); [|discriminate Hg].
    destruct (index_of col_balance (columns df)); [|discriminate Hg].
    injection Hg as <-. injection Hl as <-. discriminate Hfill. }
  set (keep := fun row : cell * cell => negb (is_summary_row row)).
  exists (mkDataFrame ["DateTime"; "Balance"]%string
            (map (fun row => [fst row; snd row]) (filter keep cells))).
  split.
  { unfold extract_time_balance. destruct (rows df); [congruence|].
    now rewrite Hg. }
  split; [reflexivity|]. split.
  { cbn [rows]. rewrite Forall_map, Forall_forall. intros [a b] Hrow.
    apply filter_In in Hrow as [_ Hrow]. exists a, b.
    split; [reflexivity | now apply negb_true_iff]. }
  split.
  { intros fs2 file_path2 Hf2.
    unfold process_csv, process_body, read_csv. rewrite Hf2. cbn [bind].
    now rewrite getitem2_output_headers. }
  intros fs2 file_path2 Hf2.
  change (renamed_back
            (mkDataFrame ["DateTime"; "Balance"]%string
               (map (fun row => [fst row; snd row]) (filter keep cells))))
    with (table_of (filter keep cells)) in Hf2.
  destruct (convert_filter_missing keep cells raw)
    as (raw' & Hc' & Hclean); [|assumption|].
  - intros row Hin Hrow. apply negb_false_iff in Hrow.
    assert (Hd : exists d, to_datetime (fst row) = Ok d).
    { clear -Hl Hin. revert raw Hl.
      induction cells as [|c cells IH]; intros raw Hl; [contradiction|].
      apply convert_cons in Hl as (d & b & raw0 & Hd & _ & Hc & _).
      destruct Hin as [->|Hin]; eauto. }
    destruct Hd as ([t|] & Hd); [|assumption].
    elim (summary_row_has_no_timestamp row t Hrow Hd).
  - rewrite process_csv_stages. unfold gap_filled, cleaned.
    rewrite (load_Some _ _ _ _ Hf2 (getitem2_table_of _)), Hc'.
    cbn [bind]. now rewrite Hclean, Hfill.
Qed.

Lemma extract_time_balance_keeps_the_result_witness :
  exists kept,
    extract_time_balance (input_table [[NA; NA];
        [Str "2024.01.01 00:00:00"; Str "1000"]]) = Ok kept /\
    columns kept = ["DateTime"; "Balance"]%string /\
    Forall (fun row => exists a b,
              row = [a; b] /\ is_summary_row (a, b) = false) (rows kept) /\
    (forall fs2 file_path2,
       fs2 file_path2 = Some kept ->
       process_csv fs2 file_path2 = (fs2, None)) /\
    (forall fs2 file_path2,
       fs2 file_path2 = Some (renamed_back kept) ->
       snd (process_csv fs2 file_path2) =
         Some (render [(t_2024, float_of_Z 1000)])).
Proof.
  apply (extract_time_balance_keeps_the_result
           (one_file (input_table [[NA; NA];
              [Str "2024.01.01 00:00:00"; Str "1000"]]))
           (to_csv (one_file (input_table [[NA; NA];
              [Str "2024.01.01 00:00:00"; Str "1000"]])) "in_BD.csv"
              (render [(t_2024, float_of_Z 1000)]))
           "in.csv"%string).
  - reflexivity.
  - rewrite process_csv_stages. reflexivity.
Defined.

(** ** [format_datetime] and [clean_balance_data] *)

Lemma mapM_length {A B : Type} (f : A -> result B) (l : list A) (l' : list B) :
  mapM f l = Ok l' -> List.length l' = List.length l.
Proof.
  intros H. apply mapM_Ok in H.
  induction H; simpl; [reflexivity | now f_equal].
Qed.

Lemma mapM_to_datetime_strftime (ts : list Z) :
  (forall t, In t ts -> whole_second t) ->
  mapM to_datetime (map (fun t => Str (strftime t)) ts) = Ok (map Some ts).
Proof.
  induction ts as [|t ts IH]; intros H; [reflexivity|].
  cbn [map mapM]. rewrite to_datetime_strftime by (apply H; now left).
  cbn [bind]. rewrite IH by (intros t' Ht'; apply H; now right).
  reflexivity.
Qed.

Lemma mapM_to_datetime_whole_second (cs : list cell)
  (ds : list (option Timestamp)) :
  mapM to_datetime cs = Ok ds ->
  forall t, In (Some t) ds -> whole_second t.
Proof.
  intros H. apply mapM_Ok in H.
  induction H as [|c d cs ds Hd _ IH]; intros t Ht; [contradiction|].
  destruct Ht as [->|Ht]; [|auto].
  eapply to_datetime_whole_second; eassumption.
Qed.

Lemma combine_map_Some {B : Type} (rows : list (Timestamp * B)) :
  combine (map Some (map fst rows)) (map snd rows) =
  map (fun r => (Some (fst r), snd r)) rows.
Proof.
  induction rows as [|[t b] rows IH]; simpl; [reflexivity | now rewrite IH].
Qed.

(** The rows [format_datetime] returns, before their timestamps are
    written as text: increasing, and whole seconds. *)
Lemma format_datetime_rows {B : Type} (df : list (cell * B))
  (out : list (string * B)) :
  format_datetime df = Ok out ->
  exists rows : list (Timestamp * B),
    out = map (fun r => (strftime (fst r), snd r)) rows /\
    increasing (map fst rows) /\
    (forall t, In t (map fst rows) -> whole_second t) /\
    (forall r, In r rows -> exists c, In (c, snd r) df /\
                                      to_datetime c = Ok (Some (fst r))).
Proof.
  unfold format_datetime. intros H.
  apply bind_Ok in H as (DateTime & HD & [= <-]).
  eexists. split; [reflexivity|].
  set (parsed := combine DateTime (map snd df)).
  assert (Hn : NoDup (map fst (dropna (drop_duplicates option_eqb fst parsed)))).
  { apply dropna_NoDup, drop_duplicates_NoDup, option_eqb_eq. }
  assert (Hin : forall t b,
             In (t, b) (sort_values fst
                          (dropna (drop_duplicates option_eqb fst parsed))) ->
             In (Some t, b) parsed).
  { intros t b Hr. apply sort_values_In, In_dropna in Hr.
    apply (drop_duplicates_from_first option_eqb fst option_eqb_eq) in Hr
      as (_ & l1 & l2 & E & _).
    rewrite E. apply in_or_app. right. now left. }
  split; [now apply sort_values_increasing|]. split.
  - intros t Ht. apply in_map_iff in Ht as ([t' b] & <- & Hr).
    apply Hin in Hr. apply in_combine_l in Hr.
    now apply (mapM_to_datetime_whole_second _ _ HD).
  - intros [t b] Hr. apply Hin in Hr. cbn [fst snd].
    apply mapM_Ok in HD. unfold parsed in Hr. clear -HD Hr.
    revert DateTime HD Hr. induction df as [|[c b'] df IH];
      intros DateTime HD Hr.
    + inversion HD; subst. contradiction.
    + simpl in HD. inversion HD as [|? d ? ds Hd Hds]; subst.
      simpl in Hr. destruct Hr as [[= -> ->]|Hr].
      * exists c. split; [now left | assumption].
      * destruct (IH _ Hds Hr) as (c' & Hc' & Ht). exists c'. split;
          [now right | assumption].
Qed.

(** X8. [format_datetime] is idempotent: on the table it returns, its
    timestamps being texts again, it returns that table; the texts it
    writes are read back to the same instants, already distinct and in
    order. *)
Theorem format_datetime_idempotent {B : Type} (df : list (cell * B))
  (out : list (string * B)) :
  format_datetime df = Ok out ->
  format_datetime (map (fun r => (Str (fst r), snd r)) out) = Ok out.
Proof.
  intros H.
  destruct (format_datetime_rows df out H) as (rows & -> & Hinc & Hws & _).
  unfold format_datetime. rewrite !map_map. cbn [fst snd].
  rewrite <- (map_map fst (fun t => Str (strftime t))).
  rewrite (mapM_to_datetime_strftime _ Hws). cbn [bind].
  rewrite combine_map_Some.
  rewrite (drop_duplicates_id option_eqb fst option_eqb_eq).
  - rewrite dropna_id.
    rewrite sort_values_sorted_id by now apply increasing_nondecreasing.
    reflexivity.
  - rewrite map_map. cbn [fst]. rewrite <- (map_map fst Some).
    apply NoDup_map_Some. now apply increasing_NoDup.
Qed.

Lemma format_datetime_idempotent_witness :
  format_datetime [(Str "2024.1.1 0:15:00", 2); (Str "2024.01.01 00:00:00", 1);
                   (NA, 3); (Str "2024.01.01 00:15:00", 4)] =
    Ok [("2024.01.01 00:00:00"%string, 1); ("2024.01.01 00:15:00"%string, 2)] /\
  format_datetime
    (map (fun r => (Str (fst r), snd r))
         [("2024.01.01 00:00:00"%string, 1); ("2024.01.01 00:15:00"%string, 2)]) =
    Ok [("2024.01.01 00:00:00"%string, 1); ("2024.01.01 00:15:00"%string, 2)].
Proof.
  assert (H : format_datetime
                [(Str "2024.1.1 0:15:00", 2); (Str "2024.01.01 00:00:00", 1);
                 (NA, 3); (Str "2024.01.01 00:15:00", 4)] =
              Ok [("2024.01.01 00:00:00"%string, 1);
                  ("2024.01.01 00:15:00"%string, 2)]) by reflexivity.
  split; [exact H|]. exact (format_datetime_idempotent _ _ H).
Defined.

(** X9. The helpers do what [process_csv] does inline: converting the
    balances with [clean_balance_data] and then the timestamps with
    [format_datetime] gives the cleaned Series of lines 89 to 100 with
    its timestamps written as text, and fails when and as those lines
    fail. *)
Theorem helpers_agree_with_process_csv (df : list (cell * cell)) :
  (df' <- clean_balance_data df ;; format_datetime df') =
  (raw <- convert df ;;
   Ok (map (fun r => (strftime (fst r), snd r)) (clean raw))).
Proof.
  unfold clean_balance_data, convert, format_datetime.
  destruct (mapM clean_balance (map snd df)) as [Balance|e] eqn:HB;
    [|reflexivity].
  cbn [bind].
  assert (Hlen : List.length (map fst df) = List.length Balance).
  { apply mapM_length in HB. now rewrite HB, !length_map. }
  rewrite (map_fst_combine _ _ Hlen), (map_snd_combine _ _ Hlen).
  destruct (mapM to_datetime (map fst df)) as [DateTime|e]; reflexivity.
Qed.

(** ** More on the filled table *)

Lemma increasing_head {A : Type} (key : A -> Z) (L : list A) (x : A) :
  increasing (map key L) -> In x L -> (forall y, In y L -> key x <= key y) ->
  exists L', L = x :: L'.
Proof.
  destruct L as [|y L]; [contradiction|]. simpl.
  intros Hs [->|Hin] Hmin; [eauto|].
  exfalso. inversion_clear Hs as [|? ? _ Hy].
  rewrite Forall_map, Forall_forall in Hy. specialize (Hy _ Hin).
  specialize (Hmin y (or_introl eq_refl)). lia.
Qed.

Lemma increasing_last (l : list Z) (m d : Z) :
  increasing l -> In m l -> (forall x, In x l -> x <= m) -> last l d = m.
Proof.
  induction l as [|x l IH]; [contradiction|].
  intros Hs Hin Hmax. inversion_clear Hs as [|? ? Hs' Hx].
  rewrite Forall_forall in Hx.
  destruct l as [|y l].
  - destruct Hin as [->|[]]. reflexivity.
  - change (last (x :: y :: l) d) with (last (y :: l) d).
    apply IH; [assumption | | intros z Hz; apply Hmax; now right].
    destruct Hin as [<-|Hin]; [|assumption].
    exfalso. specialize (Hx y (or_introl eq_refl)).
    specialize (Hmax y (or_intror (or_introl eq_refl))). lia.
Qed.

Lemma combine_map_r {A B C : Type} (f : B -> C) (l : list A) (r : list B) :
  combine l (map f r) = map (fun p => (fst p, f (snd p))) (combine l r).
Proof.
  revert r. induction l as [|a l IH]; intros [|b r]; simpl;
    try reflexivity. now rewrite IH.
Qed.

(** Where a padded value comes from: the carried value, or a known value
    of a row at or before. *)
Lemma pad_source (L : list (Z * option float64)) (val : option float64) :
  increasing (map fst L) ->
  forall t v, In (t, v) (combine (map fst L) (pad val (map snd L))) ->
    v = val \/ (isna v = false /\ exists t0, t0 <= t /\ In (t0, v) L).
Proof.
  revert val. induction L as [|[t1 v1] L IH]; intros val Hs t v Hin;
    [contradiction|].
  simpl in Hs. inversion_clear Hs as [|? ? Hs' Ht1].
  rewrite Forall_forall in Ht1.
  cbn [map fst snd pad] in Hin. destruct (isna v1) eqn:E.
  - destruct Hin as [[= <- <-]|Hin]; [now left|].
    destruct (IH val Hs' t v Hin) as [->|(Hv & t0 & Hle & Hin0)];
      [now left|].
    right. split; [assumption|]. exists t0. split; [assumption | now right].
  - destruct Hin as [[= <- <-]|Hin].
    + right. split; [assumption|]. exists t1. split; [lia | now left].
    + pose proof (in_combine_l _ _ _ _ Hin) as Ht. specialize (Ht1 _ Ht).
      destruct (IH v1 Hs' t v Hin) as [->|(Hv & t0 & Hle & Hin0)].
      * right. split; [assumption|]. exists t1. split; [lia | now left].
      * right. split; [assumption|]. exists t0.
        split; [assumption | now right].
Qed.

Lemma sort_and_fill_source (W : list (Timestamp * option float64))
  (t : Timestamp) (b : float64) :
  NoDup (map fst W) -> In (t, b) (sort_and_fill W) ->
  is_nan b = true \/ exists t0, t0 <= t /\ In (t0, Some b) W.
Proof.
  intros Hn Hin. pose proof (sort_values_increasing fst W Hn) as Hs.
  unfold sort_and_fill, ffill in Hin.
  rewrite combine_map_r in Hin.
  apply in_map_iff in Hin as ([t' v] & [= -> <-] & Hin).
  destruct (sort_values fst W) as [|[t1 v1] L] eqn:EL; [contradiction|].
  cbv iota in Hin. cbn [map snd] in Hin.
  change (v1 :: map snd L) with (map snd ((t1, v1) :: L)) in Hin.
  change (fst (t1, v1) :: map fst L) with (map fst ((t1, v1) :: L)) in Hin.
  assert (Hsrc : forall t0 x, In (t0, x) ((t1, v1) :: L) -> isna x = false ->
            exists b0, x = Some b0 /\ In (t0, Some b0) W).
  { intros t0 x Hx Hk. rewrite <- EL in Hx. apply sort_values_In in Hx.
    destruct x as [b0|]; [eauto | discriminate]. }
  destruct (pad_source _ v1 Hs t v Hin) as [->|(Hv & t0 & Hle & Hin0)].
  - destruct (isna v1) eqn:E.
    + left. now rewrite isna_float_of_object.
    + right. destruct (Hsrc t1 v1 (or_introl eq_refl) E) as (b0 & -> & Hb0).
      exists t1. split; [|assumption].
      simpl in Hs. inversion_clear Hs as [|? ? _ Ht1].
      rewrite Forall_forall in Ht1.
      apply in_combine_l in Hin. destruct Hin as [<-|Hin]; [simpl; lia|].
      specialize (Ht1 _ Hin). lia.
  - right. destruct (Hsrc t0 v Hin0 Hv) as (b0 & -> & Hb0). eauto.
Qed.

(** X10. In the output of a successful run two consecutive records are
    never more than 15 minutes apart. *)
Theorem consecutive_records_within_15_minutes (fs fs' : filesystem)
  (file_path : string) (out : DataFrame) :
  process_csv fs file_path = (fs', Some out) ->
  exists res,
    gap_filled fs file_path = Ok res /\ out = render res /\
    forall l1 a b l2,
      map fst res = l1 ++ a :: b :: l2 -> a < b <= a + freq_15T.
Proof.
  intros H.
  apply process_csv_Some in H as (raw & res & _ & _ & Hf & Hg & -> & _).
  exists res. split; [assumption|]. split; [reflexivity|].
  pose proof (clean_NoDup raw) as Hn.
  destruct (fill_gaps_spec _ _ Hn Hf) as (mn & mx & Hmn & Hmx & -> & HnW).
  set (W := with_placeholders (clean raw)
              (generate_regular_range mn mx freq_15T)) in *.
  pose proof (sort_and_fill_increasing W HnW) as Hinc.
  apply series_min_spec in Hmn as [Hmn1 Hmn2].
  apply series_max_spec in Hmx as [Hmx1 Hmx2].
  assert (Hkeys : forall t, In t (map fst (sort_and_fill W)) <->
            In t (generate_regular_range mn mx freq_15T) \/
            In t (map fst (clean raw))).
  { intros t. rewrite In_fst_sort_and_fill. unfold W.
    rewrite map_fst_with_placeholders, in_app_iff, In_difference.
    destruct (in_dec Z.eq_dec t (map fst (clean raw))); tauto. }
  pose proof freq_15T_pos as Hpos.
  assert (Hrange : forall t, In t (map fst (sort_and_fill W)) -> mn <= t <= mx).
  { intros t Ht. apply Hkeys in Ht as [Ht|Ht]; [|auto].
    apply In_generate_regular_range in Ht as (k & Hk & -> & Hle);
      [|assumption]. split; [nia | assumption]. }
  intros l1 a b l2 E. rewrite E in Hinc.
  apply increasing_app in Hinc as (_ & Hinc & H1).
  inversion_clear Hinc as [|? ? Hinc' Ha].
  inversion_clear Hinc' as [|? ? _ Hb].
  rewrite Forall_forall in Ha, Hb.
  assert (Hab : a < b) by (apply Ha; now left).
  split; [assumption|].
  destruct (Z_le_gt_dec b (a + freq_15T)) as [|Hgt]; [assumption|].
  exfalso.
  assert (Ha' : mn <= a <= mx).
  { apply Hrange. rewrite E. apply in_or_app. right. now left. }
  assert (Hb' : mn <= b <= mx).
  { apply Hrange. rewrite E. apply in_or_app. right. right. now left. }
  set (k := (a - mn) / freq_15T + 1).
  pose proof (Z.div_mod (a - mn) freq_15T ltac:(lia)) as Hdm.
  pose proof (Z.mod_pos_bound (a - mn) freq_15T Hpos) as Hmod.
  assert (Hk0 : 0 <= (a - mn) / freq_15T) by (apply Z.div_pos; lia).
  assert (Hnext : a < mn + k * freq_15T <= a + freq_15T) by (unfold k; nia).
  assert (Hin : In (mn + k * freq_15T) (map fst (sort_and_fill W))).
  { apply Hkeys. left. apply In_generate_regular_range; [assumption|].
    exists k. split; [unfold k; lia|]. split; [reflexivity | lia]. }
  rewrite E in Hin. apply in_app_or in Hin as [Hin|[Hin|[Hin|Hin]]].
  - specialize (H1 _ a Hin (or_introl eq_refl)). lia.
  - lia.
  - lia.
  - specialize (Hb _ Hin). lia.
Qed.

Lemma consecutive_records_within_15_minutes_witness :
  exists res,
    gap_filled (one_file off_grid_input) "in.csv" = Ok res /\
    render [(t_2024, NaN); (t_2024 + minutes 15, NaN);
            (t_2024 + minutes 20, float_of_Z 2000)] = render res /\
    forall l1 a b l2,
      map fst res = l1 ++ a :: b :: l2 -> a < b <= a + freq_15T.
Proof.
  apply (consecutive_records_within_15_minutes (one_file off_grid_input)
           (to_csv (one_file off_grid_input) "in_BD.csv"
              (render [(t_2024, NaN); (t_2024 + minutes 15, NaN);
                       (t_2024 + minutes 20, float_of_Z 2000)]))
           "in.csv"%string).
  rewrite process_csv_stages. reflexivity.
Defined.

(** X11. The output of a successful run spans the observed range: its
    first record is the earliest observed row, balance included, its last
    timestamp is the latest observed one, and every timestamp lies
    between the two. *)
Theorem output_spans_the_observed_range (fs fs' : filesystem)
  (file_path : string) (out : DataFrame) :
  process_csv fs file_path = (fs', Some out) ->
  exists df res mn mx,
    cleaned fs file_path = Ok df /\ gap_filled fs file_path = Ok res /\
    out = render res /\
    series_min (map fst df) = Some mn /\ series_max (map fst df) = Some mx /\
    hd_error res = hd_error df /\
    hd_error (map fst res) = Some mn /\
    last (map fst res) mn = mx /\
    forall t, In t (map fst res) -> mn <= t <= mx.
Proof.
  intros H.
  apply process_csv_Some in H as (raw & res & _ & Hc & Hf & Hg & -> & _).
  pose proof (clean_NoDup raw) as Hn.
  pose proof (clean_increasing raw) as Hdf.
  destruct (fill_gaps_spec _ _ Hn Hf) as (mn & mx & Hmn & Hmx & -> & HnW).
  exists (clean raw). eexists. exists mn, mx.
  do 5 (split; [eassumption || reflexivity|]).
  set (W := with_placeholders (clean raw)
              (generate_regular_range mn mx freq_15T)) in *.
  pose proof (sort_and_fill_increasing W HnW) as Hinc.
  pose proof (sort_values_increasing fst W HnW) as HincW.
  apply series_min_spec in Hmn as [Hmn1 Hmn2].
  apply series_max_spec in Hmx as [Hmx1 Hmx2].
  pose proof freq_15T_pos as Hpos.
  assert (Hkeys : forall t, In t (map fst W) <->
            In t (generate_regular_range mn mx freq_15T) \/
            In t (map fst (clean raw))).
  { intros t. unfold W.
    rewrite map_fst_with_placeholders, in_app_iff, In_difference.
    destruct (in_dec Z.eq_dec t (map fst (clean raw))); tauto. }
  assert (Hrange : forall t, In t (map fst W) -> mn <= t <= mx).
  { intros t Ht. apply Hkeys in Ht as [Ht|Ht]; [|auto].
    apply In_generate_regular_range in Ht as (k & Hk & -> & Hle);
      [|assumption]. split; [nia | assumption]. }
  (* the earliest observed row *)
  apply in_map_iff in Hmn1 as ([t1 b1] & Et1 & Hrow). simpl in Et1. subst t1.
  destruct (increasing_head fst (clean raw) (mn, b1) Hdf Hrow) as (df' & Edf).
  { intros [t b] Hy. apply Hmn2. apply in_map_iff. exists (t, b). auto. }
  assert (HrowW : In (mn, Some b1) (sort_values fst W)).
  { apply sort_values_In, In_with_placeholders. left. eauto. }
  destruct (increasing_head fst (sort_values fst W) (mn, Some b1) HincW HrowW)
    as (L' & EL).
  { intros [t v] Hy. apply sort_values_In in Hy. simpl.
    apply Hrange. apply in_map_iff. exists (t, v). auto. }
  assert (Hhd : hd_error (sort_and_fill W) = Some (mn, b1)).
  { unfold sort_and_fill, ffill. rewrite EL. simpl.
    now destruct (is_nan b1). }
  split; [now rewrite Hhd, Edf|]. split.
  - destruct (sort_and_fill W) as [|r rs]; [discriminate|].
    injection Hhd as ->. reflexivity.
  - split.
    + apply increasing_last; [assumption| |].
      * apply In_fst_sort_and_fill, Hkeys. now right.
      * intros t Ht. apply In_fst_sort_and_fill in Ht. now apply Hrange.
    + intros t Ht. apply In_fst_sort_and_fill in Ht. now apply Hrange.
Qed.

Lemma output_spans_the_observed_range_witness :
  exists df res mn mx,
    cleaned (one_file off_grid_input) "in.csv" = Ok df /\
    gap_filled (one_file off_grid_input) "in.csv" = Ok res /\
    render [(t_2024, NaN); (t_2024 + minutes 15, NaN);
            (t_2024 + minutes 20, float_of_Z 2000)] = render res /\
    series_min (map fst df) = Some mn /\ series_max (map fst df) = Some mx /\
    hd_error res = hd_error df /\
    hd_error (map fst res) = Some mn /\
    last (map fst res) mn = mx /\
    forall t, In t (map fst res) -> mn <= t <= mx.
Proof.
  apply (output_spans_the_observed_range (one_file off_grid_input)
           (to_csv (one_file off_grid_input) "in_BD.csv"
              (render [(t_2024, NaN); (t_2024 + minutes 15, NaN);
                       (t_2024 + minutes 20, float_of_Z 2000)]))
           "in.csv"%string).
  rewrite process_csv_stages. reflexivity.
Defined.

(** X12. Forward fill invents no balance: a balance of the output is
    missing, or it is the balance of an observed row at that instant or
    before it. *)
Theorem forward_fill_invents_no_balance (fs fs' : filesystem)
  (file_path : string) (out : DataFrame) :
  process_csv fs file_path = (fs', Some out) ->
  exists df res,
    cleaned fs file_path = Ok df /\ gap_filled fs file_path = Ok res /\
    out = render res /\
    forall t b, In (t, b) res ->
      is_nan b = true \/ exists t0, t0 <= t /\ In (t0, b) df.
Proof.
  intros H.
  apply process_csv_Some in H as (raw & res & _ & Hc & Hf & Hg & -> & _).
  pose proof (clean_NoDup raw) as Hn.
  destruct (fill_gaps_spec _ _ Hn Hf) as (mn & mx & _ & _ & -> & HnW).
  exists (clean raw). eexists.
  do 3 (split; [eassumption || reflexivity|]).
  intros t b Hin.
  destruct (sort_and_fill_source _ t b HnW Hin) as [Hb|(t0 & Hle & Hin0)];
    [now left|].
  right. exists t0. split; [assumption|].
  apply In_with_placeholders in Hin0 as [(b0 & [= <-] & Hb0)|(Hnone & _)];
    [assumption | discriminate].
Qed.

Lemma forward_fill_invents_no_balance_witness :
  exists df res,
    cleaned (one_file gap_input) "in.csv" = Ok df /\
    gap_filled (one_file gap_input) "in.csv" = Ok res /\
    gap_output = render res /\
    forall t b, In (t, b) res ->
      is_nan b = true \/ exists t0, t0 <= t /\ In (t0, b) df.
Proof.
  apply (forward_fill_invents_no_balance (one_file gap_input)
           (to_csv (one_file gap_input) "in_BD.csv" gap_output)
           "in.csv"%string).
  rewrite process_csv_stages. reflexivity.
Defined.

(** ** The order of the input rows *)

Lemma dropna_perm {B : Type} (l l' : list (option Timestamp * B)) :
  Permutation l l' -> Permutation (dropna l) (dropna l').
Proof.
  induction 1 as [|[[t|] b] l l' _ IH|[[t1|] b1] [[t2|] b2] l|l1 l2 l3 _ IH1 _ IH2];
    simpl; try reflexivity; try assumption.
  - now constructor.
  - apply perm_swap.
  - now transitivity (dropna l2).
Qed.

Lemma dropna_filter_has_time (raw : list (option Timestamp * float64)) :
  dropna (filter has_time raw) = dropna raw.
Proof.
  induction raw as [|[[t|] b] raw IH]; simpl; [reflexivity| |assumption].
  now rewrite IH.
Qed.

Lemma map_fst_filter_has_time (raw : list (option Timestamp * float64)) :
  map fst (filter has_time raw) = map Some (map fst (dropna raw)).
Proof.
  induction raw as [|[[t|] b] raw IH]; simpl; [reflexivity| |assumption].
  now rewrite IH.
Qed.

(** With distinct timestamps nothing is removed but the rows without
    one. *)
Lemma clean_distinct (raw : list (option Timestamp * float64)) :
  NoDup (map fst (dropna raw)) -> clean raw = sort_values fst (dropna raw).
Proof.
  intros Hn. rewrite <- clean_filter. unfold clean. cbv zeta.
  rewrite (drop_duplicates_id option_eqb fst option_eqb_eq).
  - now rewrite dropna_filter_has_time.
  - rewrite map_fst_filter_has_time. now apply NoDup_map_Some.
Qed.

(** X13. When no two rows of the input share a timestamp, the order of
    the rows does not matter: two inputs with the same rows in different
    orders give the same result. *)
Theorem row_order_does_not_matter (fs fs2 : filesystem)
  (file_path file_path2 : string)
  (raw raw' : list (option Timestamp * float64)) :
  load fs file_path = Ok raw -> load fs2 file_path2 = Ok raw' ->
  Permutation raw raw' -> NoDup (map fst (dropna raw)) ->
  clean raw = clean raw' /\
  snd (process_csv fs file_path) = snd (process_csv fs2 file_path2).
Proof.
  intros Hl Hl' Hp Hn.
  assert (Hp' : Permutation (dropna raw) (dropna raw')) by now apply dropna_perm.
  assert (Hn' : NoDup (map fst (dropna raw'))).
  { eapply Permutation_NoDup; [|exact Hn]. now apply Permutation_map. }
  assert (E : clean raw = clean raw').
  { rewrite (clean_distinct raw Hn), (clean_distinct raw' Hn').
    symmetry. apply sort_values_unique; [assumption | |].
    - rewrite Hp'. symmetry. apply sort_values_perm.
    - now apply sort_values_increasing. }
  split; [exact E|].
  rewrite !process_csv_stages. unfold gap_filled, cleaned.
  rewrite Hl, Hl'. cbn [bind]. rewrite E.
  now destruct (fill_gaps (clean raw')).
Qed.

Lemma row_order_does_not_matter_witness :
  clean [(Some t_2024, float_of_Z 1000);
         (Some (t_2024 + minutes 45), float_of_Z 2000)] =
  clean [(Some (t_2024 + minutes 45), float_of_Z 2000);
         (Some t_2024, float_of_Z 1000)] /\
  snd (process_csv (one_file gap_input) "in.csv") =
  snd (process_csv
         (one_file (input_table
            [[Str "2024.01.01 00:45:00"; Str "2000"];
             [Str "2024.01.01 00:00:00"; Str "1000"]])) "in.csv").
Proof.
  apply (row_order_does_not_matter (one_file gap_input)
           (one_file (input_table
              [[Str "2024.01.01 00:45:00"; Str "2000"];
               [Str "2024.01.01 00:00:00"; Str "1000"]]))
           "in.csv" "in.csv").
  - reflexivity.
  - reflexivity.
  - apply perm_swap.
  - repeat constructor; simpl; [intros [H|[]]; discriminate H | tauto].
Defined.

(** ** The table that is returned *)

Lemma NoDup_map_inj_on {A B : Type} (f : A -> B) (l : list A) :
  NoDup l -> (forall x y, In x l -> In y l -> f x = f y -> x = y) ->
  NoDup (map f l).
Proof.
  induction 1 as [|x l Hx _ IH]; intros Hinj; simpl; constructor.
  - rewrite in_map_iff. intros (y & Hy & Hin).
    assert (y = x) by (apply Hinj; [now right | now left | assumption]).
    now subst y.
  - apply IH. intros y z Hy Hz. apply Hinj; now right.
Qed.

Lemma strftime_inj (t1 t2 : Z) :
  whole_second t1 -> whole_second t2 -> strftime t1 = strftime t2 -> t1 = t2.
Proof.
  intros H1 H2 E. apply to_datetime_strftime in H1, H2.
  rewrite E in H1. rewrite H1 in H2. now injection H2.
Qed.

(** X14. The table returned by a successful run has the two columns
    [DateTime] and [Balance] and two cells in every row. The first cell
    is the text of an instant [t] of whole seconds in the layout
    YYYY.MM.DD HH:MM:SS: the four digits of the year, a point, the two
    digits of the month, a point, the two digits of the day, a space, and
    hour, minute and second in two digits each with colons between, these
    six numbers being the civil date and the time of day of [t]. No two
    rows have the same text. So the last instant of February 2024, at
    13:45:07, is written [2024.02.29 13:45:07]. *)
Theorem output_table_shape :
  (forall fs fs' file_path out,
      process_csv fs file_path = (fs', Some out) ->
      columns out = ["DateTime"; "Balance"]%string /\
      Forall (fun row => exists t x y m d h mi s,
                row = [Str (strftime t); x] /\ whole_second t /\
                chars_of (strftime t) =
                  pad4 y ++ "."%char :: pad2 m ++ "."%char :: pad2 d ++
                  " "%char :: pad2 h ++ ":"%char :: pad2 mi ++
                  ":"%char :: pad2 s /\
                1000 <= y <= 9999 /\ 1 <= m <= 12 /\
                1 <= d <= days_in_month y m /\
                0 <= h <= 23 /\ 0 <= mi <= 59 /\ 0 <= s <= 59 /\
                t = (days_from_civil y m d * 86400
                     + h * 3600 + mi * 60 + s) * ns_per_second)
             (rows out) /\
      NoDup (map (fun row => nth 0 row NA) (rows out))) /\
  days_from_civil 2024 2 29 = 19782 /\
  strftime ((19782 * 86400 + 13 * 3600 + 45 * 60 + 7) * ns_per_second) =
    "2024.02.29 13:45:07"%string /\
  pad4 2024 = chars_of "2024" /\ pad2 7 = chars_of "07" /\
  pad2 45 = chars_of "45".
Proof.
  split; [|repeat split; vm_compute; reflexivity].
  intros fs fs' file_path out H.
  apply process_csv_Some in H as (raw & res & Hl & _ & Hf & _ & -> & _).
  pose proof (clean_NoDup raw) as Hn.
  assert (Hws : forall t, In t (map fst res) -> whole_second t).
  { apply (fill_gaps_whole_second (clean raw)); auto.
    intros t Ht. apply In_fst_clean in Ht.
    now apply (load_whole_second fs file_path raw). }
  assert (Hinc : increasing (map fst res)).
  { destruct (fill_gaps_spec _ _ Hn Hf) as (mn & mx & _ & _ & -> & HnW).
    now apply sort_and_fill_increasing. }
  split; [reflexivity|]. split.
  - cbn [rows render]. rewrite Forall_map, Forall_forall. intros [t b] Hin.
    cbn [fst snd].
    assert (Hw : whole_second t).
    { apply Hws. apply in_map_iff. exists (t, b). auto. }
    destruct (fields_of_ns_spec t Hw) as (Hv & Hns & Hy).
    unfold valid_fields in Hv.
    repeat (apply andb_prop in Hv as [Hv ?]).
    repeat match goal with H : (_ <=? _) = true |- _ => apply Z.leb_le in H end.
    assert (Hnn : 0 <= f_hour (fields_of_ns t) /\
                  0 <= f_minute (fields_of_ns t) /\
                  0 <= f_second (fields_of_ns t)).
    { unfold fields_of_ns.
      destruct (civil_from_days (t / ns_per_day)) as [[y m] d].
      cbn [f_hour f_minute f_second].
      pose proof (Z.mod_pos_bound t ns_per_day ltac:(reflexivity)).
      assert (0 <= t mod ns_per_day / ns_per_second)
        by (apply Z.div_pos; [lia | reflexivity]).
      repeat split.
      - apply Z.div_pos; [assumption | reflexivity].
      - apply Z.div_pos; [|reflexivity].
        apply Z.mod_pos_bound. reflexivity.
      - apply Z.mod_pos_bound. reflexivity. }
    exists t, (cell_of_float b), (f_year (fields_of_ns t)),
      (f_month (fields_of_ns t)), (f_day (fields_of_ns t)),
      (f_hour (fields_of_ns t)), (f_minute (fields_of_ns t)),
      (f_second (fields_of_ns t)).
    split; [reflexivity|]. split; [assumption|].
    split; [unfold strftime; now rewrite chars_of_string_of|].
    repeat split; try lia.
    symmetry. exact Hns.
  - simpl. rewrite map_map. simpl.
    rewrite <- (map_map fst (fun t => Str (strftime t))).
    apply NoDup_map_inj_on; [now apply increasing_NoDup|].
    intros x y Hx Hy E. apply strftime_inj; auto. congruence.
Qed.

Lemma output_table_shape_witness :
  columns (render [((19782 * 86400 + 13 * 3600 + 45 * 60 + 7) * ns_per_second,
                    float_of_Z 1000)]) = ["DateTime"; "Balance"]%string /\
  Forall (fun row => exists t x y m d h mi s,
            row = [Str (strftime t); x] /\ whole_second t /\
            chars_of (strftime t) =
              pad4 y ++ "."%char :: pad2 m ++ "."%char :: pad2 d ++
              " "%char :: pad2 h ++ ":"%char :: pad2 mi ++
              ":"%char :: pad2 s /\
            1000 <= y <= 9999 /\ 1 <= m <= 12 /\
            1 <= d <= days_in_month y m /\
            0 <= h <= 23 /\ 0 <= mi <= 59 /\ 0 <= s <= 59 /\
            t = (days_from_civil y m d * 86400
                 + h * 3600 + mi * 60 + s) * ns_per_second)
         (rows (render [((19782 * 86400 + 13 * 3600 + 45 * 60 + 7)
                           * ns_per_second, float_of_Z 1000)])) /\
  NoDup (map (fun row => nth 0 row NA)
           (rows (render [((19782 * 86400 + 13 * 3600 + 45 * 60 + 7)
                             * ns_per_second, float_of_Z 1000)]))).
Proof.
  apply (proj1 output_table_shape
           (one_file (input_table [[Str "2024.02.29 13:45:07"; Str "1000"]]))
           (to_csv
              (one_file (input_table [[Str "2024.02.29 13:45:07"; Str "1000"]]))
              "in_BD.csv"
              (render [((19782 * 86400 + 13 * 3600 + 45 * 60 + 7)
                          * ns_per_second, float_of_Z 1000)]))
           "in.csv"%string).
  rewrite process_csv_stages. reflexivity.
Defined.

(** ** Edge cases of the grid *)

(** X15. A cleaned Series of one row is returned as it is: the grid from
    an instant to itself is that instant alone, and there is nothing to
    fill. *)
Theorem single_row_is_unchanged (t : Timestamp) (b : float64) :
  date_range (Some t) (Some t) = Ok [t] /\
  fill_gaps [(t, b)] = Ok [(t, b)].
Proof.
  assert (Hg : generate_regular_range t t freq_15T = [t]).
  { rewrite generate_regular_range_eq by (auto using freq_15T_pos; lia).
    rewrite Z.sub_diag. simpl. f_equal. lia. }
  split; [unfold date_range; now rewrite Hg|].
  unfold fill_gaps.
  change (series_min (map fst [(t, b)])) with (Some t).
  change (series_max (map fst [(t, b)])) with (Some t).
  unfold date_range. rewrite Hg. cbn [bind]. f_equal.
  assert (Hw : with_placeholders [(t, b)] [t] = [(t, Some b)]).
  { unfold with_placeholders, difference. cbn [map fst snd filter existsb].
    now rewrite Z.eqb_refl. }
  rewrite Hw. unfold sort_and_fill, ffill.
  cbn [sort_values insert map fst snd pad combine].
  unfold drop_duplicates. now destruct (isna (Some b)).
Qed.

(** ** When [process_csv] returns [None] *)

Lemma clean_nil (raw : list (option Timestamp * float64)) :
  clean raw = [] <-> Forall (fun r => fst r = None) raw.
Proof.
  split.
  - intros H. rewrite Forall_forall. intros [[t|] b] Hin; [|reflexivity].
    exfalso. assert (Ht : In t (map fst (clean raw))).
    { apply In_fst_clean. apply in_map_iff. exists (Some t, b). auto. }
    rewrite H in Ht. contradiction.
  - intros H. destruct (clean raw) as [|[t b] l] eqn:E; [reflexivity|].
    exfalso. assert (Ht : In t (map fst (clean raw))) by (rewrite E; now left).
    apply In_fst_clean in Ht. apply in_map_iff in Ht as ([o b'] & Ho & Hin).
    rewrite Forall_forall in H. specialize (H _ Hin). simpl in *. congruence.
Qed.

Lemma fill_gaps_nonempty (df : list (Timestamp * float64)) :
  df <> [] -> exists res, fill_gaps df = Ok res.
Proof.
  intros Hne. unfold fill_gaps.
  assert (Hne' : map fst df <> []) by (destruct df; [congruence | discriminate]).
  destruct (series_min_nonempty _ Hne') as (mn & ->).
  destruct (series_max_nonempty _ Hne') as (mx & ->).
  cbn [date_range bind]. eauto.
Qed.

Lemma index_of_None (name : string) (cols : list string) :
  index_of name cols = None <-> ~ In name cols.
Proof.
  induction cols as [|c cols IH]; simpl; [tauto|].
  destruct (String.eqb_spec c name) as [->|Hc].
  - split; [discriminate|]. intros H. elim H. now left.
  - destruct (index_of name cols) as [i|]; simpl.
    + split; [discriminate|]. intros H. exfalso.
      assert (Hn : ~ In name cols) by tauto.
      apply IH in Hn. discriminate.
    + split; [|reflexivity]. intros _ [H|H]; [congruence|].
      now apply (proj1 IH).
Qed.

(** [df[[a, b]]] raises exactly when one of the columns is absent. *)
Lemma getitem2_Raise (df : DataFrame) (a b : string) :
  (exists e, getitem2 df a b = Raise e) <->
  ~ In a (columns df) \/ ~ In b (columns df).
Proof.
  unfold getitem2. rewrite <- !index_of_None.
  destruct (index_of a (columns df)), (index_of b (columns df)); split;
    try (intros (e & H); discriminate); try (intros [H|H]; discriminate);
    eauto.
Qed.

(** The body of the [try] raises before the write exactly when the file
    cannot be read, a column is absent, a cell does not convert, or no row
    has a timestamp. *)
Lemma process_body_with_Raise (L : library) (fs : filesystem)
  (file_path : string) :
  (exists e, process_body_with L fs file_path = Raise e) <->
  fs file_path = None \/
  (exists file, fs file_path = Some file /\
     (~ In col_time (columns file) \/ ~ In col_balance (columns file))) \/
  (exists file cells row,
     fs file_path = Some file /\
     getitem2 file col_time col_balance = Ok cells /\ In row cells /\
     ((exists e, clean_balance_with L (snd row) = Raise e) \/
      (exists e, pd_to_datetime L (fst row) = Raise e))) \/
  (exists file cells raw,
     fs file_path = Some file /\
     getitem2 file col_time col_balance = Ok cells /\
     convert_with L cells = Ok raw /\ Forall (fun r => fst r = None) raw).
Proof.
  unfold process_body_with, read_csv.
  destruct (fs file_path) as [file|]; cbn [bind].
  2: { split; [now left | eauto]. }
  destruct (getitem2 file col_time col_balance) as [cells|e] eqn:Hg;
    cbn [bind].
  2: { split; [|eauto]. intros _. right. left. exists file.
       split; [reflexivity|]. apply getitem2_Raise. eauto. }
  destruct (convert_with L cells) as [raw|e] eqn:Hc; cbn [bind].
  2: { split; [|eauto]. intros _. right. right. left.
       destruct (convert_with_Raise_inv L cells e Hc) as (row & Hin & [H|H]);
         exists file, cells, row; eauto 10. }
  destruct (clean raw) as [|r df] eqn:Hcl.
  - split; [|intros _; now exists ValueError].
    intros _. right. right. right. exists file, cells, raw.
    repeat split; auto. now apply clean_nil.
  - destruct (fill_gaps_nonempty (r :: df)) as (res & ->); [discriminate|].
    cbn [bind]. split; [intros (e & H); discriminate|].
    intros [H|[H|[H|H]]].
    + discriminate.
    + destruct H as (file' & [= <-] & H).
      apply getitem2_Raise in H as (e & H). congruence.
    + destruct H as (file' & cells' & row & [= <-] & Hg' & Hin & H).
      rewrite Hg in Hg'. injection Hg' as <-.
      destruct H as [(e & H)|(e & H)].
      * destruct (convert_with_Raise_balance L _ _ _ Hin H) as (e' & He').
        congruence.
      * destruct (convert_with_Raise_time L _ _ _ Hin H) as (e' & He').
        congruence.
    + destruct H as (file' & cells' & raw' & [= <-] & Hg' & Hc' & HF).
      rewrite Hg in Hg'. injection Hg' as <-.
      rewrite Hc in Hc'. injection Hc' as <-.
      apply clean_nil in HF. congruence.
Qed.

(** C5. Whatever the file system, the path and the behaviour of the
    library, [process_csv] returns a table or [None] and no exception
    leaves it. It returns [None] exactly when a step inside the [try]
    raises: the file cannot be read, a column is absent, a balance or a
    timestamp does not convert, no row has a timestamp (the Series is
    empty once the missing ones are dropped), or the write fails. When
    the failure comes before the write the file system is as it was; and
    a table is returned only when it was computed in full and written. *)
Theorem process_csv_returns_None_on_failure (L : library) (fs : filesystem)
  (file_path : string) :
  (snd (process_csv_with L fs file_path) = None <->
   fs file_path = None \/
   (exists file, fs file_path = Some file /\
      (~ In col_time (columns file) \/ ~ In col_balance (columns file))) \/
   (exists file cells row,
      fs file_path = Some file /\
      getitem2 file col_time col_balance = Ok cells /\ In row cells /\
      ((exists e, clean_balance_with L (snd row) = Raise e) \/
       (exists e, pd_to_datetime L (fst row) = Raise e))) \/
   (exists file cells raw,
      fs file_path = Some file /\
      getitem2 file col_time col_balance = Ok cells /\
      convert_with L cells = Ok raw /\ Forall (fun r => fst r = None) raw) \/
   (exists out e,
      process_body_with L fs file_path = Ok out /\
      snd (df_to_csv L fs (get_output_path file_path) out) = Some e)) /\
  (forall e, process_body_with L fs file_path = Raise e ->
     process_csv_with L fs file_path = (fs, None)) /\
  (forall out, snd (process_csv_with L fs file_path) = Some out ->
     process_body_with L fs file_path = Ok out /\
     df_to_csv L fs (get_output_path file_path) out =
       (fst (process_csv_with L fs file_path), None)).
Proof.
  pose proof (process_body_with_Raise L fs file_path) as HR.
  unfold process_csv_with.
  destruct (process_body_with L fs file_path) as [out|e] eqn:Hb.
  - cbv zeta.
    destruct (df_to_csv L fs (get_output_path file_path) out) as [fs' [e|]]
      eqn:Hw; cbn [fst snd].
    + split; [|split; [discriminate | discriminate]].
      split; [|reflexivity]. intros _. do 4 right. exists out, e.
      split; [reflexivity|]. now rewrite Hw.
    + split; [|split; [discriminate|]].
      * split; [discriminate|].
        intros [H|[H|[H|[H|H]]]].
        -- assert (HE : exists e, Ok out = @Raise DataFrame e) by (apply HR; tauto).
           destruct HE as (e & HE). discriminate.
        -- assert (HE : exists e, Ok out = @Raise DataFrame e) by (apply HR; tauto).
           destruct HE as (e & HE). discriminate.
        -- assert (HE : exists e, Ok out = @Raise DataFrame e) by (apply HR; tauto).
           destruct HE as (e & HE). discriminate.
        -- assert (HE : exists e, Ok out = @Raise DataFrame e) by (apply HR; tauto).
           destruct HE as (e & HE). discriminate.
        -- destruct H as (out' & e & [= <-] & H). rewrite Hw in H.
           discriminate.
      * intros out' [= <-]. split; [reflexivity | exact Hw].
  - cbn [fst snd]. split; [|split; [reflexivity | discriminate]].
    split; [|reflexivity]. intros _.
    assert (H : exists e0, @Raise DataFrame e = Raise e0) by eauto.
    apply HR in H. tauto.
Qed.

Lemma process_csv_returns_None_on_failure_witness :
  process_body_with read_only_disk (one_file gap_input) "in.csv" =
    Ok gap_output /\
  snd (process_csv_with read_only_disk (one_file gap_input) "in.csv") = None /\
  snd (process_csv_with model (one_file (input_table [[NA; Str "1000"]]))
         "in.csv") = None.
Proof.
  split; [reflexivity|]. split.
  - apply (proj1 (process_csv_returns_None_on_failure read_only_disk
                    (one_file gap_input) "in.csv")).
    do 4 right. exists gap_output, OSError. split; reflexivity.
  - apply (proj1 (process_csv_returns_None_on_failure model
                    (one_file (input_table [[NA; Str "1000"]])) "in.csv")).
    do 3 right. left.
    exists (input_table [[NA; Str "1000"]]), [(NA, Str "1000")],
      [(None, float_of_Z 1000)].
    repeat split; try reflexivity. repeat constructor.
Defined.

(** ** The balance coercion over any [float] *)

Lemma replace_spaces_app (a b : chars) :
  replace_spaces (a ++ b) = replace_spaces a ++ replace_spaces b.
Proof. apply filter_app. Qed.

Lemma replace_spaces_no_space (s : chars) : ~ In " "%char (replace_spaces s).
Proof. rewrite In_replace_spaces. tauto. Qed.

(** C9, amended. The balance is converted to text, every space character
    (U+0020) is removed from it and no other character, the order of the
    rest being kept, and what is left is handed to [float]: two texts that
    differ only in spaces convert alike, whereas a tab stays in the text.
    The balance [1 050] is converted as [1050] is, to 1050.0. *)
Theorem balance_coercion_removes_spaces (L : library) :
  (forall s,
      clean_balance_with L (Str s) =
      match py_float L (replace_spaces (chars_of s)) with
      | Some x => Ok x
      | None => Raise ValueError
      end) /\
  (forall a b, replace_spaces (a ++ b) = replace_spaces a ++ replace_spaces b) /\
  replace_spaces [" "%char] = [] /\
  (forall c, c <> " "%char -> replace_spaces [c] = [c]) /\
  (forall s c, In c (replace_spaces s) <-> In c s /\ c <> " "%char) /\
  (forall s, ~ In " "%char s -> replace_spaces s = s) /\
  (forall s t, replace_spaces (chars_of s) = replace_spaces (chars_of t) ->
               clean_balance_with L (Str s) = clean_balance_with L (Str t)) /\
  replace_spaces (chars_of "1 050") = chars_of "1050" /\
  replace_spaces (chars_of one_tab_050) = chars_of one_tab_050 /\
  clean_balance (Str "1 050") = Ok (float_of_Z 1050) /\
  clean_balance (Str "1050") = Ok (float_of_Z 1050) /\
  float_of_string "1050.0" = Some (float_of_Z 1050) /\
  clean_balance (Str one_tab_050) = Raise ValueError /\
  snd (process_csv
         (one_file (input_table [[Str "2024.01.01 00:00:00"; Str "1000"];
                                 [Str "2024.01.01 00:15:00"; Str "1 050"]]))
         "in.csv") =
    Some (mkDataFrame ["DateTime"; "Balance"]%string
            [[Str "2024.01.01 00:00:00"; Num (float_of_Z 1000)];
             [Str "2024.01.01 00:15:00"; Num (float_of_Z 1050)]]).
Proof.
  split; [reflexivity|].
  split; [apply replace_spaces_app|].
  split; [reflexivity|].
  split.
  { intros c Hc. unfold replace_spaces. simpl.
    destruct (Ascii.eqb_spec c " "%char); [contradiction | reflexivity]. }
  split; [apply In_replace_spaces|].
  split; [apply replace_spaces_id|].
  split.
  { intros s t H. unfold clean_balance_with. now rewrite H. }
  repeat split; vm_compute; reflexivity.
Qed.

Lemma balance_coercion_removes_spaces_witness :
  replace_spaces (chars_of "1 050") = replace_spaces (chars_of "1050") /\
  clean_balance_with model (Str "1 050") = clean_balance_with model (Str "1050").
Proof.
  split; [reflexivity|].
  exact (proj1 (proj2 (proj2 (proj2 (proj2 (proj2 (proj2
           (balance_coercion_removes_spaces model)))))))
           "1 050"%string "1050"%string eq_refl).
Defined.

(** ** Forward fill at the instants that were not observed *)

(** Before an instant, either no row has a balance or one row is the
    latest that has. *)
Lemma last_known_before (df : list (Timestamp * float64)) (t : Z) :
  (forall t0 v0, In (t0, v0) df -> t0 < t -> is_nan v0 = true) \/
  exists t0 v0,
    In (t0, v0) df /\ is_nan v0 = false /\ t0 < t /\
    forall t1 v1, In (t1, v1) df -> t0 < t1 -> t1 < t -> is_nan v1 = true.
Proof.
  induction df as [|[a va] df IH].
  - left. intros t0 v0 [].
  - destruct (Z.ltb_spec a t) as [Hat|Hat]; [destruct (is_nan va) eqn:Eva|].
    + (* an earlier row without a balance *)
      destruct IH as [IH|(t0 & v0 & Hin & Hv & Hlt & Hb)].
      * left. intros t0 v0 [[= <- <-]|Hin] Hlt; eauto.
      * right. exists t0, v0. repeat split; auto; [now right|].
        intros t1 v1 [[= <- <-]|Hin1] H1 H2; eauto.
    + (* an earlier row with a balance *)
      destruct IH as [IH|(t0 & v0 & Hin & Hv & Hlt & Hb)].
      * right. exists a, va. repeat split; auto; [now left|].
        intros t1 v1 [[= <- <-]|Hin1] H1 H2; [lia | eauto].
      * destruct (Z.ltb_spec t0 a) as [H0a|H0a].
        -- right. exists a, va. repeat split; auto; [now left|].
           intros t1 v1 [[= <- <-]|Hin1] H1 H2; [lia|].
           apply (Hb t1 v1); auto; lia.
        -- right. exists t0, v0. repeat split; auto; [now right|].
           intros t1 v1 [[= <- <-]|Hin1] H1 H2; [lia | eauto].
    + (* a row that is not earlier *)
      destruct IH as [IH|(t0 & v0 & Hin & Hv & Hlt & Hb)].
      * left. intros t0 v0 [[= <- <-]|Hin] Hlt; [lia | eauto].
      * right. exists t0, v0. repeat split; auto; [now right|].
        intros t1 v1 [[= <- <-]|Hin1] H1 H2; [lia | eauto].
Qed.

Section Fill.

Variables (df : list (Timestamp * float64)) (grid : list Timestamp).

Hypothesis distinct : NoDup (map fst (with_placeholders df grid)).

(** A record that was not observed is a placeholder. *)
Lemma synthesized_is_placeholder (t : Timestamp) (v : float64) :
  In (t, v) (sort_and_fill (with_placeholders df grid)) ->
  ~ In t (map fst df) ->
  In (t, None) (with_placeholders df grid).
Proof.
  intros Hin Hnot.
  assert (Ht : In t (map fst (with_placeholders df grid))).
  { apply In_fst_sort_and_fill. apply in_map_iff. exists (t, v). auto. }
  apply in_map_iff in Ht as ([t' x] & Ht' & Hx). simpl in Ht'. subst t'.
  pose proof Hx as Hx'.
  apply In_with_placeholders in Hx' as [(b & -> & Hb)|(-> & _)];
    [|assumption].
  elim Hnot. apply in_map_iff. exists (t, b). auto.
Qed.

Lemma fill_takes_last_known (t t0 : Timestamp) (v v0 : float64) :
  In (t, v) (sort_and_fill (with_placeholders df grid)) ->
  ~ In t (map fst df) ->
  In (t0, v0) df -> is_nan v0 = false -> t0 < t ->
  (forall t1 v1, In (t1, v1) df -> t0 < t1 -> t1 < t -> is_nan v1 = true) ->
  v = v0.
Proof.
  intros Hin Hnot Hin0 Hv0 Hlt Hbetween.
  pose proof (synthesized_is_placeholder t v Hin Hnot) as HtW.
  assert (Hfill : In (t, v0) (sort_and_fill (with_placeholders df grid))).
  { apply (sort_and_fill_fills _ t0 t v0 None); auto.
    - apply In_with_placeholders. left. eauto.
    - intros t1 v1 Hin1 Ht1.
      apply In_with_placeholders in Hin1 as [(b & -> & Hb)|(-> & _)];
        [|reflexivity].
      simpl. apply (Hbetween t1 b); auto; lia. }
  pose proof (sort_and_fill_increasing _ distinct) as Hinc.
  apply increasing_NoDup in Hinc.
  pose proof (NoDup_keys_inj fst _ _ _ Hinc Hin Hfill eq_refl) as E.
  now injection E.
Qed.

Lemma fill_without_known_is_missing (t : Timestamp) (v : float64) :
  In (t, v) (sort_and_fill (with_placeholders df grid)) ->
  ~ In t (map fst df) ->
  (forall t0 v0, In (t0, v0) df -> t0 < t -> is_nan v0 = true) ->
  is_nan v = true.
Proof.
  intros Hin Hnot Hnone.
  destruct (sort_and_fill_source _ t v distinct Hin) as [Hv|(t0 & Hle & Hin0)];
    [assumption|].
  apply In_with_placeholders in Hin0 as [(b & [= <-] & Hb)|(Hn & _)];
    [|discriminate].
  apply (Hnone t0 v); [assumption|].
  assert (t0 <> t); [|lia].
  intros ->. apply Hnot. apply in_map_iff. exists (t, v). auto.
Qed.

End Fill.

(** C7, as the specification states it, fails. A grid instant that was not
    observed and that no observed balance precedes comes out without a
    balance: with 00:00 observed without a balance and 00:20 observed with
    2000, the instant 00:15 shows none. Nor is the balance shown that of
    the latest earlier row when that row has none: with 1000 at 00:00, no
    balance at 00:15 and 2000 at 00:45, the instant 00:30 shows 1000. *)
Lemma leading_gap_stays_missing :
  cleaned (one_file off_grid_input) "in.csv" =
    Ok [(t_2024, NaN); (t_2024 + minutes 20, float_of_Z 2000)] /\
  gap_filled (one_file off_grid_input) "in.csv" =
    Ok [(t_2024, NaN); (t_2024 + minutes 15, NaN);
        (t_2024 + minutes 20, float_of_Z 2000)] /\
  ~ filled_from_last_observed_value
      [(t_2024, NaN); (t_2024 + minutes 20, float_of_Z 2000)]
      [(t_2024, NaN); (t_2024 + minutes 15, NaN);
       (t_2024 + minutes 20, float_of_Z 2000)] /\
  cleaned (one_file blank_balance_input) "in.csv" =
    Ok [(t_2024, float_of_Z 1000); (t_2024 + minutes 15, NaN);
        (t_2024 + minutes 45, float_of_Z 2000)] /\
  gap_filled (one_file blank_balance_input) "in.csv" =
    Ok [(t_2024, float_of_Z 1000); (t_2024 + minutes 15, float_of_Z 1000);
        (t_2024 + minutes 30, float_of_Z 1000);
        (t_2024 + minutes 45, float_of_Z 2000)] /\
  ~ filled_from_last_observed_row
      [(t_2024, float_of_Z 1000); (t_2024 + minutes 15, NaN);
       (t_2024 + minutes 45, float_of_Z 2000)]
      [(t_2024, float_of_Z 1000); (t_2024 + minutes 15, float_of_Z 1000);
       (t_2024 + minutes 30, float_of_Z 1000);
       (t_2024 + minutes 45, float_of_Z 2000)].
Proof.
  split; [vm_compute; reflexivity|].
  split; [vm_compute; reflexivity|].
  split.
  { intros H.
    destruct (H (t_2024 + minutes 15) NaN) as (t0 & v0 & Hin & Hv & Hlt & _).
    - right. now left.
    - unfold t_2024, minutes, ns_per_second. simpl.
      intros [E|[E|[]]]; discriminate.
    - destruct Hin as [[= <- <-]|[[= <- <-]|[]]]; [discriminate|].
      unfold t_2024, minutes, ns_per_second in Hlt. lia. }
  split; [vm_compute; reflexivity|].
  split; [vm_compute; reflexivity|].
  intros H.
  destruct (H (t_2024 + minutes 30) (float_of_Z 1000))
    as (t0 & v0 & Hin & Hlt & Hlast & Hv).
  - right. right. now left.
  - unfold t_2024, minutes, ns_per_second. simpl.
    intros [E|[E|[E|[]]]]; discriminate.
  - assert (H15 : t_2024 + minutes 15 <= t0).
    { apply Hlast; [right; now left|].
      unfold t_2024, minutes, ns_per_second. lia. }
    destruct Hin as [[= <- <-]|[[= <- <-]|[[= <- <-]|[]]]].
    + unfold t_2024, minutes, ns_per_second in H15. lia.
    + discriminate.
    + unfold t_2024, minutes, ns_per_second in Hlt. lia.
Qed.

(** C7, amended. In the output of a successful run, the balance at a grid
    instant that was not observed is the balance of the latest earlier
    observed row whose balance is known, observed rows without a balance
    being passed over; when no earlier observed row has a balance, it is
    missing. Scenario 2: rows at 00:00 with 1000 and at 00:45 with 2000
    give the four rows 00:00, 00:15, 00:30, 00:45 with 1000, 1000, 1000,
    2000. *)
Theorem forward_fill_takes_last_known :
  (forall fs fs' file_path out,
      process_csv fs file_path = (fs', Some out) ->
      exists df res,
        cleaned fs file_path = Ok df /\ gap_filled fs file_path = Ok res /\
        out = render res /\
        (forall t v, In (t, v) res -> ~ In t (map fst df) ->
           (exists t0 v0,
              In (t0, v0) df /\ is_nan v0 = false /\ t0 < t /\
              (forall t1 v1, In (t1, v1) df -> t0 < t1 -> t1 < t ->
                             is_nan v1 = true) /\
              v = v0) \/
           ((forall t0 v0, In (t0, v0) df -> t0 < t -> is_nan v0 = true) /\
            is_nan v = true)) /\
        (forall t v, In (t, v) res -> ~ In t (map fst df) ->
         forall t0 v0, In (t0, v0) df -> is_nan v0 = false -> t0 < t ->
           (forall t1 v1, In (t1, v1) df -> t0 < t1 < t -> is_nan v1 = true) ->
           v = v0)) /\
  snd (process_csv (one_file gap_input) "in.csv") = Some gap_output.
Proof.
  split; [|vm_compute; reflexivity].
  intros fs fs' file_path out H.
  apply process_csv_Some in H as (raw & res & _ & Hc & Hf & Hg & -> & _).
  pose proof (clean_NoDup raw) as Hn.
  destruct (fill_gaps_spec _ _ Hn Hf) as (mn & mx & Hmn & Hmx & -> & HnW).
  exists (clean raw). eexists. split; [exact Hc|]. split; [exact Hg|].
  split; [reflexivity|]. split.
  - intros t v Hin Hnot.
    destruct (last_known_before (clean raw) t)
      as [Hnone|(t0 & v0 & Hin0 & Hv0 & Hlt & Hb)].
    + right. split; [assumption|].
      now apply (fill_without_known_is_missing (clean raw) _ HnW t v).
    + left. exists t0, v0. repeat split; auto.
      now apply (fill_takes_last_known (clean raw) _ HnW t t0 v v0).
  - intros t v Hin Hnot t0 v0 Hin0 Hv0 Hlt Hb.
    apply (fill_takes_last_known (clean raw) _ HnW t t0 v v0); auto.
    intros t1 v1 Hin1 H1 H2. apply (Hb t1 v1); auto.
Qed.

Lemma forward_fill_takes_last_known_witness :
  exists df res,
    cleaned (one_file off_grid_input) "in.csv" = Ok df /\
    gap_filled (one_file off_grid_input) "in.csv" = Ok res /\
    render [(t_2024, NaN); (t_2024 + minutes 15, NaN);
            (t_2024 + minutes 20, float_of_Z 2000)] = render res /\
    (forall t v, In (t, v) res -> ~ In t (map fst df) ->
       (exists t0 v0,
          In (t0, v0) df /\ is_nan v0 = false /\ t0 < t /\
          (forall t1 v1, In (t1, v1) df -> t0 < t1 -> t1 < t ->
                         is_nan v1 = true) /\
          v = v0) \/
       ((forall t0 v0, In (t0, v0) df -> t0 < t -> is_nan v0 = true) /\
        is_nan v = true)) /\
    (forall t v, In (t, v) res -> ~ In t (map fst df) ->
     forall t0 v0, In (t0, v0) df -> is_nan v0 = false -> t0 < t ->
       (forall t1 v1, In (t1, v1) df -> t0 < t1 < t -> is_nan v1 = true) ->
       v = v0).
Proof.
  apply (proj1 forward_fill_takes_last_known (one_file off_grid_input)
           (to_csv (one_file off_grid_input) "in_BD.csv"
              (render [(t_2024, NaN); (t_2024 + minutes 15, NaN);
                       (t_2024 + minutes 20, float_of_Z 2000)]))
           "in.csv"%string).
  rewrite process_csv_stages. reflexivity.
Defined.
